(** * protobuf_to_pydantic: the schema-to-model compiler and its validators

    A shallow embedding of
      - [protobuf_to_pydantic/get_desc/from_pgv/customer_validator.py]
      - [protobuf_to_pydantic/get_desc/from_pgv/__init__.py]
      - [protobuf_to_pydantic/gen_model.py]
      - [protobuf_to_pydantic/util.py]
    Python exceptions are an explicit [result]; dictionaries are [gmap]s
    (or association lists where insertion order is observable); the
    mutable module-level state lives in an explicit store. *)

From Stdlib Require Import ZArith Ascii String List Bool Lia Floats.
From stdpp Require Import gmap strings list fin_maps.

#[local] Set Warnings "-register-all".
Open Scope string_scope.

(** ** Python exceptions and results *)

Inductive exn : Type :=
  | ValueError
  | KeyError
  | TypeError
  | AttributeError
  | OverflowError
  | IndexError
  | RecursionError
  | WaitingToCompleteException
  | PydanticError (msg : string).

Inductive result (A : Type) : Type :=
  | Ok (a : A)
  | Raise (e : exn).
Arguments Ok {A} a.
Arguments Raise {A} e.

Definition rbind {A B} (r : result A) (k : A -> result B) : result B :=
  match r with
  | Ok a => k a
  | Raise e => Raise e
  end.

(** ** customer_validator.py *)

Module CustomerValidator.

(** [datetime.timedelta]: CPython keeps the normalised triple
    (days, seconds, microseconds) and compares two values as tuples. *)
Record timedelta : Type := Timedelta
  { td_days : Z; td_seconds : Z; td_microseconds : Z }.

Definition td_cmp (a b : timedelta) : comparison :=
  match Z.compare (td_days a) (td_days b) with
  | Eq =>
      match Z.compare (td_seconds a) (td_seconds b) with
      | Eq => Z.compare (td_microseconds a) (td_microseconds b)
      | c => c
      end
  | c => c
  end.

Definition td_gt (a b : timedelta) : bool :=
  match td_cmp a b with Gt => true | _ => false end.
Definition td_ge (a b : timedelta) : bool :=
  match td_cmp a b with Lt => false | _ => true end.
Definition td_lt (a b : timedelta) : bool :=
  match td_cmp a b with Lt => true | _ => false end.
Definition td_le (a b : timedelta) : bool :=
  match td_cmp a b with Gt => false | _ => true end.

(** A [timedelta] as CPython normalises it, and the duration it stands
    for in microseconds. *)
Definition td_normalized (d : timedelta) : Prop :=
  (0 <= td_seconds d < 86400)%Z /\ (0 <= td_microseconds d < 1000000)%Z.

Definition td_total_microseconds (d : timedelta) : Z :=
  ((td_days d * 86400 + td_seconds d) * 1000000 + td_microseconds d)%Z.

Section Validators.

(** [datetime.datetime] values and the conversions of the Python runtime
    and of protobuf's [Timestamp] that [timestamp_handle] calls. *)
Variable datetime : Type.
(** [Timestamp().FromJsonString(v)] then [ToMicroseconds() / 1000000];
    [None] when the string does not parse (a [ValueError]). *)
Variable timestamp_from_json : string -> option float.
(** [float(v)] on an [int]; [None] is Python's [OverflowError]. *)
Variable float_of_int : Z -> option float.
(** [v.timestamp()]. *)
Variable datetime_timestamp : datetime -> float.
(** [timedelta.total_seconds()]. *)
Variable total_seconds : timedelta -> float.

(** The values a validator can meet, as input or as a configured
    operand stored under [field_info.extra["extra"]]. *)
Inductive PyVal : Type :=
  | VNone
  | VBool (b : bool)
  | VInt (z : Z)
  | VFloat (f : float)
  | VStr (s : string)
  | VTimedelta (d : timedelta)
  | VDatetime (d : datetime).

(** [kwargs["field"]]: its [name] and its [field_info.extra]. *)
Record ModelField : Type := MkModelField
  { mf_name : string;
    mf_extra : gmap string (gmap string PyVal) }.

(** [kwargs["field"].field_info.extra["extra"][key]] *)
Definition extra_operand (field : ModelField) (key : string) : result PyVal :=
  match mf_extra field !! "extra" with
  | None => Raise KeyError
  | Some d =>
      match d !! key with
      | None => Raise KeyError
      | Some x => Ok x
      end
  end.

(** [str.startswith] *)
Definition startswith (v s : string) : bool := String.prefix s v.

Definition prefix_validator (field : ModelField) (v : string) : result string :=
  rbind (extra_operand field "prefix") (fun field_value =>
    match field_value with
    | VStr s => if negb (startswith v s) then Raise ValueError else Ok v
    | _ => Raise TypeError
    end).

Definition suffix_validator (field : ModelField) (v : string) : result string :=
  rbind (extra_operand field "suffix") (fun field_value =>
    match field_value with
    | VStr s => if negb (startswith v s) then Raise ValueError else Ok v
    | _ => Raise TypeError
    end).

(** *** duration support *)

Definition duration_lt_validator (field : ModelField) (v : timedelta) : result timedelta :=
  rbind (extra_operand field "duration_lt") (fun field_value =>
    match field_value with
    | VTimedelta b => if negb (td_gt v b) then Raise ValueError else Ok v
    | _ => Raise TypeError
    end).

Definition duration_le_validator (field : ModelField) (v : timedelta) : result timedelta :=
  rbind (extra_operand field "duration_le") (fun field_value =>
    match field_value with
    | VTimedelta b => if negb (td_ge v b) then Raise ValueError else Ok v
    | _ => Raise TypeError
    end).

Definition duration_gt_validator (field : ModelField) (v : timedelta) : result timedelta :=
  rbind (extra_operand field "duration_gt") (fun field_value =>
    match field_value with
    | VTimedelta b => if negb (td_lt v b) then Raise ValueError else Ok v
    | _ => Raise TypeError
    end).

Definition duration_ge_validator (field : ModelField) (v : timedelta) : result timedelta :=
  rbind (extra_operand field "duration_ge") (fun field_value =>
    match field_value with
    | VTimedelta b => if negb (td_le v b) then Raise ValueError else Ok v
    | _ => Raise TypeError
    end).

(** *** timestamp support *)

Definition timestamp_handle (v : PyVal) : result float :=
  match v with
  | VStr s =>
      match timestamp_from_json s with
      | Some t => Ok t
      | None => Raise ValueError
      end
  | VInt z =>
      match float_of_int z with
      | Some t => Ok t
      | None => Raise OverflowError
      end
  | VBool b =>
      (* [bool] is a subclass of [int] *)
      match float_of_int (if b then 1 else 0)%Z with
      | Some t => Ok t
      | None => Raise OverflowError
      end
  | VFloat f => Ok f
  | VDatetime d => Ok (datetime_timestamp d)
  | _ => Raise TypeError
  end.

(** [now_time] is the value [time.time()] returns during the call. *)
Definition timestamp_within_validator (now_time : float)
    (field : ModelField) (v : PyVal) : result PyVal :=
  rbind (extra_operand field "timestamp_gt") (fun operand =>
    match operand with
    | VTimedelta d =>
        let field_value := total_seconds d in
        rbind (timestamp_handle v) (fun t =>
          if negb (PrimFloat.leb (now_time - field_value) t
                   && PrimFloat.leb t (now_time - field_value))
          then Raise ValueError
          else Ok v)
    | _ => Raise AttributeError
    end).


(** *** Properties of the validators *)

Lemma td_cmp_microseconds (a b : timedelta) :
  td_normalized a -> td_normalized b ->
  td_cmp a b = Z.compare (td_total_microseconds a) (td_total_microseconds b).
Proof using Type.
  intros [Hsa Hua] [Hsb Hub]. unfold td_cmp, td_total_microseconds.
  destruct a as [da sa ua], b as [db sb ub]; simpl in *.
  symmetry.
  destruct (Z.compare_spec da db) as [Hd | Hd | Hd].
  - subst db. destruct (Z.compare_spec sa sb) as [Hs | Hs | Hs].
    + subst sb. destruct (Z.compare_spec ua ub); subst;
        [apply Z.compare_eq_iff | apply Z.compare_lt_iff | apply Z.compare_gt_iff]; lia.
    + apply Z.compare_lt_iff. lia.
    + apply Z.compare_gt_iff. lia.
  - apply Z.compare_lt_iff. nia.
  - apply Z.compare_gt_iff. nia.
Qed.

Lemma startswith_app (v s : string) :
  startswith v s = true <-> exists rest, v = s ++ rest.
Proof using Type.
  unfold startswith. revert s. induction v as [| c' v IH]; intros [| c s]; simpl.
  - split; [exists ""; reflexivity | reflexivity].
  - split; [discriminate | intros [r Hr]; discriminate].
  - split; [eexists; reflexivity | reflexivity].
  - destruct (Ascii.ascii_dec c c') as [-> | Hne].
    + rewrite IH. split; intros [r Hr]; exists r.
      * rewrite Hr. reflexivity.
      * injection Hr as Hr. exact Hr.
    + split; [discriminate | intros [r Hr]; injection Hr as Hc _; congruence].
Qed.


Lemma pos_compare_cont_opp (p q : positive) :
  PosDef.Pos.compare_cont Eq q p = CompOpp (PosDef.Pos.compare_cont Eq p q).
Proof using Type. symmetry. exact (Pos.compare_cont_antisym p q Eq). Qed.

Lemma pos_compare_cont_eq (p q : positive) :
  PosDef.Pos.compare_cont Eq p q = Eq -> p = q.
Proof using Type. exact (Pos.compare_eq p q). Qed.

Lemma SFcompare_opp (x y : SpecFloat.spec_float) (c : comparison) :
  SpecFloat.SFcompare x y = Some c -> SpecFloat.SFcompare y x = Some (CompOpp c).
Proof using Type.
  destruct x as [sx | sx | | sx mx ex], y as [sy | sy | | sy my ey]; simpl;
    try discriminate;
    try (destruct sx); try (destruct sy); simpl;
    try (intros H; injection H as <-; reflexivity).
  - intros H; injection H as <-. rewrite (Z.compare_antisym ex ey).
    destruct (ex ?= ey)%Z; simpl; try reflexivity.
    rewrite (pos_compare_cont_opp mx my). reflexivity.
  - intros H; injection H as <-. rewrite (Z.compare_antisym ex ey).
    destruct (ex ?= ey)%Z; simpl; try reflexivity.
    rewrite (pos_compare_cont_opp mx my). reflexivity.
Qed.

(** A closed float interval whose two ends are the same value holds
    exactly the floats equal to that value. *)
Lemma float_leb_both (a t : float) :
  (PrimFloat.leb a t && PrimFloat.leb t a)%bool = PrimFloat.eqb t a.
Proof using Type.
  rewrite !FloatAxioms.leb_spec, FloatAxioms.eqb_spec. unfold SpecFloat.SFleb, SpecFloat.SFeqb.
  destruct (SpecFloat.SFcompare (Prim2SF a) (Prim2SF t)) as [c |] eqn:Hat.
  - rewrite (SFcompare_opp _ _ _ Hat). destruct c; reflexivity.
  - destruct (SpecFloat.SFcompare (Prim2SF t) (Prim2SF a)) as [c |] eqn:Hta;
      [| reflexivity].
    apply SFcompare_opp in Hta. congruence.
Qed.

Lemma SFcompare_eq_trans (x y a : SpecFloat.spec_float) :
  SpecFloat.SFcompare x a = Some Eq -> SpecFloat.SFcompare y a = Some Eq ->
  SpecFloat.SFcompare x y = Some Eq.
Proof using Type.
  destruct x as [sx | sx | | sx mx ex], y as [sy | sy | | sy my ey],
    a as [sa | sa | | sa ma ea]; simpl; try discriminate; try reflexivity;
    try (destruct sx); try (destruct sy); try (destruct sa); simpl;
    try discriminate; try reflexivity.
  - intros Hx Hy. injection Hx as Hx. injection Hy as Hy.
    destruct (Z.compare_spec ex ea); try discriminate.
    destruct (Z.compare_spec ey ea); try discriminate. subst.
    rewrite Z.compare_refl.
    destruct (PosDef.Pos.compare_cont Eq mx ma) eqn:Hmx; try discriminate.
    destruct (PosDef.Pos.compare_cont Eq my ma) eqn:Hmy; try discriminate.
    apply pos_compare_cont_eq in Hmx, Hmy. subst.
    change (PosDef.Pos.compare_cont Eq ma ma) with (Pos.compare ma ma).
    rewrite Pos.compare_refl. reflexivity.
  - intros Hx Hy. injection Hx as Hx. injection Hy as Hy.
    destruct (Z.compare_spec ex ea); try discriminate.
    destruct (Z.compare_spec ey ea); try discriminate. subst.
    rewrite Z.compare_refl.
    destruct (PosDef.Pos.compare_cont Eq mx ma) eqn:Hmx; try discriminate.
    destruct (PosDef.Pos.compare_cont Eq my ma) eqn:Hmy; try discriminate.
    apply pos_compare_cont_eq in Hmx, Hmy. subst.
    change (PosDef.Pos.compare_cont Eq ma ma) with (Pos.compare ma ma).
    rewrite Pos.compare_refl. reflexivity.
Qed.

(** C8. The 'within' validator builds both ends of its window from the one
    operand read under [timestamp_gt]: it accepts a value exactly when the
    converted timestamp equals [now_time - operand seconds], raises
    [ValueError] for every other converted timestamp, and no two accepted
    timestamps are strictly ordered (the window has no positive width). *)
Theorem timestamp_within_window_is_a_point
    (now_time : float) (field : ModelField) (v : PyVal) (d : timedelta) (t : float) :
  extra_operand field "timestamp_gt" = Ok (VTimedelta d) ->
  timestamp_handle v = Ok t ->
  (timestamp_within_validator now_time field v = Ok v
     <-> PrimFloat.eqb t (now_time - total_seconds d) = true) /\
  (PrimFloat.eqb t (now_time - total_seconds d) = false ->
     timestamp_within_validator now_time field v = Raise ValueError) /\
  (forall (v' : PyVal) (t' : float),
     timestamp_handle v' = Ok t' ->
     timestamp_within_validator now_time field v = Ok v ->
     timestamp_within_validator now_time field v' = Ok v' ->
     PrimFloat.ltb t t' = false).
Proof using Type.
  intros Hop Ht.
  assert (Hunfold : forall w tw, timestamp_handle w = Ok tw ->
            timestamp_within_validator now_time field w =
            if negb (PrimFloat.eqb tw (now_time - total_seconds d))
            then Raise ValueError else Ok w).
  { intros w tw Hw. unfold timestamp_within_validator.
    rewrite Hop. simpl. rewrite Hw. simpl. rewrite float_leb_both. reflexivity. }
  split; [| split].
  - rewrite (Hunfold v t Ht).
    destruct (PrimFloat.eqb t (now_time - total_seconds d)); simpl;
      split; congruence.
  - intros Hne. rewrite (Hunfold v t Ht), Hne. reflexivity.
  - intros v' t' Ht' Hv Hv'.
    rewrite (Hunfold v t Ht) in Hv. rewrite (Hunfold v' t' Ht') in Hv'.
    destruct (PrimFloat.eqb t (now_time - total_seconds d)) eqn:E; [| discriminate].
    destruct (PrimFloat.eqb t' (now_time - total_seconds d)) eqn:E'; [| discriminate].
    rewrite FloatAxioms.eqb_spec in E, E'. rewrite FloatAxioms.ltb_spec.
    unfold SpecFloat.SFeqb in E, E'. unfold SpecFloat.SFltb.
    destruct (SpecFloat.SFcompare (Prim2SF t) _) as [[ | | ] |] eqn:C; try discriminate.
    destruct (SpecFloat.SFcompare (Prim2SF t') _) as [[ | | ] |] eqn:C'; try discriminate.
    rewrite (SFcompare_eq_trans _ _ _ C C'). reflexivity.
Qed.

(** What each duration validator computes once its own operand is read. *)
Lemma duration_lt_validator_run (field : ModelField) (v b : timedelta) :
  extra_operand field "duration_lt" = Ok (VTimedelta b) ->
  duration_lt_validator field v = if td_gt v b then Ok v else Raise ValueError.
Proof using Type.
  intros H. unfold duration_lt_validator. rewrite H. simpl.
  destruct (td_gt v b); reflexivity.
Qed.

Lemma duration_gt_validator_run (field : ModelField) (v b : timedelta) :
  extra_operand field "duration_gt" = Ok (VTimedelta b) ->
  duration_gt_validator field v = if td_lt v b then Ok v else Raise ValueError.
Proof using Type.
  intros H. unfold duration_gt_validator. rewrite H. simpl.
  destruct (td_lt v b); reflexivity.
Qed.

(** C9. On durations as CPython keeps them, whatever else the field
    carries: with an operand under [duration_lt], the 'lt' validator returns
    its input exactly when the input is strictly greater than the operand
    and raises [ValueError] exactly when it is less or equal; with an
    operand under [duration_gt], the 'gt' validator accepts exactly the
    inputs strictly less than its operand and raises [ValueError] on the
    others. *)
Theorem duration_lt_gt_validators_are_reversed (field : ModelField) (v : timedelta) :
  td_normalized v ->
  (forall b : timedelta,
     td_normalized b ->
     extra_operand field "duration_lt" = Ok (VTimedelta b) ->
     (duration_lt_validator field v = Ok v
        <-> (td_total_microseconds v > td_total_microseconds b)%Z) /\
     (duration_lt_validator field v = Raise ValueError
        <-> (td_total_microseconds v <= td_total_microseconds b)%Z)) /\
  (forall b : timedelta,
     td_normalized b ->
     extra_operand field "duration_gt" = Ok (VTimedelta b) ->
     (duration_gt_validator field v = Ok v
        <-> (td_total_microseconds v < td_total_microseconds b)%Z) /\
     (duration_gt_validator field v = Raise ValueError
        <-> (td_total_microseconds v >= td_total_microseconds b)%Z)).
Proof using Type.
  intros Nv. split; intros b Nb Hop.
  - rewrite (duration_lt_validator_run field v b Hop). unfold td_gt.
    rewrite (td_cmp_microseconds v b Nv Nb).
    destruct (Z.compare_spec (td_total_microseconds v) (td_total_microseconds b));
      simpl; repeat split; intros; try discriminate; try lia; try reflexivity.
  - rewrite (duration_gt_validator_run field v b Hop). unfold td_lt.
    rewrite (td_cmp_microseconds v b Nv Nb).
    destruct (Z.compare_spec (td_total_microseconds v) (td_total_microseconds b));
      simpl; repeat split; intros; try discriminate; try lia; try reflexivity.
Qed.

(** C10. The suffix validator accepts a string exactly when it starts with
    the operand; a string that ends with the operand without starting with
    it is rejected with [ValueError]. *)
Theorem suffix_validator_tests_the_prefix (field : ModelField) (v s : string) :
  extra_operand field "suffix" = Ok (VStr s) ->
  (suffix_validator field v = Ok v <-> exists rest, v = s ++ rest) /\
  (suffix_validator field v = Raise ValueError
     <-> ~ exists rest, v = s ++ rest) /\
  ((exists front, v = front ++ s) -> (~ exists rest, v = s ++ rest) ->
     suffix_validator field v = Raise ValueError).
Proof using Type.
  intros Hop. unfold suffix_validator. rewrite Hop. simpl.
  pose proof (startswith_app v s) as Hp.
  destruct (startswith v s); simpl.
  - assert (He : exists rest, v = s ++ rest) by (apply Hp; reflexivity).
    split; [split; [intros _; exact He | reflexivity] |].
    split; [split; [discriminate | intros Hn; destruct (Hn He)] |].
    intros _ Hn. destruct (Hn He).
  - assert (Hn : ~ exists rest, v = s ++ rest)
      by (intros He; apply Hp in He; discriminate).
    split; [split; [discriminate | intros He; destruct (Hn He)] |].
    split; [split; [intros _; exact Hn | reflexivity] |].
    intros _ _. reflexivity.
Qed.

(** *** contains and not_contains *)

(** [a in b] on two strings: [a] occurs in [b]. *)
Fixpoint occurs (a b : string) : bool :=
  String.prefix a b
  || match b with
     | EmptyString => false
     | String _ b' => occurs a b'
     end.

Definition contains_validator (field : ModelField) (v : string) : result string :=
  rbind (extra_operand field "contains") (fun field_value =>
    match field_value with
    | VStr s => if negb (occurs v s) then Raise ValueError else Ok v
    | _ => Raise TypeError
    end).

Definition not_contains_validator (field : ModelField) (v : string) : result string :=
  rbind (extra_operand field "not_contains") (fun field_value =>
    match field_value with
    | VStr s => if occurs v s then Raise ValueError else Ok v
    | _ => Raise TypeError
    end).

Lemma occurs_app (a b : string) :
  occurs a b = true <-> exists pre post, b = pre ++ a ++ post.
Proof using Type.
  split.
  - induction b as [| c b IH]; simpl; intros H.
    + apply orb_true_iff in H as [H | H]; [| discriminate].
      apply (startswith_app "" a) in H as [rest Hr]. exists "", rest. exact Hr.
    + apply orb_true_iff in H as [H | H].
      * apply (startswith_app (String c b) a) in H as [rest Hr].
        exists "", rest. exact Hr.
      * destruct (IH H) as (pre & post & ->). exists (String c pre), post. reflexivity.
  - intros (pre & post & ->). induction pre as [| c pre IH].
    + assert (H : String.prefix a (a ++ post) = true)
        by (apply (startswith_app (a ++ post) a); exists post; reflexivity).
      change ("" ++ a ++ post) with (a ++ post).
      destruct (a ++ post); simpl; simpl in H; rewrite H; reflexivity.
    + change (occurs a (String c (pre ++ a ++ post)) = true). simpl.
      rewrite IH. apply orb_true_r.
Qed.

Lemma length_app (a b : string) :
  String.length (a ++ b) = String.length a + String.length b.
Proof using Type.
  induction a as [| c a IH]; [reflexivity |].
  change (S (String.length (a ++ b)) = S (String.length a + String.length b)).
  rewrite IH. reflexivity.
Qed.

Lemma occurs_length (a b : string) :
  occurs a b = true -> String.length a <= String.length b.
Proof using Type.
  intros H. apply occurs_app in H as (pre & post & ->).
  rewrite !length_app. lia.
Qed.

(** The contains validator looks for the validated string inside the
    operand, not for the operand inside the validated string: with an
    operand under [contains], whatever else the field carries, it accepts
    exactly the strings that occur in its operand, so every string longer
    than the operand is rejected, whether or not the operand occurs in it.
    With an operand under [not_contains], the not_contains validator rejects
    exactly the strings that occur in its operand and accepts every longer
    one. *)
Theorem contains_validators_search_the_operand (field : ModelField) (v : string) :
  (forall s : string,
     extra_operand field "contains" = Ok (VStr s) ->
     (contains_validator field v = Ok v <-> exists pre post, s = pre ++ v ++ post) /\
     (contains_validator field v = Raise ValueError
        <-> ~ exists pre post, s = pre ++ v ++ post) /\
     (String.length s < String.length v ->
        contains_validator field v = Raise ValueError)) /\
  (forall s' : string,
     extra_operand field "not_contains" = Ok (VStr s') ->
     (not_contains_validator field v = Ok v
        <-> ~ exists pre post, s' = pre ++ v ++ post) /\
     (not_contains_validator field v = Raise ValueError
        <-> exists pre post, s' = pre ++ v ++ post) /\
     (String.length s' < String.length v -> not_contains_validator field v = Ok v)).
Proof using Type.
  split.
  - intros s Hc. unfold contains_validator. rewrite Hc. simpl.
    pose proof (occurs_app v s) as Hs. pose proof (occurs_length v s) as Ls.
    split; [| split].
    + destruct (occurs v s); simpl.
      * split; [intros _; apply Hs; reflexivity | reflexivity].
      * split; [discriminate | intros He; apply Hs in He; discriminate].
    + destruct (occurs v s); simpl.
      * split; [discriminate | intros Hx; destruct Hx; apply Hs; reflexivity].
      * split; [intros _ He; apply Hs in He; discriminate | reflexivity].
    + intros Hlen. destruct (occurs v s); simpl; [| reflexivity].
      specialize (Ls eq_refl). lia.
  - intros s' Hn. unfold not_contains_validator. rewrite Hn. simpl.
    pose proof (occurs_app v s') as Hs'. pose proof (occurs_length v s') as Ls'.
    split; [| split].
    + destruct (occurs v s'); simpl.
      * split; [discriminate | intros Hx; destruct Hx; apply Hs'; reflexivity].
      * split; [intros _ He; apply Hs' in He; discriminate | reflexivity].
    + destruct (occurs v s'); simpl.
      * split; [intros _; apply Hs'; reflexivity | reflexivity].
      * split; [discriminate | intros He; apply Hs' in He; discriminate].
    + intros Hlen. destruct (occurs v s'); simpl; [| reflexivity].
      specialize (Ls' eq_refl). lia.
Qed.

(** *** The validators that compare with the current time *)

(** Python truthiness of an operand. *)
Definition py_truthy (v : PyVal) : bool :=
  match v with
  | VNone => false
  | VBool b => b
  | VInt z => negb (Z.eqb z 0)
  | VFloat f => negb (PrimFloat.eqb f 0)
  | VStr s => negb (String.eqb s "")
  | VTimedelta d =>
      negb (Z.eqb (td_days d) 0 && Z.eqb (td_seconds d) 0
            && Z.eqb (td_microseconds d) 0)
  | VDatetime _ => true
  end.

Definition timestamp_lt_now_validator (now_time : float)
    (field : ModelField) (v : PyVal) : result PyVal :=
  rbind (extra_operand field "timestamp_lt") (fun field_value =>
    rbind (timestamp_handle v) (fun t =>
      if negb (PrimFloat.ltb now_time t && py_truthy field_value)
      then Raise ValueError
      else Ok v)).

Definition timestamp_gt_now_validator (now_time : float)
    (field : ModelField) (v : PyVal) : result PyVal :=
  rbind (extra_operand field "timestamp_gt") (fun field_value =>
    rbind (timestamp_handle v) (fun t =>
      if negb (PrimFloat.ltb t now_time && py_truthy field_value)
      then Raise ValueError
      else Ok v)).

(** Two floats that compare equal are not strictly ordered, either way. *)
Lemma float_eqb_not_ltb (t now_time : float) :
  PrimFloat.eqb t now_time = true ->
  PrimFloat.ltb now_time t = false /\ PrimFloat.ltb t now_time = false.
Proof using Type.
  intros He.
  rewrite FloatAxioms.eqb_spec in He. rewrite !FloatAxioms.ltb_spec.
  unfold SpecFloat.SFeqb in He. unfold SpecFloat.SFltb.
  destruct (SpecFloat.SFcompare (Prim2SF t) (Prim2SF now_time))
    as [[ | | ] |] eqn:C; try discriminate.
  rewrite (SFcompare_opp _ _ _ C). split; reflexivity.
Qed.

(** The 'lt_now' validator reads the operand stored under [timestamp_lt]:
    with an operand there, whatever else the field carries, it accepts
    exactly the timestamps strictly after the current time (when that
    operand is truthy) and raises [ValueError] on every other one. The
    'gt_now' validator reads [timestamp_gt]: with an operand there it
    accepts exactly the timestamps strictly before the current time (when
    the operand is truthy) and raises [ValueError] on every other one. A
    value at the current time is rejected by each of them. *)
Theorem now_validators_are_reversed
    (now_time : float) (field : ModelField) (v : PyVal) (t : float) :
  timestamp_handle v = Ok t ->
  (forall lt : PyVal,
     extra_operand field "timestamp_lt" = Ok lt ->
     (timestamp_lt_now_validator now_time field v = Ok v
        <-> PrimFloat.ltb now_time t = true /\ py_truthy lt = true) /\
     (timestamp_lt_now_validator now_time field v = Raise ValueError
        <-> ~ (PrimFloat.ltb now_time t = true /\ py_truthy lt = true)) /\
     (PrimFloat.eqb t now_time = true ->
        timestamp_lt_now_validator now_time field v = Raise ValueError)) /\
  (forall gt : PyVal,
     extra_operand field "timestamp_gt" = Ok gt ->
     (timestamp_gt_now_validator now_time field v = Ok v
        <-> PrimFloat.ltb t now_time = true /\ py_truthy gt = true) /\
     (timestamp_gt_now_validator now_time field v = Raise ValueError
        <-> ~ (PrimFloat.ltb t now_time = true /\ py_truthy gt = true)) /\
     (PrimFloat.eqb t now_time = true ->
        timestamp_gt_now_validator now_time field v = Raise ValueError)).
Proof using Type.
  intros Ht. split.
  - intros lt Hlt. unfold timestamp_lt_now_validator.
    rewrite Hlt. simpl. rewrite Ht. simpl.
    split; [| split].
    + destruct (PrimFloat.ltb now_time t), (py_truthy lt); simpl;
        split; try discriminate; try (intros [? ?]; discriminate); auto.
    + destruct (PrimFloat.ltb now_time t), (py_truthy lt); simpl;
        split; try discriminate; try reflexivity;
        try (intros _ [? ?]; discriminate);
        intros Hn; destruct Hn; split; reflexivity.
    + intros He. destruct (float_eqb_not_ltb t now_time He) as [-> _]. reflexivity.
  - intros gt Hgt. unfold timestamp_gt_now_validator.
    rewrite Hgt. simpl. rewrite Ht. simpl.
    split; [| split].
    + destruct (PrimFloat.ltb t now_time), (py_truthy gt); simpl;
        split; try discriminate; try (intros [? ?]; discriminate); auto.
    + destruct (PrimFloat.ltb t now_time), (py_truthy gt); simpl;
        split; try discriminate; try reflexivity;
        try (intros _ [? ?]; discriminate);
        intros Hn; destruct Hn; split; reflexivity.
    + intros He. destruct (float_eqb_not_ltb t now_time He) as [_ ->]. reflexivity.
Qed.

(** *** The other duration validators and the prefix validator *)

Definition td_eqb (a b : timedelta) : bool :=
  match td_cmp a b with Eq => true | _ => false end.

(** [v != field_value]: an operand that is no [timedelta] is unequal to
    every duration. *)
Definition duration_const_validator (field : ModelField) (v : timedelta)
    : result timedelta :=
  rbind (extra_operand field "duration_const") (fun field_value =>
    match field_value with
    | VTimedelta b => if negb (td_eqb v b) then Raise ValueError else Ok v
    | _ => Raise ValueError
    end).

(** On durations as CPython keeps them, whatever else the field carries:
    with an operand under [duration_le], the 'le' validator accepts exactly
    the inputs greater than or equal to its operand; with an operand under
    [duration_ge], the 'ge' validator accepts exactly the inputs less than
    or equal to its operand; with an operand under [duration_const], the
    'const' validator accepts exactly the inputs of the operand's length.
    Each raises [ValueError] on the inputs it does not accept, and a
    duration equal to the operand passes each of the three. *)
Theorem duration_le_ge_validators_are_reversed (field : ModelField) (v : timedelta) :
  td_normalized v ->
  (forall b : timedelta,
     td_normalized b ->
     extra_operand field "duration_le" = Ok (VTimedelta b) ->
     (duration_le_validator field v = Ok v
        <-> (td_total_microseconds v >= td_total_microseconds b)%Z) /\
     (duration_le_validator field v = Raise ValueError
        <-> (td_total_microseconds v < td_total_microseconds b)%Z)) /\
  (forall b : timedelta,
     td_normalized b ->
     extra_operand field "duration_ge" = Ok (VTimedelta b) ->
     (duration_ge_validator field v = Ok v
        <-> (td_total_microseconds v <= td_total_microseconds b)%Z) /\
     (duration_ge_validator field v = Raise ValueError
        <-> (td_total_microseconds v > td_total_microseconds b)%Z)) /\
  (forall b : timedelta,
     td_normalized b ->
     extra_operand field "duration_const" = Ok (VTimedelta b) ->
     (duration_const_validator field v = Ok v
        <-> td_total_microseconds v = td_total_microseconds b) /\
     (duration_const_validator field v = Raise ValueError
        <-> td_total_microseconds v <> td_total_microseconds b)).
Proof using Type.
  intros Nv. split; [| split]; intros b Nb Hop.
  - unfold duration_le_validator. rewrite Hop. simpl. unfold td_ge.
    rewrite (td_cmp_microseconds v b Nv Nb).
    destruct (Z.compare_spec (td_total_microseconds v) (td_total_microseconds b));
      simpl; repeat split; intros; try discriminate; try lia; try reflexivity.
  - unfold duration_ge_validator. rewrite Hop. simpl. unfold td_le.
    rewrite (td_cmp_microseconds v b Nv Nb).
    destruct (Z.compare_spec (td_total_microseconds v) (td_total_microseconds b));
      simpl; repeat split; intros; try discriminate; try lia; try reflexivity.
  - unfold duration_const_validator. rewrite Hop. simpl. unfold td_eqb.
    rewrite (td_cmp_microseconds v b Nv Nb).
    destruct (Z.compare_spec (td_total_microseconds v) (td_total_microseconds b));
      simpl; repeat split; intros; try discriminate; try lia; try reflexivity.
Qed.

(** The prefix validator accepts a string exactly when it starts with the
    operand, and raises [ValueError] for every other string. *)
Theorem prefix_validator_tests_the_prefix (field : ModelField) (v s : string) :
  extra_operand field "prefix" = Ok (VStr s) ->
  (prefix_validator field v = Ok v <-> exists rest, v = s ++ rest) /\
  (prefix_validator field v = Raise ValueError <-> ~ exists rest, v = s ++ rest).
Proof using Type.
  intros Hop. unfold prefix_validator. rewrite Hop. simpl.
  pose proof (startswith_app v s) as Hp.
  destruct (startswith v s); simpl.
  - assert (He : exists rest, v = s ++ rest) by (apply Hp; reflexivity).
    split; [split; [intros _; exact He | reflexivity] |].
    split; [discriminate | intros Hn; destruct (Hn He)].
  - assert (Hn : ~ exists rest, v = s ++ rest)
      by (intros He; apply Hp in He; discriminate).
    split; [split; [discriminate | intros He; destruct (Hn He)] |].
    split; [intros _; exact Hn | reflexivity].
Qed.

End Validators.

Arguments VNone {datetime}.
Arguments VBool {datetime} b.
Arguments VInt {datetime} z.
Arguments VFloat {datetime} f.
Arguments VStr {datetime} s.
Arguments VTimedelta {datetime} d.
Arguments VDatetime {datetime} d.
Arguments MkModelField {datetime} _ _.
Arguments mf_name {datetime} _.
Arguments mf_extra {datetime} _.

(** *** The validators at concrete inputs *)

(** A field whose [extra] carries a five-second operand for the duration
    and the 'within' validators and the operand [bc] for the suffix
    validator. *)
Definition demo_field : ModelField unit :=
  MkModelField "f"
    {[ "extra" :=
         {[ "suffix" := VStr "bc";
            "duration_lt" := VTimedelta (Timedelta 0 5 0);
            "duration_gt" := VTimedelta (Timedelta 0 5 0);
            "timestamp_gt" := VTimedelta (Timedelta 0 5 0) ]} ]}.

(** Whole seconds of a duration as a float (enough for the inputs below). *)
Definition demo_total_seconds (d : timedelta) : float :=
  PrimFloat.of_uint63 (Uint63.of_Z (td_total_microseconds d / 1000000)).

Lemma timestamp_within_witness :
  timestamp_within_validator unit (fun _ => None) (fun _ => None) (fun _ => 0%float)
    demo_total_seconds 100%float demo_field (VFloat 96%float) = Raise ValueError.
Proof.
  apply (timestamp_within_window_is_a_point unit (fun _ => None) (fun _ => None)
           (fun _ => 0%float) demo_total_seconds 100%float demo_field
           (VFloat 96%float) (Timedelta 0 5 0) 96%float).
  - vm_compute. reflexivity.
  - reflexivity.
  - vm_compute. reflexivity.
Defined.

(** A field that carries a five-second operand for the 'lt' rule only, and
    one that carries it for the 'gt' rule only. *)
Definition demo_lt_field : ModelField unit :=
  MkModelField "f" {[ "extra" := {[ "duration_lt" := VTimedelta (Timedelta 0 5 0) ]} ]}.

Definition demo_gt_field : ModelField unit :=
  MkModelField "f" {[ "extra" := {[ "duration_gt" := VTimedelta (Timedelta 0 5 0) ]} ]}.

Lemma duration_lt_gt_witness :
  (duration_lt_validator unit demo_lt_field (Timedelta 0 7 0) = Ok (Timedelta 0 7 0) /\
   duration_lt_validator unit demo_lt_field (Timedelta 0 5 0) = Raise ValueError) /\
  (duration_gt_validator unit demo_gt_field (Timedelta 0 7 0) = Raise ValueError /\
   duration_gt_validator unit demo_gt_field (Timedelta 0 3 0) = Ok (Timedelta 0 3 0)).
Proof.
  assert (N3 : td_normalized (Timedelta 0 3 0)) by (unfold td_normalized; simpl; lia).
  assert (N5 : td_normalized (Timedelta 0 5 0)) by (unfold td_normalized; simpl; lia).
  assert (N7 : td_normalized (Timedelta 0 7 0)) by (unfold td_normalized; simpl; lia).
  destruct (duration_lt_gt_validators_are_reversed unit demo_lt_field
              (Timedelta 0 7 0) N7) as [Hlt7 _].
  destruct (Hlt7 (Timedelta 0 5 0) N5 eq_refl) as [Hlt7_ok _].
  destruct (duration_lt_gt_validators_are_reversed unit demo_lt_field
              (Timedelta 0 5 0) N5) as [Hlt5 _].
  destruct (Hlt5 (Timedelta 0 5 0) N5 eq_refl) as [_ Hlt5_raise].
  destruct (duration_lt_gt_validators_are_reversed unit demo_gt_field
              (Timedelta 0 7 0) N7) as [_ Hgt7].
  destruct (Hgt7 (Timedelta 0 5 0) N5 eq_refl) as [_ Hgt7_raise].
  destruct (duration_lt_gt_validators_are_reversed unit demo_gt_field
              (Timedelta 0 3 0) N3) as [_ Hgt3].
  destruct (Hgt3 (Timedelta 0 5 0) N5 eq_refl) as [Hgt3_ok _].
  split; split.
  - apply Hlt7_ok. vm_compute. reflexivity.
  - apply Hlt5_raise. vm_compute. discriminate.
  - apply Hgt7_raise. vm_compute. discriminate.
  - apply Hgt3_ok. vm_compute. reflexivity.
Defined.

Lemma suffix_validator_witness :
  suffix_validator unit demo_field "abc" = Raise ValueError.
Proof.
  destruct (suffix_validator_tests_the_prefix unit demo_field "abc" "bc")
    as (_ & _ & H).
  - vm_compute. reflexivity.
  - apply H.
    + exists "a". reflexivity.
    + intros [rest Hrest]. discriminate Hrest.
Defined.

(** A field whose rules only ask that it contains [bar], one whose rules
    only ask that it does not contain [foo], and fields with a [lt_now] or a
    [gt_now] operand alone, as they are read: under [timestamp_lt] and
    [timestamp_gt]. *)
Definition demo_contains_field : ModelField unit :=
  MkModelField "f" {[ "extra" := {[ "contains" := VStr "bar" ]} ]}.

Definition demo_not_contains_field : ModelField unit :=
  MkModelField "f" {[ "extra" := {[ "not_contains" := VStr "foo" ]} ]}.

Definition demo_lt_now_field : ModelField unit :=
  MkModelField "f" {[ "extra" := {[ "timestamp_lt" := VBool true ]} ]}.

Definition demo_gt_now_field : ModelField unit :=
  MkModelField "f" {[ "extra" := {[ "timestamp_gt" := VBool true ]} ]}.

(** A field with the prefix [ab] and five-second operands for the 'le',
    'ge' and 'const' duration rules, and fields that carry one of these
    duration operands alone. *)
Definition demo_duration_field : ModelField unit :=
  MkModelField "f"
    {[ "extra" :=
         {[ "prefix" := VStr "ab";
            "duration_le" := VTimedelta (Timedelta 0 5 0);
            "duration_ge" := VTimedelta (Timedelta 0 5 0);
            "duration_const" := VTimedelta (Timedelta 0 5 0) ]} ]}.

Definition demo_le_field : ModelField unit :=
  MkModelField "f" {[ "extra" := {[ "duration_le" := VTimedelta (Timedelta 0 5 0) ]} ]}.

Definition demo_ge_field : ModelField unit :=
  MkModelField "f" {[ "extra" := {[ "duration_ge" := VTimedelta (Timedelta 0 5 0) ]} ]}.

Definition demo_const_field : ModelField unit :=
  MkModelField "f" {[ "extra" := {[ "duration_const" := VTimedelta (Timedelta 0 5 0) ]} ]}.

Lemma contains_validators_witness :
  contains_validator unit demo_contains_field "foobar" = Raise ValueError
  /\ contains_validator unit demo_contains_field "ar" = Ok "ar"
  /\ not_contains_validator unit demo_not_contains_field "foobar" = Ok "foobar"
  /\ not_contains_validator unit demo_not_contains_field "oo" = Raise ValueError.
Proof.
  destruct (contains_validators_search_the_operand unit demo_contains_field "foobar")
    as [Hc _].
  destruct (Hc "bar" eq_refl) as (_ & _ & Hc_long).
  destruct (contains_validators_search_the_operand unit demo_contains_field "ar")
    as [Hc' _].
  destruct (Hc' "bar" eq_refl) as (Hc_ok & _ & _).
  destruct (contains_validators_search_the_operand unit demo_not_contains_field "foobar")
    as [_ Hn].
  destruct (Hn "foo" eq_refl) as (_ & _ & Hn_long).
  destruct (contains_validators_search_the_operand unit demo_not_contains_field "oo")
    as [_ Hn'].
  destruct (Hn' "foo" eq_refl) as (_ & Hn_raise & _).
  split; [| split; [| split]].
  - apply Hc_long. simpl. lia.
  - apply Hc_ok. exists "b", "". reflexivity.
  - apply Hn_long. simpl. lia.
  - apply Hn_raise. exists "f", "". reflexivity.
Defined.

Lemma now_validators_witness :
  timestamp_lt_now_validator unit (fun _ => None) (fun _ => None) (fun _ => 0%float)
    100%float demo_lt_now_field (VFloat 100%float) = Raise ValueError
  /\ timestamp_lt_now_validator unit (fun _ => None) (fun _ => None) (fun _ => 0%float)
       100%float demo_lt_now_field (VFloat 101%float) = Ok (VFloat 101%float)
  /\ timestamp_gt_now_validator unit (fun _ => None) (fun _ => None) (fun _ => 0%float)
       100%float demo_gt_now_field (VFloat 100%float) = Raise ValueError
  /\ timestamp_gt_now_validator unit (fun _ => None) (fun _ => None) (fun _ => 0%float)
       100%float demo_gt_now_field (VFloat 99%float) = Ok (VFloat 99%float).
Proof.
  destruct (now_validators_are_reversed unit (fun _ => None) (fun _ => None)
              (fun _ => 0%float) 100%float demo_lt_now_field (VFloat 100%float)
              100%float eq_refl) as [Hlt _].
  destruct (Hlt (VBool true) eq_refl) as (_ & _ & Hlt_now).
  destruct (now_validators_are_reversed unit (fun _ => None) (fun _ => None)
              (fun _ => 0%float) 100%float demo_lt_now_field (VFloat 101%float)
              101%float eq_refl) as [Hlt' _].
  destruct (Hlt' (VBool true) eq_refl) as (Hlt_ok & _ & _).
  destruct (now_validators_are_reversed unit (fun _ => None) (fun _ => None)
              (fun _ => 0%float) 100%float demo_gt_now_field (VFloat 100%float)
              100%float eq_refl) as [_ Hgt].
  destruct (Hgt (VBool true) eq_refl) as (_ & _ & Hgt_now).
  destruct (now_validators_are_reversed unit (fun _ => None) (fun _ => None)
              (fun _ => 0%float) 100%float demo_gt_now_field (VFloat 99%float)
              99%float eq_refl) as [_ Hgt'].
  destruct (Hgt' (VBool true) eq_refl) as (Hgt_ok & _ & _).
  split; [| split; [| split]].
  - apply Hlt_now. vm_compute. reflexivity.
  - apply Hlt_ok. split; vm_compute; reflexivity.
  - apply Hgt_now. vm_compute. reflexivity.
  - apply Hgt_ok. split; vm_compute; reflexivity.
Defined.

Lemma duration_le_ge_witness :
  duration_le_validator unit demo_le_field (Timedelta 0 3 0) = Raise ValueError
  /\ duration_ge_validator unit demo_ge_field (Timedelta 0 3 0) = Ok (Timedelta 0 3 0)
  /\ duration_const_validator unit demo_const_field (Timedelta 0 3 0)
     = Raise ValueError.
Proof.
  assert (N3 : td_normalized (Timedelta 0 3 0)) by (unfold td_normalized; simpl; lia).
  assert (N5 : td_normalized (Timedelta 0 5 0)) by (unfold td_normalized; simpl; lia).
  destruct (duration_le_ge_validators_are_reversed unit demo_le_field
              (Timedelta 0 3 0) N3) as (Hle & _ & _).
  destruct (Hle (Timedelta 0 5 0) N5 eq_refl) as [_ Hle_raise].
  destruct (duration_le_ge_validators_are_reversed unit demo_ge_field
              (Timedelta 0 3 0) N3) as (_ & Hge & _).
  destruct (Hge (Timedelta 0 5 0) N5 eq_refl) as [Hge_ok _].
  destruct (duration_le_ge_validators_are_reversed unit demo_const_field
              (Timedelta 0 3 0) N3) as (_ & _ & Hc).
  destruct (Hc (Timedelta 0 5 0) N5 eq_refl) as [_ Hc_raise].
  split; [| split].
  - apply Hle_raise. vm_compute. reflexivity.
  - apply Hge_ok. vm_compute. discriminate.
  - apply Hc_raise. vm_compute. discriminate.
Defined.

Lemma prefix_validator_witness :
  prefix_validator unit demo_duration_field "abc" = Ok "abc"
  /\ prefix_validator unit demo_duration_field "cab" = Raise ValueError.
Proof.
  split.
  - apply (prefix_validator_tests_the_prefix unit demo_duration_field "abc" "ab").
    + vm_compute. reflexivity.
    + exists "c". reflexivity.
  - apply (prefix_validator_tests_the_prefix unit demo_duration_field "cab" "ab").
    + vm_compute. reflexivity.
    + intros [rest Hrest]. discriminate Hrest.
Defined.

(** *** Membership in a list: in, not_in and the Any rules *)

(** [kwargs["field"]] of a field whose rules are lists of strings ([in],
    [not_in] on a string field, and the type URLs of an Any field): the
    operands under [field_info.extra["extra"]]. *)
Record ListField : Type := MkListField
  { lf_name : string;
    lf_extra : gmap string (gmap string (list string)) }.

Definition list_operand (field : ListField) (key : string) : result (list string) :=
  match lf_extra field !! "extra" with
  | None => Raise KeyError
  | Some d =>
      match d !! key with
      | None => Raise KeyError
      | Some x => Ok x
      end
  end.

(** The validated value: an [AnyMessage] with its [type_url], or an object
    of another class. *)
Inductive AnyInput (A : Type) : Type :=
  | IsAnyMessage (type_url : string)
  | NotAnyMessage (a : A).
Arguments IsAnyMessage {A} type_url.
Arguments NotAnyMessage {A} a.

Definition any_in_validator {A} (field : ListField) (v : AnyInput A)
    : result (AnyInput A) :=
  rbind (list_operand field "any_in") (fun field_value =>
    match v with
    | IsAnyMessage type_url =>
        if existsb (String.eqb type_url) field_value then Raise ValueError else Ok v
    | NotAnyMessage _ => Ok v
    end).

Definition any_not_in_validator {A} (field : ListField) (v : AnyInput A)
    : result (AnyInput A) :=
  rbind (list_operand field "any_in") (fun field_value =>
    match v with
    | IsAnyMessage type_url =>
        if existsb (String.eqb type_url) field_value then Raise ValueError else Ok v
    | NotAnyMessage _ => Ok v
    end).

Lemma url_listed (type_url : string) (l : list string) :
  existsb (String.eqb type_url) l = true <-> In type_url l.
Proof.
  rewrite existsb_exists. split.
  - intros (y & Hy & Heq). apply String.eqb_eq in Heq. congruence.
  - intros Hx. exists type_url. split; [exact Hx | apply String.eqb_refl].
Qed.

(** With a list of type URLs under [any_in], the 'in' validator of an Any
    field rejects exactly the messages whose type URL is in the list and
    accepts every other message and every object that is no [AnyMessage].
    The 'not_in' validator reads the same key [any_in] and computes the
    same result: what is stored under [any_not_in] has no effect on it. *)
Theorem any_validators_reject_the_listed_urls {A} (field : ListField) (l : list string) :
  list_operand field "any_in" = Ok l ->
  (forall type_url,
     (@any_in_validator A field (IsAnyMessage type_url) = Raise ValueError
        <-> In type_url l)
     /\ (@any_in_validator A field (IsAnyMessage type_url) = Ok (IsAnyMessage type_url)
          <-> ~ In type_url l))
  /\ (forall a : A, any_in_validator field (NotAnyMessage a) = Ok (NotAnyMessage a))
  /\ (forall (v : AnyInput A) (not_in : list string),
        any_not_in_validator
          (MkListField (lf_name field)
             (<["extra" := <["any_not_in" := not_in]>
                              (default ∅ (lf_extra field !! "extra"))]>
                (lf_extra field))) v
        = any_in_validator field v).
Proof.
  intros Hop. split; [| split].
  - intros type_url. unfold any_in_validator. rewrite Hop. simpl.
    pose proof (url_listed type_url l) as Hl.
    destruct (existsb (String.eqb type_url) l).
    + split; split; try discriminate; try reflexivity.
      * intros _. apply Hl. reflexivity.
      * intros Hn. destruct Hn. apply Hl. reflexivity.
    + split; split; try discriminate; try reflexivity.
      * intros Hin. apply Hl in Hin. discriminate.
      * intros _ Hin. apply Hl in Hin. discriminate.
  - intros a. unfold any_in_validator. rewrite Hop. reflexivity.
  - intros v not_in. unfold any_not_in_validator, any_in_validator.
    assert (Hsame : list_operand
                      (MkListField (lf_name field)
                         (<["extra" := <["any_not_in" := not_in]>
                                          (default ∅ (lf_extra field !! "extra"))]>
                            (lf_extra field))) "any_in"
                    = list_operand field "any_in").
    { unfold list_operand. cbn [lf_extra]. rewrite lookup_insert_eq.
      rewrite lookup_insert_ne by discriminate.
      unfold list_operand in Hop.
      destruct (lf_extra field !! "extra") as [d |]; [reflexivity | discriminate Hop]. }
    rewrite Hsame. reflexivity.
Qed.

Definition in_validator (field : ListField) (v : string) : result string :=
  rbind (list_operand field "in") (fun field_value =>
    if negb (existsb (String.eqb v) field_value) then Raise ValueError else Ok v).

Definition not_in_validator (field : ListField) (v : string) : result string :=
  rbind (list_operand field "not_in") (fun field_value =>
    if existsb (String.eqb v) field_value then Raise ValueError else Ok v).

(** On a string field, whatever else the field carries: with a list under
    [in], the 'in' validator accepts exactly the strings of its list; with a
    list under [not_in], the 'not_in' validator accepts exactly the strings
    that are not in its list; each raises [ValueError] otherwise. *)
Theorem in_validators_test_membership (field : ListField) (v : string) :
  (forall allowed : list string,
     list_operand field "in" = Ok allowed ->
     (in_validator field v = Ok v <-> In v allowed)
     /\ (in_validator field v = Raise ValueError <-> ~ In v allowed))
  /\ (forall denied : list string,
        list_operand field "not_in" = Ok denied ->
        (not_in_validator field v = Ok v <-> ~ In v denied)
        /\ (not_in_validator field v = Raise ValueError <-> In v denied)).
Proof.
  split.
  - intros allowed Hin. unfold in_validator. rewrite Hin. simpl.
    rewrite <- (url_listed v allowed).
    destruct (existsb (String.eqb v) allowed); simpl; intuition congruence.
  - intros denied Hnot. unfold not_in_validator. rewrite Hnot. simpl.
    rewrite <- (url_listed v denied).
    destruct (existsb (String.eqb v) denied); simpl; intuition congruence.
Qed.

(** A field whose rules only list the allowed strings, and one whose rules
    only list the denied ones. *)
Definition demo_in_field : ListField :=
  MkListField "f" {[ "extra" := {[ "in" := ["a"; "b"] ]} ]}.

Definition demo_not_in_field : ListField :=
  MkListField "f" {[ "extra" := {[ "not_in" := ["x"] ]} ]}.

Lemma in_validators_witness :
  in_validator demo_in_field "c" = Raise ValueError
  /\ in_validator demo_in_field "b" = Ok "b"
  /\ not_in_validator demo_not_in_field "c" = Ok "c"
  /\ not_in_validator demo_not_in_field "x" = Raise ValueError.
Proof.
  destruct (in_validators_test_membership demo_in_field "c") as [Hc _].
  destruct (Hc ["a"; "b"] eq_refl) as [_ Hc_raise].
  destruct (in_validators_test_membership demo_in_field "b") as [Hb _].
  destruct (Hb ["a"; "b"] eq_refl) as [Hb_ok _].
  destruct (in_validators_test_membership demo_not_in_field "c") as [_ Hn].
  destruct (Hn ["x"] eq_refl) as [Hn_ok _].
  destruct (in_validators_test_membership demo_not_in_field "x") as [_ Hx].
  destruct (Hx ["x"] eq_refl) as [_ Hx_raise].
  split; [| split; [| split]].
  - apply Hc_raise. simpl. intuition discriminate.
  - apply Hb_ok. simpl. auto.
  - apply Hn_ok. simpl. intuition discriminate.
  - apply Hx_raise. simpl. auto.
Defined.

(** An Any field whose rules list one type URL under [in]. *)
Definition demo_any_field : ListField :=
  MkListField "f" {[ "extra" := {[ "any_in" := ["type.googleapis.com/pkg.Msg"] ]} ]}.

Lemma any_validators_witness :
  @any_in_validator unit demo_any_field (IsAnyMessage "type.googleapis.com/pkg.Msg")
  = Raise ValueError.
Proof.
  destruct (@any_validators_reject_the_listed_urls unit demo_any_field
              ["type.googleapis.com/pkg.Msg"]) as (H & _ & _).
  - vm_compute. reflexivity.
  - apply (H "type.googleapis.com/pkg.Msg"). left. reflexivity.
Defined.

End CustomerValidator.

(** ** protobuf's [FieldDescriptor] constants *)

(** [FieldDescriptor.TYPE_*] *)
Inductive FieldType : Type :=
  | TYPE_DOUBLE | TYPE_FLOAT | TYPE_INT64 | TYPE_UINT64 | TYPE_INT32
  | TYPE_FIXED64 | TYPE_FIXED32 | TYPE_BOOL | TYPE_STRING | TYPE_GROUP
  | TYPE_MESSAGE | TYPE_BYTES | TYPE_UINT32 | TYPE_ENUM | TYPE_SFIXED32
  | TYPE_SFIXED64 | TYPE_SINT32 | TYPE_SINT64.

(** [FieldDescriptor.LABEL_*] *)
Inductive Label : Type :=
  | LABEL_OPTIONAL | LABEL_REQUIRED | LABEL_REPEATED.

Definition FieldType_eqb (a b : FieldType) : bool :=
  match a, b with
  | TYPE_DOUBLE, TYPE_DOUBLE | TYPE_FLOAT, TYPE_FLOAT | TYPE_INT64, TYPE_INT64
  | TYPE_UINT64, TYPE_UINT64 | TYPE_INT32, TYPE_INT32 | TYPE_FIXED64, TYPE_FIXED64
  | TYPE_FIXED32, TYPE_FIXED32 | TYPE_BOOL, TYPE_BOOL | TYPE_STRING, TYPE_STRING
  | TYPE_GROUP, TYPE_GROUP | TYPE_MESSAGE, TYPE_MESSAGE | TYPE_BYTES, TYPE_BYTES
  | TYPE_UINT32, TYPE_UINT32 | TYPE_ENUM, TYPE_ENUM | TYPE_SFIXED32, TYPE_SFIXED32
  | TYPE_SFIXED64, TYPE_SFIXED64 | TYPE_SINT32, TYPE_SINT32
  | TYPE_SINT64, TYPE_SINT64 => true
  | _, _ => false
  end.

(** Membership of a string in a Python tuple, list or set of strings. *)
Definition str_in (x : string) (l : list string) : bool :=
  existsb (String.eqb x) l.

Lemma str_in_In (x : string) (l : list string) : str_in x l = true <-> In x l.
Proof.
  unfold str_in. rewrite existsb_exists. split.
  - intros (y & Hy & Heq). apply String.eqb_eq in Heq. congruence.
  - intros Hx. exists x. split; [exact Hx | apply String.eqb_refl].
Qed.

Lemma string_app_assoc (a b c : string) : (a ++ b) ++ c = a ++ b ++ c.
Proof.
  induction a as [| x a IH]; [reflexivity |].
  change (String x ((a ++ b) ++ c) = String x (a ++ b ++ c)). rewrite IH. reflexivity.
Qed.

Lemma string_app_inv_tail (a b c : string) : a ++ c = b ++ c -> a = b.
Proof.
  revert b. induction a as [| x a IH]; intros [| y b] H.
  - reflexivity.
  - change (c = String y (b ++ c)) in H. apply (f_equal String.length) in H.
    simpl in H. rewrite CustomerValidator.length_app in H. lia.
  - change (String x (a ++ c) = c) in H. apply (f_equal String.length) in H.
    simpl in H. rewrite CustomerValidator.length_app in H. lia.
  - change (String x (a ++ c) = String y (b ++ c)) in H.
    injection H as -> H. rewrite (IH b H). reflexivity.
Qed.

(** Lookups past insertions under other keys. *)
Ltac lookup_other :=
  repeat match goal with
         | |- context [ <[?i := _]> _ !! ?j ] =>
             rewrite (lookup_insert_ne _ i j) by (discriminate || congruence)
         end.

(** ** get_desc/from_pgv/__init__.py *)

Module FromPgv.

Definition module_name : string := "protobuf_to_pydantic.get_desc.from_pgv".

(** [type_not_support_dict.get(field.type, type_not_support_dict["Any"])] *)
Definition type_not_support (t : FieldType) : list string :=
  match t with
  | TYPE_BYTES => ["pattern"]
  | TYPE_STRING => ["min_bytes"; "max_bytes"]
  | _ => ["ignore_empty"; "defined_only"]
  end.

Definition column_pydantic_dict : list (string * string) :=
  [ ("min_len", "min_length");
    ("min_bytes", "min_length");
    ("max_len", "max_length");
    ("max_bytes", "max_length");
    ("pattern", "regex");
    ("unique", "unique_items");
    ("gte", "ge");
    ("lte", "le");
    ("len_bytes", "len");
    ("required", "miss_default") ].

(** Lookup in a dictionary written as a literal. *)
Fixpoint assoc_get {V : Type} (k : string) (d : list (string * V)) : option V :=
  match d with
  | [] => None
  | (k', v) :: d' => if String.eqb k k' then Some v else assoc_get k d'
  end.

(** The names ending in [_validator] that customer_validator.py defines:
    what [validate_validator_dict.get] can find for such a name. *)
Definition validate_validator_names : list string :=
  [ "in_validator"; "not_in_validator"; "any_in_validator"; "any_not_in_validator";
    "len_validator"; "prefix_validator"; "suffix_validator"; "contains_validator";
    "not_contains_validator";
    "duration_lt_validator"; "duration_le_validator"; "duration_gt_validator";
    "duration_ge_validator"; "duration_const_validator"; "duration_in_validator";
    "duration_not_in_validator";
    "timestamp_lt_validator"; "timestamp_lt_now_validator"; "timestamp_le_validator";
    "timestamp_gt_validator"; "timestamp_gt_now_validator";
    "timestamp_within_validator"; "timestamp_ge_validator";
    "timestamp_const_validator"; "timestamp_in_validator";
    "timestamp_not_in_validator" ].

Definition validate_validator_dict_get (name : string) : option string :=
  if str_in name validate_validator_names then Some name else None.

(** A pydantic validator as [validator(field_name, allow_reuse=True)(func)]
    builds it: the field it is bound to and the function ([None] when the
    registry has no such name). *)
Record Validator : Type := MkValidator
  { v_field : string; v_func : option string }.

(** The field whose rules are read: [field.type], [field.name],
    [field.full_name]. *)
Record PgvField : Type := MkPgvField
  { pf_type : FieldType; pf_name : string; pf_full_name : string }.

Definition is_ascii_upper (c : Ascii.ascii) : bool :=
  let n := Ascii.nat_of_ascii c in ((65 <=? n) && (n <=? 90))%nat.

Section OptionDescriptor.

(** Rule values, and the target types of [.types.column_pydantic_type_dict]
    (that module is not part of the sources). *)
Variable Value : Type.
Variable PydanticType : Type.
(** Python truthiness of a rule value. *)
Variable truthy : Value -> bool.
(** [bool(getattr(Message, column, None))]: the attribute exists on the
    protobuf [Message] base class. *)
Variable message_class_attr : string -> bool.
(** [replace_type] of protobuf_to_pydantic.util. *)
Variable replace_type : Value -> Value.
Variable column_pydantic_type_dict : string -> option PydanticType.

(** A rules message ([option_descriptor]): the names [__dir__()] lists, what
    [HasField] answers ([None]: it raises [ValueError]) and the attribute
    values. *)
Record RulesMessage : Type := MkRulesMessage
  { rm_dir : list string;
    rm_HasField : string -> option bool;
    rm_getattr : string -> Value }.

(** What a key of [desc_dict] holds. *)
Inductive DescEntry : Type :=
  | DValue (v : Value)
  | DExtra (d : gmap string Value)
  | DValidators (d : gmap string Validator)
  | DType (t : PydanticType).

(** The state the function works on: [desc_dict] (updated in place), the
    warnings logged and the lines printed. *)
Record PgvState : Type := MkPgvState
  { desc_dict : gmap string DescEntry;
    warnings : list string;
    stdout : list string }.

Definition _has_field (column : string) (message : RulesMessage) : result bool :=
  if String.prefix "_" column then Ok false
  else if message_class_attr column then Ok false
  else
    match rm_HasField message column with
    | Some b => Ok b
    | None =>
        if negb (truthy (rm_getattr message column)) then Ok false
        else
          match column with
          | EmptyString => Raise IndexError
          | String c _ => Ok (negb (is_ascii_upper c))
          end
    end.

Definition not_support_warning (column : string) (field : PgvField) : string :=
  module_name ++ " not support `" ++ column ++ "`, please reset "
    ++ pf_full_name field ++ " `" ++ column ++ "` value".

(** [desc_dict["extra"][key] = value] *)
Definition set_extra (key : string) (value : Value)
    (d : gmap string DescEntry) : result (gmap string DescEntry) :=
  match d !! "extra" with
  | None => Raise KeyError
  | Some (DExtra e) => Ok (<["extra" := DExtra (<[key := value]> e)]> d)
  | Some _ => Raise TypeError
  end.

(** [desc_dict["validator"][key] = value] *)
Definition set_validator (key : string) (value : Validator)
    (d : gmap string DescEntry) : result (gmap string DescEntry) :=
  match d !! "validator" with
  | None => Raise KeyError
  | Some (DValidators e) => Ok (<["validator" := DValidators (<[key := value]> e)]> d)
  | Some _ => Raise TypeError
  end.

(** [if "validator" not in desc_dict: desc_dict["validator"] = {}] *)
Definition ensure_validator (d : gmap string DescEntry) : gmap string DescEntry :=
  match d !! "validator" with
  | None => <["validator" := DValidators ∅]> d
  | Some _ => d
  end.

(** One turn of the loop over [option_descriptor.__dir__()]. *)
Definition option_descriptor_column (option_descriptor : RulesMessage)
    (field : PgvField) (type_name : string) (column : string)
    (st : PgvState) : result unit * PgvState :=
  match _has_field column option_descriptor with
  | Raise e => (Raise e, st)
  | Ok false => (Ok tt, st)
  | Ok true =>
      if str_in column (type_not_support (pf_type field)) then
        (Ok tt, MkPgvState (desc_dict st)
                  (warnings st ++ [not_support_warning column field])%list (stdout st))
      else
        let value := rm_getattr option_descriptor column in
        let column :=
          match assoc_get column column_pydantic_dict with
          | Some c => c
          | None => column
          end in
        if str_in type_name ["duration"; "any"; "timestamp"]
           && str_in column ["lt"; "le"; "gt"; "ge"; "const"; "in"; "not_in";
                             "lt_now"; "gt_now"; "within"]
        then
          let d := ensure_validator (desc_dict st) in
          match set_extra (type_name ++ "_" ++ column) (replace_type value) d with
          | Raise e => (Raise e, MkPgvState d (warnings st) (stdout st))
          | Ok d1 =>
              match set_validator
                      (pf_name field ++ "_" ++ type_name ++ "_" ++ column ++ "_validator")
                      (MkValidator (pf_name field)
                         (validate_validator_dict_get
                            (type_name ++ "_" ++ column ++ "_validator"))) d1 with
              | Raise e => (Raise e, MkPgvState d1 (warnings st) (stdout st))
              | Ok d2 => (Ok tt, MkPgvState d2 (warnings st) (stdout st))
              end
          end
        else if str_in column ["in"; "not_in"; "len"; "prefix"; "suffix";
                               "contains"; "not_contains"]
        then
          let d := ensure_validator (desc_dict st) in
          let out := (stdout st ++ ["a ha"])%list in
          match set_extra column (replace_type value) d with
          | Raise e => (Raise e, MkPgvState d (warnings st) out)
          | Ok d1 =>
              match set_validator (pf_name field ++ "_" ++ column ++ "_validator")
                      (MkValidator (pf_name field)
                         (validate_validator_dict_get (column ++ "_validator"))) d1 with
              | Raise e => (Raise e, MkPgvState d1 (warnings st) out)
              | Ok d2 => (Ok tt, MkPgvState d2 (warnings st) out)
              end
          end
        else
          match column_pydantic_type_dict column with
          | Some t =>
              (Ok tt, MkPgvState (<["type" := DType t]> (desc_dict st))
                        (warnings st) (stdout st))
          | None =>
              (Ok tt, MkPgvState (<[column := DValue value]> (desc_dict st))
                        (warnings st) (stdout st))
          end
  end.

Fixpoint option_descriptor_columns (option_descriptor : RulesMessage)
    (field : PgvField) (type_name : string) (columns : list string)
    (st : PgvState) : result unit * PgvState :=
  match columns with
  | [] => (Ok tt, st)
  | column :: rest =>
      match option_descriptor_column option_descriptor field type_name column st with
      | (Ok _, st') => option_descriptor_columns option_descriptor field type_name rest st'
      | (Raise e, st') => (Raise e, st')
      end
  end.

Definition option_descriptor_to_desc_dict (option_descriptor : RulesMessage)
    (field : PgvField) (type_name : string) (st : PgvState) : result unit * PgvState :=
  option_descriptor_columns option_descriptor field type_name
    (rm_dir option_descriptor) st.

(** *** Unsupported keys on a bytes field *)

(** [desc_dict] as get_desc_from_pgv keeps it: [extra] is a dictionary and
    [validator], once there, is one too. *)
Definition desc_wf (d : gmap string DescEntry) : Prop :=
  (exists e, d !! "extra" = Some (DExtra e)) /\
  (d !! "validator" = None \/ exists v, d !! "validator" = Some (DValidators v)).

(** The names a rules message lists are field or method names: none is
    empty, and no rule is called [extra] or [validator]. *)
Definition column_ok (column : string) : Prop :=
  column <> "" /\ column <> "extra" /\ column <> "validator".

Definition translated (column : string) : string :=
  match assoc_get column column_pydantic_dict with
  | Some c => c
  | None => column
  end.

Lemma translated_cases (column : string) :
  translated column = column \/
  In (translated column)
     ["min_length"; "max_length"; "regex"; "unique_items"; "ge"; "le"; "len";
      "miss_default"].
Proof.
  unfold translated. simpl.
  repeat (destruct (String.eqb column _); [right; simpl; tauto |]).
  left. reflexivity.
Qed.



Lemma ensure_validator_wf (d : gmap string DescEntry) :
  desc_wf d ->
  (exists e, ensure_validator d !! "extra" = Some (DExtra e)) /\
  (exists v, ensure_validator d !! "validator" = Some (DValidators v)) /\
  ensure_validator d !! "pattern" = d !! "pattern".
Proof.
  intros [[e He] Hv]. unfold ensure_validator.
  destruct Hv as [Hv | [v Hv]]; rewrite Hv.
  - lookup_other. rewrite lookup_insert_eq.
    split; [exists e; exact He | split; [eexists; reflexivity | reflexivity]].
  - split; [exists e; exact He | split; [exists v; exact Hv | reflexivity]].
Qed.








(** *** What reading the rules writes, for every field type *)

(** [desc_dict["extra"]] and [desc_dict["validator"]]. *)
Definition extra_of (d : gmap string DescEntry) : gmap string Value :=
  match d !! "extra" with
  | Some (DExtra e) => e
  | _ => ∅
  end.

Definition validators_of (d : gmap string DescEntry) : gmap string Validator :=
  match d !! "validator" with
  | Some (DValidators v) => v
  | _ => ∅
  end.

(** A column the loop goes on with: [_has_field] answers [True] and the
    column is not among the unsupported ones of the field's type. *)
Definition column_is_read (option_descriptor : RulesMessage) (field : PgvField)
    (column : string) : Prop :=
  _has_field column option_descriptor = Ok true
  /\ str_in column (type_not_support (pf_type field)) = false.

(** The key of [extra] under which the two branches that bind a validator
    store the operand of a column; [None] for the columns of the other
    branches. *)
Definition operand_key (type_name column : string) : option string :=
  if str_in type_name ["duration"; "any"; "timestamp"]
     && str_in (translated column)
          ["lt"; "le"; "gt"; "ge"; "const"; "in"; "not_in"; "lt_now"; "gt_now"; "within"]
  then Some (type_name ++ "_" ++ translated column)
  else if str_in (translated column)
            ["in"; "not_in"; "len"; "prefix"; "suffix"; "contains"; "not_contains"]
  then Some (translated column)
  else None.

(** The validator bound for the operand stored under [k]. *)
Definition bound_validator (field : PgvField) (k : string) : string * Validator :=
  (pf_name field ++ "_" ++ k ++ "_validator",
   MkValidator (pf_name field) (validate_validator_dict_get (k ++ "_validator"))).

Lemma translated_not_reserved (column : string) :
  column_ok column -> translated column <> "extra" /\ translated column <> "validator".
Proof.
  intros (_ & He & Hv).
  destruct (translated_cases column) as [-> | Hin]; [tauto |].
  simpl in Hin.
  repeat (destruct Hin as [<- | Hin]; [split; discriminate |]).
  destruct Hin.
Qed.

Lemma set_extra_validator_run (d : gmap string DescEntry)
    (k1 : string) (x : Value) (k2 : string) (y : Validator) :
  desc_wf d ->
  exists d1 d2,
    set_extra k1 x (ensure_validator d) = Ok d1 /\
    set_validator k2 y d1 = Ok d2 /\
    desc_wf d2 /\
    extra_of d2 = <[k1 := x]> (extra_of d) /\
    validators_of d2 = <[k2 := y]> (validators_of d).
Proof.
  intros Hwf. pose proof Hwf as [[e He] Hv].
  assert (Hens : exists v, ensure_validator d !! "validator" = Some (DValidators v)
                 /\ ensure_validator d !! "extra" = Some (DExtra e)
                 /\ validators_of d = v).
  { unfold ensure_validator, validators_of. destruct Hv as [Hv | [v Hv]]; rewrite Hv.
    - exists ∅. rewrite lookup_insert_eq. split; [reflexivity |].
      split; [lookup_other; exact He | reflexivity].
    - exists v. split; [exact Hv |]. split; [exact He | reflexivity]. }
  destruct Hens as (v & Hv' & He' & Hvo).
  unfold set_extra. rewrite He'. eexists. eexists. split; [reflexivity |].
  unfold set_validator. lookup_other. rewrite Hv'.
  split; [reflexivity |]. split; [split |].
  - lookup_other. rewrite lookup_insert_eq. eauto.
  - right. rewrite lookup_insert_eq. eauto.
  - unfold extra_of, validators_of. rewrite He. split.
    + lookup_other. rewrite lookup_insert_eq. reflexivity.
    + rewrite lookup_insert_eq. fold (validators_of d). rewrite Hvo. reflexivity.
Qed.

(** One turn of the loop, for any field type: it ends normally and keeps
    the dictionary well formed; either [extra] and [validator] are as they
    were, or the column is read, has an operand key, and its operand and
    its validator are written. *)
Lemma option_descriptor_column_run (option_descriptor : RulesMessage)
    (field : PgvField) (type_name column : string) (st : PgvState) :
  column_ok column ->
  desc_wf (desc_dict st) ->
  exists st',
    option_descriptor_column option_descriptor field type_name column st = (Ok tt, st')
    /\ desc_wf (desc_dict st')
    /\ ((extra_of (desc_dict st') = extra_of (desc_dict st)
         /\ validators_of (desc_dict st') = validators_of (desc_dict st)
         /\ (column_is_read option_descriptor field column ->
             operand_key type_name column = None))
        \/ (exists k,
              column_is_read option_descriptor field column
              /\ operand_key type_name column = Some k
              /\ extra_of (desc_dict st')
                 = <[k := replace_type (rm_getattr option_descriptor column)]>
                     (extra_of (desc_dict st))
              /\ validators_of (desc_dict st')
                 = <[fst (bound_validator field k) := snd (bound_validator field k)]>
                     (validators_of (desc_dict st)))).
Proof.
  intros Hok Hwf. unfold option_descriptor_column, column_is_read, operand_key.
  assert (Hhas : exists b, _has_field column option_descriptor = Ok b).
  { unfold _has_field. destruct (String.prefix "_" column); [eauto |].
    destruct (message_class_attr column); [eauto |].
    destruct (rm_HasField option_descriptor column); [eauto |].
    destruct (negb _); [eauto |].
    destruct column; [destruct Hok as [Hne _]; congruence | eauto]. }
  destruct Hhas as [b Hb]. rewrite Hb.
  destruct b.
  2:{ exists st. split; [reflexivity |]. split; [exact Hwf |]. left.
      split; [reflexivity |]. split; [reflexivity |]. intros [Habs _]. discriminate. }
  destruct (str_in column (type_not_support (pf_type field))) eqn:Hin.
  { eexists. split; [reflexivity |]. simpl. split; [exact Hwf |]. left.
    split; [reflexivity |]. split; [reflexivity |]. intros [_ Habs]. discriminate. }
  fold (translated column).
  destruct (translated_not_reserved column Hok) as [Te Tv].
  destruct (str_in type_name ["duration"; "any"; "timestamp"]
            && str_in (translated column) _).
  { destruct (set_extra_validator_run (desc_dict st)
                (type_name ++ "_" ++ translated column)
                (replace_type (rm_getattr option_descriptor column))
                (pf_name field ++ "_" ++ type_name ++ "_" ++ translated column ++ "_validator")
                (MkValidator (pf_name field)
                   (validate_validator_dict_get
                      (type_name ++ "_" ++ translated column ++ "_validator"))) Hwf)
      as (d1 & d2 & -> & -> & Hwf2 & He2 & Hv2).
    eexists. split; [reflexivity |]. simpl. split; [exact Hwf2 |]. right.
    exists (type_name ++ "_" ++ translated column).
    split; [split; reflexivity |]. split; [reflexivity |]. split; [exact He2 |].
    rewrite Hv2. unfold bound_validator. simpl.
    rewrite !(string_app_assoc type_name). reflexivity. }
  destruct (str_in (translated column) _).
  { destruct (set_extra_validator_run (desc_dict st)
                (translated column)
                (replace_type (rm_getattr option_descriptor column))
                (pf_name field ++ "_" ++ translated column ++ "_validator")
                (MkValidator (pf_name field)
                   (validate_validator_dict_get (translated column ++ "_validator"))) Hwf)
      as (d1 & d2 & -> & -> & Hwf2 & He2 & Hv2).
    eexists. split; [reflexivity |]. simpl. split; [exact Hwf2 |]. right.
    exists (translated column).
    split; [split; reflexivity |]. split; [reflexivity |]. split; [exact He2 |].
    exact Hv2. }
  destruct Hwf as [[e He] Hv].
  destruct (column_pydantic_type_dict (translated column)).
  - eexists. split; [reflexivity |]. simpl. split; [split |].
    + exists e. lookup_other. exact He.
    + lookup_other. exact Hv.
    + left. unfold extra_of, validators_of. lookup_other.
      split; [reflexivity |]. split; [reflexivity |]. reflexivity.
  - eexists. split; [reflexivity |]. simpl. split; [split |].
    + exists e. lookup_other. exact He.
    + lookup_other. exact Hv.
    + left. unfold extra_of, validators_of. lookup_other.
      split; [reflexivity |]. split; [reflexivity |]. reflexivity.
Qed.

(** The loop over a list of columns. *)
Lemma option_descriptor_columns_run (option_descriptor : RulesMessage)
    (field : PgvField) (type_name : string) (columns : list string) :
  Forall column_ok columns ->
  forall st, desc_wf (desc_dict st) ->
  exists st',
    option_descriptor_columns option_descriptor field type_name columns st = (Ok tt, st')
    /\ desc_wf (desc_dict st')
    /\ (forall k x, extra_of (desc_dict st') !! k = Some x ->
        extra_of (desc_dict st) !! k = Some x
        \/ exists c, In c columns
             /\ column_is_read option_descriptor field c
             /\ operand_key type_name c = Some k
             /\ x = replace_type (rm_getattr option_descriptor c))
    /\ (forall k, is_Some (extra_of (desc_dict st) !! k) ->
        is_Some (extra_of (desc_dict st') !! k))
    /\ (forall c k,
          (In c columns \/
           (extra_of (desc_dict st) !! k
              = Some (replace_type (rm_getattr option_descriptor c))
            /\ validators_of (desc_dict st) !! fst (bound_validator field k)
               = Some (snd (bound_validator field k)))) ->
          column_is_read option_descriptor field c ->
          operand_key type_name c = Some k ->
          (forall c', In c' columns -> column_is_read option_descriptor field c' ->
             operand_key type_name c' = Some k -> c' = c) ->
          extra_of (desc_dict st') !! k
            = Some (replace_type (rm_getattr option_descriptor c))
          /\ validators_of (desc_dict st') !! fst (bound_validator field k)
             = Some (snd (bound_validator field k))).
Proof.
  intros Hcols. induction Hcols as [| column rest Hc Hrest IH]; intros st Hwf.
  - exists st. split; [reflexivity |]. split; [exact Hwf |].
    split; [intros k x Hx; left; exact Hx |]. split; [intros k Hk; exact Hk |].
    intros c k [[] | Hthere] _ _ _. exact Hthere.
  - destruct (option_descriptor_column_run option_descriptor field type_name
                column st Hc Hwf) as (st1 & Hrun & Hwf1 & Hstep).
    destruct (IH st1 Hwf1) as (st2 & Hrun2 & Hwf2 & Hprov & Hkeep & Hset).
    exists st2. simpl. rewrite Hrun. split; [exact Hrun2 |].
    split; [exact Hwf2 |]. split; [| split].
    + intros k x Hx. destruct (Hprov k x Hx) as [H1 | (c & Hin & Hread & Hkey & ->)].
      * destruct Hstep as [(He & _ & _) | (k0 & Hread & Hkey & He & _)].
        -- left. rewrite <- He. exact H1.
        -- rewrite He in H1. destruct (decide (k0 = k)) as [-> | Hne].
           ++ rewrite lookup_insert_eq in H1. injection H1 as <-.
              right. exists column. split; [left; reflexivity |]. auto.
           ++ rewrite lookup_insert_ne in H1 by exact Hne. left. exact H1.
      * right. exists c. split; [right; exact Hin |]. auto.
    + intros k Hk. apply Hkeep.
      destruct Hstep as [(He & _ & _) | (k0 & _ & _ & He & _)]; rewrite He.
      * exact Hk.
      * destruct (decide (k0 = k)) as [-> | Hne].
        -- rewrite lookup_insert_eq. eauto.
        -- rewrite lookup_insert_ne by exact Hne. exact Hk.
    + intros c k Hfrom Hread Hkey Hunique.
      apply (Hset c k); [| exact Hread | exact Hkey |].
      2:{ intros c' Hin'. apply Hunique. right. exact Hin'. }
      destruct Hstep as [(He & Hv & Hnone) | (k0 & Hread0 & Hkey0 & He & Hv)].
      * destruct Hfrom as [[<- | Hin] | Hthere].
        -- rewrite (Hnone Hread) in Hkey. discriminate Hkey.
        -- left. exact Hin.
        -- right. rewrite He, Hv. exact Hthere.
      * destruct (decide (k0 = k)) as [-> | Hne].
        -- assert (column = c)
             by (apply Hunique; [left; reflexivity | exact Hread0 | exact Hkey0]).
           subst column. right. rewrite He, Hv, !lookup_insert_eq. split; reflexivity.
        -- destruct Hfrom as [[<- | Hin] | Hthere].
           ++ congruence.
           ++ left. exact Hin.
           ++ right. rewrite He, Hv. rewrite lookup_insert_ne by exact Hne.
              rewrite lookup_insert_ne; [exact Hthere |].
              unfold bound_validator. simpl. intros Heq.
              apply String.app_inj in Heq. apply String.app_inj in Heq.
              apply string_app_inv_tail in Heq. contradiction.
Qed.

(** Reading the rules of a field of any type ends normally. Every operand
    found in [extra] afterwards was there before or is the converted value
    of a column that is set and supported, under that column's operand key:
    a rule that is not set leaves no operand. No operand is removed. *)
Theorem reading_rules_ends_normally (option_descriptor : RulesMessage)
    (field : PgvField) (type_name : string) (st : PgvState) :
  Forall column_ok (rm_dir option_descriptor) ->
  desc_wf (desc_dict st) ->
  exists st',
    option_descriptor_to_desc_dict option_descriptor field type_name st = (Ok tt, st')
    /\ desc_wf (desc_dict st')
    /\ (forall k x, extra_of (desc_dict st') !! k = Some x ->
        extra_of (desc_dict st) !! k = Some x
        \/ exists c, In c (rm_dir option_descriptor)
             /\ column_is_read option_descriptor field c
             /\ operand_key type_name c = Some k
             /\ x = replace_type (rm_getattr option_descriptor c))
    /\ (forall k, is_Some (extra_of (desc_dict st) !! k) ->
        is_Some (extra_of (desc_dict st') !! k)).
Proof.
  intros Hcols Hwf.
  destruct (option_descriptor_columns_run option_descriptor field type_name
              (rm_dir option_descriptor) Hcols st Hwf)
    as (st' & Hrun & Hwf' & Hprov & Hkeep & _).
  exists st'. split; [exact Hrun |]. split; [exact Hwf' |].
  split; [exact Hprov | exact Hkeep].
Qed.

(** A column that is set and supported and has an operand key leaves, when
    no other such column shares the key, its converted value in [extra]
    under that key and, in [validator], the function the registry of
    customer_validator.py holds for the key, bound to the field's name. *)
Theorem set_rule_leaves_operand_and_validator (option_descriptor : RulesMessage)
    (field : PgvField) (type_name : string) (st : PgvState) (c k : string) :
  Forall column_ok (rm_dir option_descriptor) ->
  desc_wf (desc_dict st) ->
  In c (rm_dir option_descriptor) ->
  column_is_read option_descriptor field c ->
  operand_key type_name c = Some k ->
  (forall c', In c' (rm_dir option_descriptor) ->
     column_is_read option_descriptor field c' ->
     operand_key type_name c' = Some k -> c' = c) ->
  exists st',
    option_descriptor_to_desc_dict option_descriptor field type_name st = (Ok tt, st')
    /\ extra_of (desc_dict st') !! k
       = Some (replace_type (rm_getattr option_descriptor c))
    /\ validators_of (desc_dict st') !! (pf_name field ++ "_" ++ k ++ "_validator")
       = Some (MkValidator (pf_name field)
                 (validate_validator_dict_get (k ++ "_validator"))).
Proof.
  intros Hcols Hwf Hin Hread Hkey Hunique.
  destruct (option_descriptor_columns_run option_descriptor field type_name
              (rm_dir option_descriptor) Hcols st Hwf)
    as (st' & Hrun & _ & _ & _ & Hset).
  exists st'. split; [exact Hrun |].
  apply (Hset c k); [left; exact Hin | exact Hread | exact Hkey | exact Hunique].
Qed.

End OptionDescriptor.

(** *** A bytes rule at a concrete input *)

(** Rules [{pattern: "^a", min_len: "3"}] (values kept as text) read for
    the bytes field [pkg.Msg.data] into the dictionary [{"extra": {}}]. *)
Definition demo_rules : RulesMessage string :=
  MkRulesMessage string ["pattern"; "min_len"]
    (fun c => Some (str_in c ["pattern"; "min_len"]))
    (fun c => if String.eqb c "pattern" then "^a" else "3").

Definition demo_bytes_field : PgvField := MkPgvField TYPE_BYTES "data" "pkg.Msg.data".

Definition demo_state : PgvState string unit :=
  MkPgvState string unit {[ "extra" := DExtra string unit ∅ ]} [] [].

Definition demo_run : result unit * PgvState string unit :=
  option_descriptor_to_desc_dict string unit (fun _ => true) (fun _ => false)
    (fun v => v) (fun _ => None) demo_rules demo_bytes_field "bytes" demo_state.


(** *** A rules message that does not list its fields *)




Example demo_run_min_length :
  exists st', demo_run = (Ok tt, st')
    /\ desc_dict string unit st' !! "min_length" = Some (DValue string unit "3")
    /\ desc_dict string unit st' !! "regex" = None
    /\ length (warnings string unit st') = 1.
Proof. eexists. split; [vm_compute; reflexivity |]. vm_compute. auto. Qed.

(** *** A timestamp rule at a concrete input *)

(** Timestamp rules that set [within] only, read for the field
    [pkg.Msg.created]. *)
Definition demo_timestamp_rules : RulesMessage string :=
  MkRulesMessage string ["const"; "lt"; "lte"; "gt"; "gte"; "lt_now"; "gt_now"; "within"]
    (fun c => Some (String.eqb c "within"))
    (fun c => if String.eqb c "within" then "3600s" else "").

Definition demo_timestamp_field : PgvField :=
  MkPgvField TYPE_MESSAGE "created" "pkg.Msg.created".

Lemma reading_rules_witness :
  exists st',
    option_descriptor_to_desc_dict string unit (fun _ => true) (fun _ => false)
      (fun v => v) (fun _ => None) demo_timestamp_rules demo_timestamp_field
      "timestamp" demo_state = (Ok tt, st')
    /\ desc_wf string unit (desc_dict string unit st')
    /\ (forall k x, extra_of string unit (desc_dict string unit st') !! k = Some x ->
        extra_of string unit (desc_dict string unit demo_state) !! k = Some x
        \/ exists c, In c (rm_dir string demo_timestamp_rules)
             /\ column_is_read string (fun _ => true) (fun _ => false)
                  demo_timestamp_rules demo_timestamp_field c
             /\ operand_key "timestamp" c = Some k
             /\ x = rm_getattr string demo_timestamp_rules c)
    /\ (forall k, is_Some (extra_of string unit (desc_dict string unit demo_state) !! k) ->
        is_Some (extra_of string unit (desc_dict string unit st') !! k)).
Proof.
  apply (reading_rules_ends_normally string unit (fun _ => true) (fun _ => false)
           (fun v => v) (fun _ => None) demo_timestamp_rules demo_timestamp_field
           "timestamp" demo_state).
  - repeat constructor; discriminate.
  - split; [eexists; vm_compute; reflexivity | left; vm_compute; reflexivity].
Defined.

Lemma set_rule_witness :
  exists st',
    option_descriptor_to_desc_dict string unit (fun _ => true) (fun _ => false)
      (fun v => v) (fun _ => None) demo_timestamp_rules demo_timestamp_field
      "timestamp" demo_state = (Ok tt, st')
    /\ extra_of string unit (desc_dict string unit st') !! "timestamp_within"
       = Some "3600s"
    /\ validators_of string unit (desc_dict string unit st')
         !! "created_timestamp_within_validator"
       = Some (MkValidator "created" (Some "timestamp_within_validator")).
Proof.
  apply (set_rule_leaves_operand_and_validator string unit (fun _ => true)
           (fun _ => false) (fun v => v) (fun _ => None) demo_timestamp_rules
           demo_timestamp_field "timestamp" demo_state "within" "timestamp_within").
  - repeat constructor; discriminate.
  - split; [eexists; vm_compute; reflexivity | left; vm_compute; reflexivity].
  - simpl. tauto.
  - split; vm_compute; reflexivity.
  - vm_compute. reflexivity.
  - intros c' Hin [Hhas _] _. simpl in Hin.
    repeat (destruct Hin as [<- | Hin]; [first [reflexivity | discriminate Hhas] |]).
    destruct Hin.
Defined.

End FromPgv.

(** ** The validators that PGV rules bind, at validation time *)

Module PgvValidation.

Section TimestampRules.

Variable datetime : Type.
Variable timestamp_from_json : string -> option float.
Variable float_of_int : Z -> option float.
Variable datetime_timestamp : datetime -> float.
Variable total_seconds : CustomerValidator.timedelta -> float.
Variable PydanticType : Type.
Variable truthy : CustomerValidator.PyVal datetime -> bool.
Variable message_class_attr : string -> bool.
Variable replace_type : CustomerValidator.PyVal datetime -> CustomerValidator.PyVal datetime.
Variable column_pydantic_type_dict : string -> option PydanticType.

(** The rule values are the values the validators read as operands. *)
#[local] Abbreviation PyVal := (CustomerValidator.PyVal datetime).
#[local] Abbreviation read_rules :=
  (FromPgv.option_descriptor_to_desc_dict PyVal PydanticType truthy message_class_attr
     replace_type column_pydantic_type_dict).
#[local] Abbreviation extra_after st :=
  (FromPgv.extra_of PyVal PydanticType (FromPgv.desc_dict PyVal PydanticType st)).
#[local] Abbreviation validators_after st :=
  (FromPgv.validators_of PyVal PydanticType (FromPgv.desc_dict PyVal PydanticType st)).
#[local] Abbreviation has_field c m :=
  (FromPgv._has_field PyVal truthy message_class_attr c m).

(** A column whose operand key is [timestamp_] followed by a name that no
    column is translated to is the column of that name. *)
Lemma timestamp_key_column (c r : string) :
  In r ["lt"; "gt"; "lt_now"; "gt_now"; "within"] ->
  FromPgv.operand_key "timestamp" c = Some ("timestamp_" ++ r) -> c = r.
Proof.
  intros Hr Hkey. unfold FromPgv.operand_key in Hkey.
  assert (Ht : FromPgv.translated c = r).
  { change (str_in "timestamp" ["duration"; "any"; "timestamp"]) with true in Hkey.
    destruct (str_in (FromPgv.translated c)
                ["lt"; "le"; "gt"; "ge"; "const"; "in"; "not_in"; "lt_now"; "gt_now";
                 "within"]); cbn [andb] in Hkey.
    - injection Hkey as Hkey. exact Hkey.
    - destruct (str_in (FromPgv.translated c)
                  ["in"; "not_in"; "len"; "prefix"; "suffix"; "contains"; "not_contains"])
        eqn:Hcompat; [| discriminate Hkey].
      injection Hkey as Hkey. apply str_in_In in Hcompat. rewrite Hkey in Hcompat.
      simpl in Hcompat.
      repeat (destruct Hcompat as [Habs | Hcompat];
              [cbv [String.append] in Habs; discriminate Habs |]).
      destruct Hcompat. }
  destruct (FromPgv.translated_cases PydanticType message_class_attr
              column_pydantic_type_dict c) as [Heq | Hin]; [congruence |].
  rewrite Ht in Hin. simpl in Hr, Hin.
  repeat (destruct Hr as [<- | Hr];
          [repeat (destruct Hin as [Habs | Hin]; [discriminate Habs |]); destruct Hin |]).
  destruct Hr.
Qed.

(** Reading timestamp rules in which the loop meets a set [rule]: the
    validator of [rule] is bound and its operand is stored under
    [timestamp_rule]. *)
Lemma timestamp_rule_bound
    (option_descriptor : FromPgv.RulesMessage PyVal) (field : FromPgv.PgvField)
    (st st' : FromPgv.PgvState PyVal PydanticType) (rule : string) :
  Forall FromPgv.column_ok (FromPgv.rm_dir PyVal option_descriptor) ->
  FromPgv.desc_wf PyVal PydanticType (FromPgv.desc_dict PyVal PydanticType st) ->
  FromPgv.pf_type field = TYPE_MESSAGE ->
  In rule ["lt_now"; "gt_now"; "within"] ->
  In rule (FromPgv.rm_dir PyVal option_descriptor) ->
  has_field rule option_descriptor = Ok true ->
  read_rules option_descriptor field "timestamp" st = (Ok tt, st') ->
  validators_after st' !! (FromPgv.pf_name field ++ "_" ++ ("timestamp_" ++ rule) ++ "_validator")
    = Some (FromPgv.MkValidator (FromPgv.pf_name field)
              (Some (("timestamp_" ++ rule) ++ "_validator")))
  /\ extra_after st' !! ("timestamp_" ++ rule)
     = Some (replace_type (FromPgv.rm_getattr PyVal option_descriptor rule)).
Proof.
  intros Hcols Hwf Hty Hrule Hin Hset Hrun.
  destruct (FromPgv.option_descriptor_columns_run PyVal PydanticType truthy
              message_class_attr replace_type column_pydantic_type_dict
              option_descriptor field "timestamp"
              (FromPgv.rm_dir PyVal option_descriptor) Hcols st Hwf)
    as (st2 & Hrun2 & _ & _ & _ & Hwritten).
  unfold FromPgv.option_descriptor_to_desc_dict in Hrun. rewrite Hrun in Hrun2.
  injection Hrun2 as <-.
  assert (Hread : FromPgv.column_is_read PyVal truthy message_class_attr
                    option_descriptor field rule).
  { split; [exact Hset |]. rewrite Hty. simpl in Hrule.
    repeat (destruct Hrule as [<- | Hrule]; [reflexivity |]). destruct Hrule. }
  assert (Hkey : FromPgv.operand_key "timestamp" rule = Some ("timestamp_" ++ rule)).
  { simpl in Hrule.
    repeat (destruct Hrule as [<- | Hrule]; [reflexivity |]). destruct Hrule. }
  assert (Hfunc : FromPgv.validate_validator_dict_get (("timestamp_" ++ rule) ++ "_validator")
                  = Some (("timestamp_" ++ rule) ++ "_validator")).
  { simpl in Hrule.
    repeat (destruct Hrule as [<- | Hrule]; [reflexivity |]). destruct Hrule. }
  destruct (Hwritten rule ("timestamp_" ++ rule)) as [Hextra Hval].
  - left. exact Hin.
  - exact Hread.
  - exact Hkey.
  - intros c' _ _ Hk. apply (timestamp_key_column c' rule); [| exact Hk].
    simpl in Hrule. simpl. tauto.
  - split.
    + unfold FromPgv.bound_validator in Hval. simpl in Hval. rewrite Hfunc in Hval.
      exact Hval.
    + exact Hextra.
Qed.

(** Reading timestamp rules into a dictionary without operands, when the
    loop meets no set plain comparison [operand]: there is no operand under
    [timestamp_operand]. *)
Lemma timestamp_operand_absent
    (option_descriptor : FromPgv.RulesMessage PyVal) (field : FromPgv.PgvField)
    (st st' : FromPgv.PgvState PyVal PydanticType) (operand : string) :
  Forall FromPgv.column_ok (FromPgv.rm_dir PyVal option_descriptor) ->
  FromPgv.desc_wf PyVal PydanticType (FromPgv.desc_dict PyVal PydanticType st) ->
  extra_after st = ∅ ->
  In operand ["lt"; "gt"] ->
  ~ (In operand (FromPgv.rm_dir PyVal option_descriptor)
     /\ has_field operand option_descriptor = Ok true) ->
  read_rules option_descriptor field "timestamp" st = (Ok tt, st') ->
  extra_after st' !! ("timestamp_" ++ operand) = None.
Proof.
  intros Hcols Hwf Hempty Hoperand Hunset Hrun.
  destruct (FromPgv.option_descriptor_columns_run PyVal PydanticType truthy
              message_class_attr replace_type column_pydantic_type_dict
              option_descriptor field "timestamp"
              (FromPgv.rm_dir PyVal option_descriptor) Hcols st Hwf)
    as (st2 & Hrun2 & _ & Hprov & _ & _).
  unfold FromPgv.option_descriptor_to_desc_dict in Hrun. rewrite Hrun in Hrun2.
  injection Hrun2 as <-.
  destruct (extra_after st' !! ("timestamp_" ++ operand)) as [x |] eqn:Hx;
    [| reflexivity].
  destruct (Hprov _ _ Hx) as [Hbefore | (c & Hin & [Hhas _] & Hk & _)].
  - rewrite Hempty, lookup_empty in Hbefore. discriminate Hbefore.
  - apply (timestamp_key_column c operand) in Hk; [| simpl in Hoperand; simpl; tauto].
    subst c. destruct Hunset. split; assumption.
Qed.

(** A model field whose [FieldInfo] carries, under [extra], the operands
    read from the rules. *)
Definition carries_operands (field : CustomerValidator.ModelField datetime)
    (st : FromPgv.PgvState PyVal PydanticType) : Prop :=
  CustomerValidator.mf_extra field !! "extra" = Some (extra_after st).

(** The loop over [__dir__()] meets the rule and [_has_field] answers
    [True] for it. *)
Definition rule_is_read (option_descriptor : FromPgv.RulesMessage PyVal)
    (rule : string) : Prop :=
  In rule (FromPgv.rm_dir PyVal option_descriptor)
  /\ has_field rule option_descriptor = Ok true.

(** Timestamp rules read for a fresh field dictionary. When the loop reads
    a set [within] rule, the validator bound to the field is
    [timestamp_within_validator] and the converted operand is stored under
    [timestamp_within]; when it reads no set [gt] rule, that validator
    raises [KeyError] for every input at every time on a model field that
    carries the operands read from the rules: it reads [timestamp_gt], the
    rules wrote [timestamp_within]. The same holds for [lt_now] without
    [lt] and for [gt_now] without [gt]. *)
Theorem timestamp_rules_bind_validators_without_operand
    (option_descriptor : FromPgv.RulesMessage PyVal) (field : FromPgv.PgvField)
    (st : FromPgv.PgvState PyVal PydanticType) :
  Forall FromPgv.column_ok (FromPgv.rm_dir PyVal option_descriptor) ->
  FromPgv.desc_wf PyVal PydanticType (FromPgv.desc_dict PyVal PydanticType st) ->
  extra_after st = ∅ ->
  FromPgv.pf_type field = TYPE_MESSAGE ->
  exists st',
    read_rules option_descriptor field "timestamp" st = (Ok tt, st')
    /\ (rule_is_read option_descriptor "within" ->
        validators_after st' !! (FromPgv.pf_name field ++ "_timestamp_within_validator")
          = Some (FromPgv.MkValidator (FromPgv.pf_name field)
                    (Some "timestamp_within_validator"))
        /\ extra_after st' !! "timestamp_within"
           = Some (replace_type (FromPgv.rm_getattr PyVal option_descriptor "within"))
        /\ (~ rule_is_read option_descriptor "gt" ->
            extra_after st' !! "timestamp_gt" = None
            /\ forall (model_field : CustomerValidator.ModelField datetime) now_time v,
                 carries_operands model_field st' ->
                 CustomerValidator.timestamp_within_validator datetime
                   timestamp_from_json float_of_int datetime_timestamp total_seconds
                   now_time model_field v = Raise KeyError))
    /\ (rule_is_read option_descriptor "lt_now" ->
        validators_after st' !! (FromPgv.pf_name field ++ "_timestamp_lt_now_validator")
          = Some (FromPgv.MkValidator (FromPgv.pf_name field)
                    (Some "timestamp_lt_now_validator"))
        /\ extra_after st' !! "timestamp_lt_now"
           = Some (replace_type (FromPgv.rm_getattr PyVal option_descriptor "lt_now"))
        /\ (~ rule_is_read option_descriptor "lt" ->
            extra_after st' !! "timestamp_lt" = None
            /\ forall (model_field : CustomerValidator.ModelField datetime) now_time v,
                 carries_operands model_field st' ->
                 CustomerValidator.timestamp_lt_now_validator datetime
                   timestamp_from_json float_of_int datetime_timestamp
                   now_time model_field v = Raise KeyError))
    /\ (rule_is_read option_descriptor "gt_now" ->
        validators_after st' !! (FromPgv.pf_name field ++ "_timestamp_gt_now_validator")
          = Some (FromPgv.MkValidator (FromPgv.pf_name field)
                    (Some "timestamp_gt_now_validator"))
        /\ extra_after st' !! "timestamp_gt_now"
           = Some (replace_type (FromPgv.rm_getattr PyVal option_descriptor "gt_now"))
        /\ (~ rule_is_read option_descriptor "gt" ->
            extra_after st' !! "timestamp_gt" = None
            /\ forall (model_field : CustomerValidator.ModelField datetime) now_time v,
                 carries_operands model_field st' ->
                 CustomerValidator.timestamp_gt_now_validator datetime
                   timestamp_from_json float_of_int datetime_timestamp
                   now_time model_field v = Raise KeyError)).
Proof.
  intros Hcols Hwf Hempty Hty.
  destruct (FromPgv.option_descriptor_columns_run PyVal PydanticType truthy
              message_class_attr replace_type column_pydantic_type_dict
              option_descriptor field "timestamp"
              (FromPgv.rm_dir PyVal option_descriptor) Hcols st Hwf)
    as (st' & Hrun & _).
  exists st'. split; [exact Hrun |].
  assert (Hmissing : forall (model_field : CustomerValidator.ModelField datetime) operand,
            carries_operands model_field st' ->
            extra_after st' !! operand = None ->
            CustomerValidator.extra_operand datetime model_field operand = Raise KeyError).
  { intros model_field operand Hcarries Hnone. unfold CustomerValidator.extra_operand.
    rewrite Hcarries, Hnone. reflexivity. }
  split; [| split]; intros [Hin Hset].
  - destruct (timestamp_rule_bound option_descriptor field st st'
                "within" Hcols Hwf Hty) as (Hval & Hop); simpl; try tauto.
    split; [exact Hval |]. split; [exact Hop |]. intros Hunset.
    assert (Hnone : extra_after st' !! "timestamp_gt" = None).
    { apply (timestamp_operand_absent option_descriptor field st st' "gt"
               Hcols Hwf Hempty); [simpl; tauto | exact Hunset | exact Hrun]. }
    split; [exact Hnone |]. intros model_field now_time v Hcarries.
    unfold CustomerValidator.timestamp_within_validator.
    rewrite (Hmissing model_field "timestamp_gt" Hcarries Hnone). reflexivity.
  - destruct (timestamp_rule_bound option_descriptor field st st'
                "lt_now" Hcols Hwf Hty) as (Hval & Hop); simpl; try tauto.
    split; [exact Hval |]. split; [exact Hop |]. intros Hunset.
    assert (Hnone : extra_after st' !! "timestamp_lt" = None).
    { apply (timestamp_operand_absent option_descriptor field st st' "lt"
               Hcols Hwf Hempty); [simpl; tauto | exact Hunset | exact Hrun]. }
    split; [exact Hnone |]. intros model_field now_time v Hcarries.
    unfold CustomerValidator.timestamp_lt_now_validator.
    rewrite (Hmissing model_field "timestamp_lt" Hcarries Hnone). reflexivity.
  - destruct (timestamp_rule_bound option_descriptor field st st'
                "gt_now" Hcols Hwf Hty) as (Hval & Hop); simpl; try tauto.
    split; [exact Hval |]. split; [exact Hop |]. intros Hunset.
    assert (Hnone : extra_after st' !! "timestamp_gt" = None).
    { apply (timestamp_operand_absent option_descriptor field st st' "gt"
               Hcols Hwf Hempty); [simpl; tauto | exact Hunset | exact Hrun]. }
    split; [exact Hnone |]. intros model_field now_time v Hcarries.
    unfold CustomerValidator.timestamp_gt_now_validator.
    rewrite (Hmissing model_field "timestamp_gt" Hcarries Hnone). reflexivity.
Qed.

End TimestampRules.

(** *** A [within] rule at a concrete input *)

(** Rules [{within: 3600 s}] on the timestamp field [pkg.Msg.created]. *)
Definition within_rules : FromPgv.RulesMessage (CustomerValidator.PyVal unit) :=
  FromPgv.MkRulesMessage (CustomerValidator.PyVal unit)
    ["const"; "lt"; "lte"; "gt"; "gte"; "lt_now"; "gt_now"; "within"]
    (fun c => Some (String.eqb c "within"))
    (fun c => if String.eqb c "within"
              then CustomerValidator.VTimedelta (CustomerValidator.Timedelta 0 3600 0)
              else CustomerValidator.VNone).

Definition fresh_field_dict : FromPgv.PgvState (CustomerValidator.PyVal unit) unit :=
  FromPgv.MkPgvState (CustomerValidator.PyVal unit) unit
    {[ "extra" := FromPgv.DExtra (CustomerValidator.PyVal unit) unit ∅ ]} [] [].

(** The model field of [created] with the operands read from the rules. *)
Definition created_field : CustomerValidator.ModelField unit :=
  CustomerValidator.MkModelField "created"
    {[ "extra" :=
         FromPgv.extra_of (CustomerValidator.PyVal unit) unit
           (FromPgv.desc_dict (CustomerValidator.PyVal unit) unit
              (snd (FromPgv.option_descriptor_to_desc_dict
                      (CustomerValidator.PyVal unit) unit (fun _ => true)
                      (fun _ => false) (fun v => v) (fun _ => None)
                      within_rules FromPgv.demo_timestamp_field "timestamp"
                      fresh_field_dict))) ]}.

Lemma within_rule_witness :
  FromPgv.extra_of (CustomerValidator.PyVal unit) unit
    (FromPgv.desc_dict (CustomerValidator.PyVal unit) unit
       (snd (FromPgv.option_descriptor_to_desc_dict
               (CustomerValidator.PyVal unit) unit (fun _ => true)
               (fun _ => false) (fun v => v) (fun _ => None)
               within_rules FromPgv.demo_timestamp_field "timestamp"
               fresh_field_dict))) !! "timestamp_within"
  = Some (CustomerValidator.VTimedelta (CustomerValidator.Timedelta 0 3600 0))
  /\ CustomerValidator.timestamp_within_validator unit (fun _ => None) (fun _ => None)
       (fun _ => 0%float) CustomerValidator.demo_total_seconds 100%float created_field
       (CustomerValidator.VFloat 96%float)
     = Raise KeyError.
Proof.
  destruct (timestamp_rules_bind_validators_without_operand unit (fun _ => None)
              (fun _ => None) (fun _ => 0%float) CustomerValidator.demo_total_seconds
              unit (fun _ => true) (fun _ => false) (fun v => v) (fun _ => None)
              within_rules FromPgv.demo_timestamp_field fresh_field_dict)
    as (st' & Hrun & H & _).
  - repeat constructor; discriminate.
  - split; [eexists; vm_compute; reflexivity | left; vm_compute; reflexivity].
  - vm_compute. reflexivity.
  - reflexivity.
  - destruct H as (_ & Hop & Hraise).
    + split; [simpl; tauto | vm_compute; reflexivity].
    + rewrite Hrun. cbn [snd]. split; [exact Hop |].
      destruct Hraise as [_ Hraise].
      * intros [_ Habs]. vm_compute in Habs. discriminate Habs.
      * apply Hraise. unfold carries_operands, created_field. rewrite Hrun.
        cbn [snd CustomerValidator.mf_extra]. apply lookup_singleton_eq.
Defined.

End PgvValidation.

(** ** gen_model.py *)

Module GenModel.

(** *** Strings *)

(** [str.endswith] *)
Definition endswith (v s : string) : bool :=
  (String.length s <=? String.length v)%nat
  && String.eqb (String.substring (String.length v - String.length s)
                                  (String.length s) v) s.

(** [str.startswith] *)
Definition startswith (v s : string) : bool := String.prefix s v.

(** [a in b] on strings. *)
Definition contains (b a : string) : bool :=
  match String.index 0 a b with Some _ => true | None => false end.

(** [s.split(".")] *)
Fixpoint split_dot_aux (acc s : string) : list string :=
  match s with
  | EmptyString => [acc]
  | String c s' =>
      if Ascii.eqb c "."%char then acc :: split_dot_aux "" s'
      else split_dot_aux (acc ++ String c "") s'
  end.
Definition split_dot (s : string) : list string := split_dot_aux "" s.

(** [".".join(l)] *)
Fixpoint join_dot (l : list string) : string :=
  match l with
  | [] => ""
  | [x] => x
  | x :: rest => x ++ "." ++ join_dot rest
  end.

(** *** Python values of the compiler *)

(** Defaults of a field: [PydanticUndefined], [None] or a protobuf scalar
    default. *)
Inductive PyDefault : Type :=
  | PydanticUndefined
  | PyNone
  | PyInt (z : Z)
  | PyStr (s : string)
  | PyBool (b : bool).

Definition is_undefined (d : PyDefault) : bool :=
  match d with PydanticUndefined => true | _ => false end.

(** Types as field annotations hold them. A model or enum class is a
    reference to its object in the heap; [TForward] is the string
    annotation of a postponed reference. *)
Inductive PyType : Type :=
  | TNoneValue
  | TBuiltin (name : string)
  | TGoogle (module_name message_name : string)
  | TClass (ref : nat)
  | TForward (annotation : string)
  | TList (t : PyType)
  | TOptional (t : PyType)
  | TDict (args : list PyType).

Definition AnyMessage : PyType := TBuiltin "AnyMessage".

Definition is_AnyMessage (t : PyType) : bool :=
  match t with
  | TBuiltin s => String.eqb s "AnyMessage"
  | _ => false
  end.

(** Default factories: [list], [dict], or a type called with no argument. *)
Inductive Factory : Type :=
  | FactoryList
  | FactoryDict
  | FactoryOf (t : PyType).

(** Values of a field-parameter dictionary (the keyword arguments a
    [FieldInfo] is built from). *)
Inductive ParamVal : Type :=
  | PVDefault (d : PyDefault)
  | PVFactory (f : option Factory)
  | PVBool (b : bool)
  | PVType (t : option PyType)
  | PVFieldClass (c : option string)
  | PVValidators (v : list (string * string))
  | PVMapType (m : list (string * PyType))
  | PVText (s : string).

(** Python truthiness. *)
Definition truthy (v : ParamVal) : bool :=
  match v with
  | PVDefault PyNone => false
  | PVDefault (PyInt z) => negb (Z.eqb z 0)
  | PVDefault (PyStr s) => negb (String.eqb s "")
  | PVDefault (PyBool b) => b
  | PVDefault PydanticUndefined => true
  | PVFactory f => match f with Some _ => true | None => false end
  | PVBool b => b
  | PVType t => match t with Some TNoneValue | None => false | Some _ => true end
  | PVFieldClass c => match c with Some _ => true | None => false end
  | PVValidators v => match v with [] => false | _ => true end
  | PVMapType m => match m with [] => false | _ => true end
  | PVText s => negb (String.eqb s "")
  end.

(** An insertion-ordered dictionary with string keys. *)
Fixpoint dict_get {V : Type} (k : string) (d : list (string * V)) : option V :=
  match d with
  | [] => None
  | (k', v) :: d' => if String.eqb k k' then Some v else dict_get k d'
  end.

Fixpoint dict_set {V : Type} (k : string) (v : V) (d : list (string * V))
    : list (string * V) :=
  match d with
  | [] => [(k, v)]
  | (k', v') :: d' =>
      if String.eqb k k' then (k, v) :: d' else (k', v') :: dict_set k v d'
  end.

Fixpoint dict_del {V : Type} (k : string) (d : list (string * V))
    : list (string * V) :=
  match d with
  | [] => []
  | (k', v') :: d' =>
      if String.eqb k k' then d' else (k', v') :: dict_del k d'
  end.

(** [d.update(other)] *)
Definition dict_update {V : Type} (d other : list (string * V)) : list (string * V) :=
  fold_left (fun acc kv => dict_set (fst kv) (snd kv) acc) other d.

Definition ParamDict : Type := list (string * ParamVal).

(** A [FieldInfo]: the class that was called and its keyword arguments. *)
Record FieldInfo : Type := MkFieldInfo
  { fi_class : string; fi_kwargs : ParamDict }.

(** *** Descriptors *)

Record EnumDescriptor : Type := MkEnumDescriptor
  { e_name : string; e_full_name : string; e_file_name : string;
    e_values : list (string * Z) }.

(** A oneof group; [o_fields] are the names of its member fields. *)
Record OneofDescriptor : Type := MkOneofDescriptor
  { o_name : string; o_full_name : string; o_fields : list string }.

(** [f_message_type] is the full name of the field's message type: the
    descriptor graph can be cyclic, so it is a key into the descriptor
    pool rather than the descriptor itself. *)
Record FieldDescriptor : Type := MkFieldDescriptor
  { f_name : string;
    f_full_name : string;
    f_type : FieldType;
    f_label : Label;
    f_message_type : option string;
    f_enum_type : option EnumDescriptor;
    f_containing_oneof : option OneofDescriptor;
    f_default_value : PyDefault }.

Inductive Descriptor : Type :=
  MkDescriptor (name full_name file_name : string)
    (fields : list FieldDescriptor)
    (nested_types : list Descriptor)
    (enum_types : list EnumDescriptor)
    (oneofs : list OneofDescriptor).

Definition d_name (d : Descriptor) := let 'MkDescriptor n _ _ _ _ _ _ := d in n.
Definition d_full_name (d : Descriptor) := let 'MkDescriptor _ n _ _ _ _ _ := d in n.
Definition d_file_name (d : Descriptor) := let 'MkDescriptor _ _ n _ _ _ _ := d in n.
Definition d_fields (d : Descriptor) := let 'MkDescriptor _ _ _ l _ _ _ := d in l.
Definition d_nested_types (d : Descriptor) := let 'MkDescriptor _ _ _ _ l _ _ := d in l.
Definition d_enum_types (d : Descriptor) := let 'MkDescriptor _ _ _ _ _ l _ := d in l.
Definition d_oneofs (d : Descriptor) := let 'MkDescriptor _ _ _ _ _ _ l := d in l.

(** *** The metadata handed to the compiler *)

(** [OneOfTypedDict]: [required] and [optional_fields], read with their
    defaults [False] and [set()]. *)
Record OneOfDoc : Type := MkOneOfDoc
  { ood_required : bool; ood_optional_fields : list string }.

(** [DescFromOptionTypedDict]: per-field rule dictionaries under [message],
    oneof rules under [one_of], the same for nested messages under [nested],
    and the [metadata] flags. *)
Inductive DescFromOption : Type :=
  MkDescFromOption (message : list (string * ParamDict))
    (one_of : list (string * OneOfDoc))
    (nested : list (string * DescFromOption))
    (metadata : list (string * bool)).

Definition dfo_message (d : DescFromOption) := let 'MkDescFromOption m _ _ _ := d in m.
Definition dfo_one_of (d : DescFromOption) := let 'MkDescFromOption _ o _ _ := d in o.
Definition dfo_nested (d : DescFromOption) := let 'MkDescFromOption _ _ n _ := d in n.
Definition dfo_metadata (d : DescFromOption) := let 'MkDescFromOption _ _ _ m := d in m.

(** [d.get(key, False)] on a dictionary of flags. *)
Definition flag (key : string) (d : list (string * bool)) : bool :=
  match dict_get key d with Some b => b | None => false end.

(** *** The classes the compiler creates *)

(** [{"required": ..., "fields": set()}] *)
Record UseOneOf : Type := MkUseOneOf
  { required : bool; fields : list string }.

(** [set.add] *)
Definition set_add (x : string) (l : list string) : list string :=
  if str_in x l then l else (l ++ [x])%list.

(** The base class a model is created from: [self._pydantic_base], or a
    subclass of it that carries the changed configuration. *)
Record PydanticBase : Type := MkPydanticBase
  { pb_base : string; pb_config : list (string * bool) }.

Record CodeRefModel : Type := MkCodeRefModel
  { cr_one_of_dict : list (string * UseOneOf);
    cr_base_model : string;
    cr_nested_message_dict : list (string * PyType);
    cr_validators : list (string * string) }.

Inductive ClassBody : Type :=
  | ModelClass (annotation_dict : list (string * (PyType * FieldInfo)))
      (pydantic_validators : option (list (string * string)))
      (pydantic_module : string) (pydantic_base : PydanticBase)
  | EnumClass (members : list (string * Z)).

(** A class object: what it was created from and the attributes set on it
    afterwards ([None]: the attribute was never set). *)
Record ClassObj : Type := MkClassObj
  { c_name : string;
    c_body : ClassBody;
    c_doc : option string;
    c_is_nested : option bool;
    c_is_use : option bool;
    c_code_ref : option CodeRefModel;
    c_one_of_dict : option (list (string * UseOneOf)) }.

(** *** The store *)

(** A cache key [(descriptor.full_name, class_name, skip_validate_rule)]. *)
Definition Key : Type := string * string * bool.

(** A cache dictionary; [None] is the in-progress mark. *)
Abbreviation Cache := (gmap Key (option nat)).

(** Dictionaries that hold model caches live at locations of the store;
    location [0] is the module-level [_create_model_cache]. Class objects
    live in [heap], at the index that is their reference. *)
Record World : Type := MkWorld
  { caches : gmap nat Cache;
    heap : list ClassObj }.

Definition global_cache : nat := 0.

Definition cache_at (l : nat) (w : World) : Cache :=
  match caches w !! l with Some c => c | None => ∅ end.

(** Computations on the store that may raise. *)
Definition M (A : Type) : Type := World -> result A * World.

Definition ret {A} (a : A) : M A := fun w => (Ok a, w).
Definition raise {A} (e : exn) : M A := fun w => (Raise e, w).
Definition bind {A B} (m : M A) (k : A -> M B) : M B :=
  fun w => match m w with
           | (Ok a, w') => k a w'
           | (Raise e, w') => (Raise e, w')
           end.
Definition lift {A} (r : result A) : M A := fun w => (r, w).

Notation "'do' x <- m ; k" := (bind m (fun x => k))
  (at level 10, x name, m at level 100, k at level 200).
Notation "'do' ' p <- m ; k" := (bind m (fun x => let 'p := x in k))
  (at level 10, p pattern, m at level 100, k at level 200).
Notation "'exec' m ; k" := (bind m (fun _ => k))
  (at level 10, m at level 100, k at level 200).

(** [try: m except WaitingToCompleteException: pass] *)
Definition except_waiting {A} (m : M A) (otherwise : A) : M A :=
  fun w => match m w with
           | (Raise WaitingToCompleteException, w') => (Ok otherwise, w')
           | r => r
           end.

Definition cache_lookup (l : nat) (k : Key) : M (option (option nat)) :=
  fun w => (Ok (cache_at l w !! k), w).

Definition cache_store (l : nat) (k : Key) (v : option nat) : M unit :=
  fun w => (Ok tt, MkWorld (<[l := <[k := v]> (cache_at l w)]> (caches w)) (heap w)).

(** [_create_model_cache.clear()] *)
Definition clear_create_model_cache : M unit :=
  fun w => (Ok tt, MkWorld (<[global_cache := ∅]> (caches w)) (heap w)).

(** Creating a class. *)
Definition new_class (c : ClassObj) : M nat :=
  fun w => (Ok (length (heap w)), MkWorld (caches w) (heap w ++ [c])%list).

(** [setattr] on the class a type stands for; a string annotation or a
    builtin has no settable attribute. *)
Definition setattr_class (t : PyType) (f : ClassObj -> ClassObj) : M unit :=
  match t with
  | TClass r =>
      fun w => (Ok tt, MkWorld (caches w) (alter f r (heap w)))
  | TForward _ => raise AttributeError
  | _ => raise TypeError
  end.

Definition set_is_nested (b : bool) (c : ClassObj) : ClassObj :=
  MkClassObj (c_name c) (c_body c) (c_doc c) (Some b) (c_is_use c)
    (c_code_ref c) (c_one_of_dict c).
Definition set_is_use (b : bool) (c : ClassObj) : ClassObj :=
  MkClassObj (c_name c) (c_body c) (c_doc c) (c_is_nested c) (Some b)
    (c_code_ref c) (c_one_of_dict c).
Definition set_doc (d : string) (c : ClassObj) : ClassObj :=
  MkClassObj (c_name c) (c_body c) (Some d) (c_is_nested c) (c_is_use c)
    (c_code_ref c) (c_one_of_dict c).
Definition set_code_ref (r : CodeRefModel) (c : ClassObj) : ClassObj :=
  MkClassObj (c_name c) (c_body c) (c_doc c) (c_is_nested c) (c_is_use c)
    (Some r) (c_one_of_dict c).
Definition set_one_of_dict (d : list (string * UseOneOf)) (c : ClassObj) : ClassObj :=
  MkClassObj (c_name c) (c_body c) (c_doc c) (c_is_nested c) (c_is_use c)
    (c_code_ref c) (Some d).

(** [getattr(v, "_is_use", False)] *)
Definition get_is_use (w : World) (t : PyType) : bool :=
  match t with
  | TClass r =>
      match heap w !! r with
      | Some c => match c_is_use c with Some b => b | None => false end
      | None => false
      end
  | _ => false
  end.

(** Monadic loop over a list, threading the loop's own variables. *)
Fixpoint for_each {A S : Type} (l : list A) (s : S) (body : S -> A -> M S) : M S :=
  match l with
  | [] => ret s
  | x :: rest => do s' <- body s x; for_each rest s' body
  end.

(** *** What the compiler imports *)

(** [parse_msg_desc_method]: [None], ["PGV"], or anything else that
    [M2P.__init__] accepts (["ignore"], a path, a module). *)
Inductive ParseMethod : Type :=
  | MethodNone
  | MethodPGV
  | MethodOther.

(** The modules this file imports and that are not part of the sources
    ([constant], [field_param], [template], [_pydantic_adapter], pydantic's
    [create_model]), the Python runtime's string helper behind
    [replace_file_name_to_class_name], and the descriptors reachable through
    [field.message_type], by full name. *)
Record Env : Type := MkEnv
  { pool : gmap string Descriptor;
    protobuf_desc_python_type_dict : FieldType -> option PyType;
    protobuf_common_type_dict : FieldType -> option string;
    (** [constant.message_name_type_dict] and
        [constant.message_name_default_factory_dict] *)
    message_name_type_dict : list (string * PyType);
    message_name_default_factory_dict : list (string * Factory);
    replace_file_name_to_class_name : string -> string;
    is_v1 : bool;
    (** [None]: pydantic creates the class; [Some msg]: it raises with
        [str(e) = msg]. *)
    create_model_error :
      string -> list (string * (PyType * FieldInfo)) ->
      option (list (string * string)) -> string -> PydanticBase -> option string;
    (** [_pydantic_adapter.get_model_config_value(base, key)] *)
    get_model_config_value : string -> string -> bool;
    handle_template_var : ParamDict -> result ParamDict;
    field_comment_handler :
      ParamDict -> FieldDescriptor -> option string -> string -> result ParamDict;
    (** [FieldParamModel] built from [field_doc_dict], then its [dict()] *)
    FieldParamModel_dict : ParamDict -> result ParamDict;
    field_param_dict_handle :
      ParamDict -> PyDefault -> option Factory -> PyType -> result ParamDict;
    field_param_dict_migration_v2_handler : ParamDict -> result ParamDict;
    (** [get_origin(new) is Annotated or issubclass(new, raw) or raw is
        datetime.datetime] *)
    map_type_accepts : PyType -> PyType -> result bool }.

(** The attributes of an [M2P] object. *)
Record M2P : Type := MkM2P
  { _parse_msg_desc_method : ParseMethod;
    _field_doc_dict : list (string * DescFromOption);
    _default_field : string;
    _creat_cache : nat;
    _pydantic_base : string;
    _pydantic_module : string;
    _message_type_dict_by_type_name : list (string * PyType);
    _message_default_factory_dict_by_type_name : list (string * Factory) }.

(** [@dataclass FieldDataClass]; [nested_message_dict] and [validators] are
    the dictionaries of the enclosing call, shared by every field. *)
Record FieldDataClass : Type := MkFieldDataClass
  { field_name : string;
    field_type : PyType;
    field_type_name : option string;
    field_default : PyDefault;
    field_default_factory : option Factory;
    protobuf_field : FieldDescriptor;
    nested_message_dict : list (string * PyType);
    descriptor : Descriptor;
    validators : list (string * string) }.

Definition with_field_type (t : PyType) (fd : FieldDataClass) : FieldDataClass :=
  MkFieldDataClass (field_name fd) t (field_type_name fd) (field_default fd)
    (field_default_factory fd) (protobuf_field fd) (nested_message_dict fd)
    (descriptor fd) (validators fd).
Definition with_field_type_name (n : option string) (fd : FieldDataClass) : FieldDataClass :=
  MkFieldDataClass (field_name fd) (field_type fd) n (field_default fd)
    (field_default_factory fd) (protobuf_field fd) (nested_message_dict fd)
    (descriptor fd) (validators fd).
Definition with_field_default (d : PyDefault) (fd : FieldDataClass) : FieldDataClass :=
  MkFieldDataClass (field_name fd) (field_type fd) (field_type_name fd) d
    (field_default_factory fd) (protobuf_field fd) (nested_message_dict fd)
    (descriptor fd) (validators fd).
Definition with_field_default_factory (f : option Factory) (fd : FieldDataClass)
    : FieldDataClass :=
  MkFieldDataClass (field_name fd) (field_type fd) (field_type_name fd)
    (field_default fd) f (protobuf_field fd) (nested_message_dict fd)
    (descriptor fd) (validators fd).
Definition with_nested_message_dict (d : list (string * PyType)) (fd : FieldDataClass)
    : FieldDataClass :=
  MkFieldDataClass (field_name fd) (field_type fd) (field_type_name fd)
    (field_default fd) (field_default_factory fd) (protobuf_field fd) d
    (descriptor fd) (validators fd).
Definition with_validators (v : list (string * string)) (fd : FieldDataClass)
    : FieldDataClass :=
  MkFieldDataClass (field_name fd) (field_type fd) (field_type_name fd)
    (field_default fd) (field_default_factory fd) (protobuf_field fd)
    (nested_message_dict fd) (descriptor fd) v.

(** *** util method *)

(** The loop [for key in key_list] of [_get_field_info_dict_by_full_name]. *)
Fixpoint field_info_walk (desc_dict : DescFromOption) (key_list : list string)
    : option ParamDict :=
  match key_list with
  | [] => None
  | key :: rest =>
      match dict_get key (dfo_message desc_dict) with
      | Some info => Some info
      | None =>
          match dict_get key (dfo_nested desc_dict) with
          | Some desc_dict' =>
              if flag "ignored" (dfo_metadata desc_dict') then None
              else field_info_walk desc_dict' rest
          | None => None
          end
      end
  end.

Definition _get_field_info_dict_by_full_name (self : M2P) (full_name : string)
    : result (option ParamDict) :=
  let split_full_name := split_dot full_name in
  let unpacked :=
    if (length split_full_name =? 2)%nat then split_full_name
    else tl split_full_name (* ignore package name *) in
  match unpacked with
  | [] => Raise ValueError
  | message_name :: key_list =>
      match dict_get message_name (_field_doc_dict self) with
      | None => Ok None
      | Some desc_dict =>
          if flag "ignore" (dfo_metadata desc_dict) then Ok None
          else Ok (field_info_walk desc_dict key_list)
      end
  end.

Definition is_proto3_optional_entry : list (string * bool) :=
  [("is_proto3_optional", true)].

(** First loop of [_one_of_handle]: the proto3-optional fields. *)
Definition one_of_optional_step
    (acc : list (string * list (string * bool)) * list string)
    (field : FieldDescriptor)
    : list (string * list (string * bool)) * list string :=
  let '(optional_dict, optional_id_set) := acc in
  match f_containing_oneof field with
  | None => acc
  | Some containing_oneof =>
      if String.eqb ("_" ++ f_name field) (o_name containing_oneof) then
        (dict_set (f_full_name field) is_proto3_optional_entry optional_dict,
         set_add (o_full_name containing_oneof) optional_id_set)
      else acc
  end.

(** [for found_column_name in [column_name, ...]] for one oneof. *)
Definition one_of_found_step (one_of_desc_dict : list (string * OneOfDoc))
    (descriptor : Descriptor) (column_name : string)
    (acc : list (string * UseOneOf) * list (string * list (string * bool)))
    (found_column_name : string)
    : list (string * UseOneOf) * list (string * list (string * bool)) :=
  let '(one_of_dict, optional_dict) := acc in
  match dict_get found_column_name one_of_desc_dict with
  | None => acc
  | Some doc =>
      let entry :=
        match dict_get column_name one_of_dict with
        | Some e => e
        | None => MkUseOneOf false []
        end in
      (dict_set column_name (MkUseOneOf (ood_required doc) (fields entry)) one_of_dict,
       fold_left
         (fun od field_name =>
            dict_set (d_full_name descriptor ++ "." ++ field_name)
              is_proto3_optional_entry od)
         (ood_optional_fields doc) optional_dict)
  end.

(** Second loop of [_one_of_handle]: one turn per oneof. *)
Definition one_of_step (one_of_desc_dict : list (string * OneOfDoc))
    (descriptor : Descriptor) (optional_id_set : list string)
    (acc : list (string * UseOneOf) * list (string * list (string * bool)))
    (one_of : OneofDescriptor)
    : list (string * UseOneOf) * list (string * list (string * bool)) :=
  let column_name := o_full_name one_of in
  if str_in column_name optional_id_set then acc
  else
    let '(one_of_dict, optional_dict) := acc in
    let one_of_dict :=
      match dict_get column_name one_of_dict with
      | Some _ => one_of_dict
      | None => dict_set column_name (MkUseOneOf false []) one_of_dict
      end in
    (* pyi file not include pkg info *)
    let '(one_of_dict, optional_dict) :=
      fold_left (one_of_found_step one_of_desc_dict descriptor column_name)
        [column_name; join_dot (tl (split_dot column_name))]
        (one_of_dict, optional_dict) in
    let entry :=
      match dict_get column_name one_of_dict with
      | Some e => e
      | None => MkUseOneOf false []
      end in
    (dict_set column_name
       (MkUseOneOf (required entry) (fold_left (fun s n => set_add n s) (o_fields one_of)
                                       (fields entry)))
       one_of_dict,
     optional_dict).

Definition _one_of_handle (self : M2P) (descriptor : Descriptor)
    : list (string * UseOneOf) * list (string * list (string * bool)) :=
  let desc_dict := dict_get (d_name descriptor) (_field_doc_dict self) in
  let ignore_parse_rule :=
    match desc_dict with
    | Some d => flag "ignored" (dfo_metadata d)
    | None => false
    end in
  let one_of_desc_dict :=
    if negb ignore_parse_rule then
      match desc_dict with Some d => dfo_one_of d | None => [] end
    else [] in
  let '(optional_dict, optional_id_set) :=
    fold_left one_of_optional_step (d_fields descriptor) ([], []) in
  fold_left (one_of_step one_of_desc_dict descriptor optional_id_set)
    (d_oneofs descriptor) ([], optional_dict).

(** *** field handler *)

(** The double quote, for the string annotation of a postponed reference. *)
Definition dquote : string := String (Ascii.ascii_of_nat 34) EmptyString.

(** [str.lower] on ASCII letters. *)
Definition lower_ascii (c : ascii) : ascii :=
  let n := Ascii.nat_of_ascii c in
  if ((65 <=? n) && (n <=? 90))%nat then Ascii.ascii_of_nat (n + 32) else c.
Fixpoint lower (s : string) : string :=
  match s with
  | EmptyString => EmptyString
  | String c s' => String (lower_ascii c) (lower s')
  end.

(** [s.replace("/", ".")] *)
Fixpoint slash_to_dot (s : string) : string :=
  match s with
  | EmptyString => EmptyString
  | String c s' =>
      String (if Ascii.eqb c "/"%char then "."%char else c) (slash_to_dot s')
  end.

(** [IntEnum(name, class_dict)] with [class_dict["__doc__"] = doc]. *)
Definition new_int_enum (name : string) (members : list (string * Z)) (doc : string)
    : M nat :=
  new_class (MkClassObj name (EnumClass members) (Some doc) None None None None).

(** [typing.Dict[tuple(params)]]: two parameters, or [TypeError]. *)
Definition typing_Dict (params : list PyType) : result PyType :=
  if (length params =? 2)%nat then Ok (TDict params) else Raise TypeError.

Section Handlers.

Variable env : Env.
(** [self._parse_msg_to_pydantic_model(descriptor=..., class_name=...,
    skip_validate_rule=...)], as the handlers call it. *)
Variable parse : Descriptor -> string -> bool -> M nat.

(** [field.message_type]: [None] for a field that is no message; reading an
    attribute of it then raises [AttributeError]. *)
Definition message_type (field : FieldDescriptor) : option Descriptor :=
  match f_message_type field with
  | Some full_name => pool env !! full_name
  | None => None
  end.

Definition message_type_or_raise (field : FieldDescriptor) : M Descriptor :=
  match message_type field with
  | Some d => ret d
  | None => raise AttributeError
  end.

Definition get_nested_message_dict_by_message (descriptor : Descriptor)
    : M (list (string * PyType)) :=
  (* nested support *)
  do nested_message_dict <-
    for_each (d_nested_types descriptor) ([] : list (string * PyType))
      (fun nested_message_dict message =>
         if endswith (d_name message) "Entry" then ret nested_message_dict
         else
           do r <- parse message "" false;
           let nested_type := TClass r in
           exec setattr_class nested_type (set_is_nested true);
           exec setattr_class nested_type (set_is_use false);
           ret (dict_set (d_full_name message) nested_type nested_message_dict));
  (* enum support *)
  for_each (d_enum_types descriptor) nested_message_dict
    (fun nested_message_dict enum_type =>
       do r <- new_int_enum (e_name enum_type) (e_values enum_type) "";
       let nested_type := TClass r in
       exec setattr_class nested_type (set_is_nested true);
       exec setattr_class nested_type (set_is_use false);
       ret (dict_set (e_full_name enum_type) nested_type nested_message_dict)).

(** The type of one key or value field of a map entry. *)
Definition map_entry_field_type (self : M2P) (k_v_field : FieldDescriptor) : M PyType :=
  match f_message_type k_v_field with
  | None =>
      match protobuf_desc_python_type_dict env (f_type k_v_field) with
      | Some t => ret t
      | None => raise KeyError
      end
  | Some _ =>
      do mt <- message_type_or_raise k_v_field;
      match dict_get (d_name mt) (_message_type_dict_by_type_name self) with
      | Some t => ret t
      | None => do r <- parse mt "" false; ret (TClass r)
      end
  end.

Definition _protobuf_field_type_is_type_message_handler (self : M2P)
    (field_dataclass : FieldDataClass) : M FieldDataClass :=
  let protobuf_field := protobuf_field field_dataclass in
  do mt <- message_type_or_raise protobuf_field;
  match dict_get (d_name mt) (_message_type_dict_by_type_name self) with
  | Some t =>
      (* Timestamp, Struct, Empty, Duration, Any support *)
      let fd := with_field_type_name (Some (lower (d_name mt))) field_dataclass in
      let fd := with_field_type t fd in
      match dict_get (d_name mt) (_message_default_factory_dict_by_type_name self) with
      | Some f => ret (with_field_default_factory (Some f) fd)
      | None => ret fd
      end
  | None =>
      if endswith (d_name mt) "Entry" then
        (* support google.protobuf.MapEntry *)
        let fd := with_field_type_name (Some "map") field_dataclass in
        do dict_type_param_list <-
          for_each (d_fields mt) ([] : list PyType)
            (fun l k_v_field =>
               do k_v_type <- map_entry_field_type self k_v_field;
               ret (l ++ [k_v_type])%list);
        do t <- lift (typing_Dict dict_type_param_list);
        ret (with_field_default_factory (Some FactoryDict) (with_field_type t fd))
      else if startswith (d_file_name mt) "google/protobuf/" then
        let module_name :=
          match split_dot (d_file_name mt) with
          | first :: _ => slash_to_dot first ++ "_pb2"
          | [] => "_pb2"
          end in
        let type_factory := TGoogle module_name (d_name mt) in
        ret (with_field_default_factory (Some (FactoryOf type_factory))
               (with_field_type type_factory field_dataclass))
      else
        (* support google.protobuf.Message *)
        do field_doc_dict <-
          lift (_get_field_info_dict_by_full_name self (f_full_name protobuf_field));
        let skip_validate_rule :=
          match field_doc_dict with
          | Some d =>
              match dict_get "skip" d with Some v => truthy v | None => false end
          | None => false
          end in
        let full_name := d_full_name mt in
        match dict_get full_name (nested_message_dict field_dataclass) with
        | Some known =>
            do fd <-
              (if skip_validate_rule then
                 (* found and gen new message, finally, register to nested_message_dict *)
                 match filter (fun i => String.eqb (d_full_name i) full_name)
                         (d_nested_types (descriptor field_dataclass)) with
                 | [] => raise IndexError
                 | nested_message :: _ =>
                     do r <- parse nested_message (d_name mt ++ "OnlyUseSkipRule")
                               skip_validate_rule;
                     let nested_type := TClass r in
                     let fd :=
                       with_nested_message_dict
                         (dict_set (full_name ++ "OnlyUseSkipRule") nested_type
                            (nested_message_dict field_dataclass)) field_dataclass in
                     exec setattr_class nested_type (set_is_nested true);
                     ret (with_field_type nested_type fd)
                 end
               else ret (with_field_type known field_dataclass));
            exec setattr_class (field_type fd) (set_is_use true);
            ret fd
        | None =>
            let is_same_pkg :=
              String.eqb (d_file_name (descriptor field_dataclass)) (d_file_name mt) in
            let _class_name := d_name mt in
            if negb is_same_pkg then
              let _class_name :=
                replace_file_name_to_class_name env (d_file_name mt) ++ _class_name in
              do r <- parse mt _class_name skip_validate_rule;
              let fd := with_field_type (TClass r) field_dataclass in
              let _class_doc :=
                "Note: The current class does not belong to the package" ++ String "010" ""
                ++ _class_name ++ " protobuf path:" ++ d_file_name mt in
              exec setattr_class (field_type fd) (set_doc _class_doc);
              ret fd
            else
              (* if self-referencing, need use Python type hints postponed annotations *)
              let fd :=
                with_field_type (TForward (dquote ++ _class_name ++ dquote))
                  field_dataclass in
              let use_class_name :=
                if negb skip_validate_rule then _class_name
                else _class_name ++ "OnlyUseSkipRule" in
              if skip_validate_rule
                 || negb (String.eqb (d_full_name mt)
                            (d_full_name (descriptor field_dataclass)))
              then
                except_waiting
                  (do r <- parse mt use_class_name skip_validate_rule;
                   ret (with_field_type (TClass r) fd))
                  fd
              else ret fd
        end
  end.

Definition _protobuf_field_type_is_type_enum_handler (field_dataclass : FieldDataClass)
    : M FieldDataClass :=
  (* support google.protobuf.Enum *)
  let fd := with_field_default (PyInt 0) field_dataclass in
  let protobuf_field := protobuf_field fd in
  let fd := with_field_type_name (Some "enum") fd in
  match f_enum_type protobuf_field with
  | None => raise AttributeError
  | Some enum_type =>
      match dict_get (e_full_name enum_type) (nested_message_dict fd) with
      | Some known =>
          let fd := with_field_type known fd in
          exec setattr_class (field_type fd) (set_is_use true);
          ret fd
      | None =>
          let other_file :=
            negb (String.eqb (d_file_name (descriptor fd)) (e_file_name enum_type)) in
          let _class_name :=
            if other_file
            then replace_file_name_to_class_name env (e_file_name enum_type)
                 ++ e_name enum_type
            else e_name enum_type in
          let _class_doc :=
            if other_file
            then "Note: The current class does not belong to the package" ++ String "010" ""
                 ++ _class_name ++ " protobuf path:" ++ e_file_name enum_type
            else "" in
          do r <- new_int_enum _class_name (e_values enum_type) _class_doc;
          ret (with_field_type (TClass r) fd)
      end
  end.

Definition _protobuf_field_lable_is_label_repeated_handler
    (field_dataclass : FieldDataClass) : FieldDataClass :=
  (* support google.protobuf.array *)
  let protobuf_field := protobuf_field field_dataclass in
  let is_map :=
    match message_type protobuf_field with
    | Some mt => endswith (d_name mt) "Entry"
    | None => false
    end in
  if negb is_map then
    let fd := with_field_type (TList (field_type field_dataclass)) field_dataclass in
    let fd := with_field_default_factory (Some FactoryList) fd in
    let fd := with_field_type_name (Some "repeated") fd in
    if negb (is_undefined (field_default fd))
    then with_field_default PydanticUndefined fd
    else fd
  else field_dataclass.

End Handlers.

(** *** Field information *)

(** [d.pop(key)] *)
Definition dict_pop (key : string) (d : ParamDict) : result (ParamVal * ParamDict) :=
  match dict_get key d with
  | Some v => Ok (v, dict_del key d)
  | None => Raise KeyError
  end.

(** [d.pop(key, default)] *)
Definition dict_pop_default (key : string) (default : ParamVal) (d : ParamDict)
    : ParamVal * ParamDict :=
  match dict_get key d with
  | Some v => (v, dict_del key d)
  | None => (default, d)
  end.

(** The loop over [enumerate(["keys", "values"])] that retypes a map. *)
Fixpoint retype_map_args (env : Env) (map_type_dict : list (string * PyType))
    (columns : list string) (args : list PyType) : result (list PyType) :=
  match columns with
  | [] => Ok args
  | k_v_column :: columns' =>
      match args with
      | [] => Raise IndexError
      | raw_k_v_type :: args' =>
          rbind
            (match dict_get k_v_column map_type_dict with
             | None => Ok raw_k_v_type
             | Some new_k_v_type =>
                 rbind (map_type_accepts env new_k_v_type raw_k_v_type)
                   (fun accepted =>
                      Ok (if accepted then new_k_v_type else raw_k_v_type))
             end)
            (fun first =>
               rbind (retype_map_args env map_type_dict columns' args')
                 (fun rest => Ok (first :: rest)))
      end
  end.

Definition _gen_field_info (env : Env) (self : M2P) (field_dataclass : FieldDataClass)
    (skip_validate_rule : bool) : result (option FieldInfo * FieldDataClass) :=
  let field := _default_field self in
  rbind (_get_field_info_dict_by_full_name self
           (f_full_name (protobuf_field field_dataclass)))
    (fun field_doc_dict =>
  let finish (field : string) (fd : FieldDataClass) (field_param_dict : ParamDict) :=
    rbind (if negb (is_v1 env)
           then field_param_dict_migration_v2_handler env field_param_dict
           else Ok field_param_dict)
      (fun field_param_dict => Ok (Some (MkFieldInfo field field_param_dict), fd)) in
  match field_doc_dict, skip_validate_rule with
  | Some field_doc_dict, false =>
      rbind (match _parse_msg_desc_method self with
             | MethodPGV => Ok field_doc_dict
             | _ => handle_template_var env field_doc_dict
             end) (fun field_doc_dict =>
      rbind (match _parse_msg_desc_method self with
             | MethodNone | MethodPGV => Ok field_doc_dict
             | MethodOther =>
                 field_comment_handler env field_doc_dict
                   (protobuf_field field_dataclass)
                   (field_type_name field_dataclass)
                   (f_full_name (protobuf_field field_dataclass))
             end) (fun field_doc_dict =>
      rbind (FieldParamModel_dict env field_doc_dict) (fun field_param_dict =>
      (* Nested types do not include the `enable`, `field` and `validator` attributes *)
      rbind (dict_pop "enable" field_param_dict) (fun '(enable, field_param_dict) =>
      if negb (truthy enable) then Ok (None, field_dataclass)
      else
      rbind (dict_pop "field" field_param_dict) (fun '(_field, field_param_dict) =>
      rbind (match _field with
             | PVFieldClass (Some c) => Ok c
             | v => if truthy v then Raise TypeError else Ok field
             end) (fun field =>
      rbind (dict_pop "validator" field_param_dict)
        (fun '(validator_dict, field_param_dict) =>
      rbind (if truthy validator_dict then
               if is_v1 env then
                 match validator_dict with
                 | PVValidators v => Ok (dict_update (validators field_dataclass) v)
                 | _ => Raise TypeError
                 end
               else
                 match dict_get "validator" field_doc_dict with
                 | Some (PVValidators v) => Ok (dict_update (validators field_dataclass) v)
                 | Some _ => Raise TypeError
                 | None => Raise KeyError
                 end
             else Ok (validators field_dataclass)) (fun validators' =>
      let fd := with_validators validators' field_dataclass in
      (* Unified field parameter handling *)
      rbind (field_param_dict_handle env field_param_dict (field_default fd)
               (field_default_factory fd) (field_type fd)) (fun field_param_dict =>
      (* Type will change in the unified processing logic *)
      let '(field_type', field_param_dict) :=
        dict_pop_default "type_" (PVType (Some (field_type fd))) field_param_dict in
      let '(map_type_dict, field_param_dict) :=
        dict_pop_default "map_type" (PVMapType []) field_param_dict in
      rbind (if truthy field_type' then
               match field_type' with
               | PVType (Some t) => Ok (with_field_type t fd)
               | _ => Raise TypeError
               end
             else if truthy map_type_dict then
               match field_type fd, map_type_dict with
               | TDict args, PVMapType m =>
                   rbind (retype_map_args env m ["keys"; "values"] args) (fun new_args_list =>
                   rbind (typing_Dict new_args_list) (fun t => Ok (with_field_type t fd)))
               | TDict _, _ => Raise TypeError
               | (TList _ | TOptional _), _ => Ok fd
               | _, _ => Raise AttributeError
               end
             else Ok fd) (fun fd =>
      finish field fd field_param_dict))))))))))
  | _, _ =>
      finish field field_dataclass
        [ ("default", PVDefault (field_default field_dataclass));
          ("default_factory", PVFactory (field_default_factory field_dataclass)) ]
  end).

(** *** The model builder *)

(** The dictionaries one call of [_parse_msg_to_pydantic_model] fills while
    it walks the fields. *)
Record Locals : Type := MkLocals
  { annotation_dict : list (string * (PyType * FieldInfo));
    l_validators : list (string * string);
    pydantic_model_config_dict : list (string * bool);
    l_nested_message_dict : list (string * PyType) }.

Definition _get_pydantic_base (self : M2P) (config_dict : list (string * bool))
    : PydanticBase :=
  MkPydanticBase (_pydantic_base self) config_dict.

(** [optional_dict.get(full_name, {}).get("is_proto3_optional", False)] *)
Definition is_proto3_optional (optional_dict : list (string * list (string * bool)))
    (full_name : string) : bool :=
  flag "is_proto3_optional"
    (match dict_get full_name optional_dict with Some d => d | None => [] end).

(** One turn of the loop [for protobuf_field in descriptor.fields]. *)
Definition parse_field (env : Env) (parse : Descriptor -> string -> bool -> M nat)
    (self : M2P) (descriptor : Descriptor) (skip_validate_rule : bool)
    (optional_dict : list (string * list (string * bool)))
    (vars : Locals) (protobuf_field : FieldDescriptor) : M Locals :=
  let field_dataclass :=
    MkFieldDataClass (f_name protobuf_field)
      (match protobuf_desc_python_type_dict env (f_type protobuf_field) with
       | Some t => t
       | None => TNoneValue
       end)
      (protobuf_common_type_dict env (f_type protobuf_field))
      PydanticUndefined None protobuf_field (l_nested_message_dict vars)
      descriptor (l_validators vars) in
  do field_dataclass <-
    match f_type protobuf_field with
    | TYPE_MESSAGE =>
        _protobuf_field_type_is_type_message_handler env parse self field_dataclass
    | TYPE_ENUM => _protobuf_field_type_is_type_enum_handler env field_dataclass
    | _ => ret (with_field_default (f_default_value protobuf_field) field_dataclass)
    end;
  (* At this time, the field type may be modified by the above logic *)
  let field_dataclass :=
    match f_label protobuf_field with
    | LABEL_REPEATED =>
        _protobuf_field_lable_is_label_repeated_handler env field_dataclass
    | _ => field_dataclass
    end in
  do '(field_info, field_dataclass) <-
    lift (_gen_field_info env self field_dataclass skip_validate_rule);
  let vars :=
    MkLocals (annotation_dict vars) (validators field_dataclass)
      (pydantic_model_config_dict vars) (nested_message_dict field_dataclass) in
  match field_info with
  | None => ret vars
  | Some field_info =>
      let field_dataclass :=
        if is_proto3_optional optional_dict (f_full_name protobuf_field) then
          let fd := with_field_type (TOptional (field_type field_dataclass))
                      field_dataclass in
          if is_undefined (field_default fd) then with_field_default PyNone fd else fd
        else field_dataclass in
      let annotation_dict :=
        dict_set (field_name field_dataclass)
          (field_type field_dataclass, field_info) (annotation_dict vars) in
      let config :=
        if is_AnyMessage (field_type field_dataclass)
           && negb (get_model_config_value env (_pydantic_base self)
                      "arbitrary_types_allowed")
        then dict_set "arbitrary_types_allowed" true (pydantic_model_config_dict vars)
        else pydantic_model_config_dict vars in
      ret (MkLocals annotation_dict (l_validators vars) config
             (l_nested_message_dict vars))
  end.

(** [create_pydantic_model(...)] *)
Definition create_pydantic_model (env : Env)
    (annotation_dict : list (string * (PyType * FieldInfo))) (class_name : string)
    (pydantic_validators : option (list (string * string)))
    (pydantic_module : string) (pydantic_base : PydanticBase) : M nat :=
  match create_model_error env class_name annotation_dict pydantic_validators
          pydantic_module pydantic_base with
  | Some msg => raise (PydanticError msg)
  | None =>
      new_class (MkClassObj class_name
                   (ModelClass annotation_dict pydantic_validators pydantic_module
                      pydantic_base)
                   None None None None None)
  end.

(** [validators or None] *)
Definition or_None {A} (l : list A) : option (list A) :=
  match l with [] => None | _ => Some l end.

(** The [try ... except Exception as e] around [create_pydantic_model]: an
    error that mentions [arbitrary_types_allowed] is answered by a second
    attempt with that setting, any other is raised again. *)
Definition create_model_with_retry (env : Env) (self : M2P)
    (annotation_dict : list (string * (PyType * FieldInfo))) (class_name : string)
    (validators : list (string * string))
    (pydantic_model_config_dict : list (string * bool)) : M nat :=
  fun w =>
    match create_pydantic_model env annotation_dict class_name
            (or_None validators) (_pydantic_module self)
            (_get_pydantic_base self pydantic_model_config_dict) w with
    | (Raise (PydanticError msg), w') =>
        if contains msg "arbitrary_types_allowed" then
          (* It looks ugly, but it's an easy way to recognise *)
          create_pydantic_model env annotation_dict class_name
            (or_None validators) (_pydantic_module self)
            (_get_pydantic_base self
               (dict_set "arbitrary_types_allowed" true pydantic_model_config_dict)) w'
        else (Raise (PydanticError msg), w')
    | r => r
    end.

(** [_parse_msg_to_pydantic_model] from the line after the in-progress mark
    is set: the fields are resolved, the class is created and recorded under
    [message_key]. [parse] is the method itself, for the calls made here. *)
Definition build_model (env : Env) (parse : Descriptor -> string -> bool -> M nat)
    (self : M2P) (descriptor : Descriptor) (class_name : string) (message_key : Key)
    (skip_validate_rule : bool) : M nat :=
  do nested_message_dict <- get_nested_message_dict_by_message parse descriptor;
  let '(one_of_dict, optional_dict) := _one_of_handle self descriptor in
  (* parse field *)
  do vars <-
    for_each (d_fields descriptor) (MkLocals [] [] [] nested_message_dict)
      (parse_field env parse self descriptor skip_validate_rule optional_dict);
  let validators :=
    match one_of_dict with
    | [] => l_validators vars
    | _ => dict_set "one_of_validator" "check_one_of" (l_validators vars)
    end in
  do pydantic_model <-
    create_model_with_retry env self (annotation_dict vars) class_name validators
      (pydantic_model_config_dict vars);
  do used <-
    (fun w => (Ok (filter (fun kv => get_is_use w (snd kv))
                     (l_nested_message_dict vars)), w));
  exec setattr_class (TClass pydantic_model)
    (set_code_ref (MkCodeRefModel one_of_dict (_pydantic_base self) used validators));
  exec setattr_class (TClass pydantic_model) (set_one_of_dict one_of_dict);
  exec cache_store (_creat_cache self) message_key (Some pydantic_model);
  ret pydantic_model.

(** The body of [_parse_msg_to_pydantic_model]: the cache is consulted, and
    a key that is not there gets the in-progress mark before the model is
    built. *)
Definition parse_body (env : Env) (parse : Descriptor -> string -> bool -> M nat)
    (self : M2P) (descriptor : Descriptor) (class_name : string)
    (skip_validate_rule : bool) : M nat :=
  let class_name :=
    if String.eqb class_name "" then d_name descriptor else class_name in
  let message_key : Key := (d_full_name descriptor, class_name, skip_validate_rule) in
  do cached <- cache_lookup (_creat_cache self) message_key;
  match cached with
  | Some None => raise WaitingToCompleteException
  | Some (Some model) => ret model
  | None =>
      exec cache_store (_creat_cache self) message_key None;
      build_model env parse self descriptor class_name message_key skip_validate_rule
  end.

(** [M2P._parse_msg_to_pydantic_model]. [fuel] bounds the depth of nested
    calls, as the interpreter's recursion limit does. *)
Fixpoint _parse_msg_to_pydantic_model (fuel : nat) (env : Env) (self : M2P)
    (descriptor : Descriptor) (class_name : string) (skip_validate_rule : bool)
    : M nat :=
  match fuel with
  | O => raise RecursionError
  | S fuel' =>
      parse_body env (_parse_msg_to_pydantic_model fuel' env self)
        self descriptor class_name skip_validate_rule
  end.

(** [x or default] on a dictionary argument that may be omitted. *)
Definition dict_or {V} (x : option (list (string * V))) (default : list (string * V))
    : list (string * V) :=
  match x with
  | Some (kv :: d) => kv :: d
  | _ => default
  end.

(** [M2P.__init__]. [message_field_dict] is what the metadata extraction
    chosen by [parse_msg_desc_method] returned for [msg]; [create_model_cache]
    is the location of the caller's dictionary, when one is passed. *)
Definition M2P_init (fuel : nat) (env : Env) (msg : Descriptor)
    (default_field : string) (parse_msg_desc_method : ParseMethod)
    (message_field_dict : list (string * DescFromOption))
    (pydantic_base : option string) (pydantic_module : option string)
    (message_type_dict_by_type_name : option (list (string * PyType)))
    (message_default_factory_dict_by_type_name : option (list (string * Factory)))
    (create_model_cache : option nat) : M (M2P * nat) :=
  do cache <-
    (fun w =>
       (Ok (match create_model_cache with
            | Some l => if decide (cache_at l w = ∅) then global_cache else l
            | None => global_cache
            end), w));
  let self :=
    MkM2P parse_msg_desc_method message_field_dict default_field cache
      (match pydantic_base with Some b => b | None => "BaseModel" end)
      (match pydantic_module with
       | Some m => if String.eqb m "" then "protobuf_to_pydantic.gen_model" else m
       | None => "protobuf_to_pydantic.gen_model"
       end)
      (dict_or message_type_dict_by_type_name (message_name_type_dict env))
      (dict_or message_default_factory_dict_by_type_name
         (message_name_default_factory_dict env)) in
  do _gen_model <- _parse_msg_to_pydantic_model fuel env self msg "" false;
  ret (self, _gen_model).

(** [msg_to_pydantic_model(...)]: [M2P(...).model]. *)
Definition msg_to_pydantic_model (fuel : nat) (env : Env) (msg : Descriptor)
    (default_field : string) (parse_msg_desc_method : ParseMethod)
    (message_field_dict : list (string * DescFromOption))
    (pydantic_base : option string) (pydantic_module : option string)
    (message_type_dict_by_type_name : option (list (string * PyType)))
    (message_default_factory_dict_by_type_name : option (list (string * Factory)))
    (create_model_cache : option nat) : M nat :=
  do '(_, model) <-
    M2P_init fuel env msg default_field parse_msg_desc_method message_field_dict
      pydantic_base pydantic_module message_type_dict_by_type_name
      message_default_factory_dict_by_type_name create_model_cache;
  ret model.

(** *** The cache protocol *)

(** The key a call works under: [class_name or descriptor.name]. *)
Definition message_key_of (descriptor : Descriptor) (class_name : string)
    (skip_validate_rule : bool) : Key :=
  (d_full_name descriptor,
   if String.eqb class_name "" then d_name descriptor else class_name,
   skip_validate_rule).

Lemma cache_at_insert (l : nat) (c : Cache) (cs : gmap nat Cache) (h : list ClassObj) :
  cache_at l (MkWorld (<[l := c]> cs) h) = c.
Proof. unfold cache_at. cbn [caches]. rewrite lookup_insert_eq. reflexivity. Qed.

Lemma bind_Ok {A B} (m : M A) (k : A -> M B) (w w' : World) (b : B) :
  bind m k w = (Ok b, w') ->
  exists a w1, m w = (Ok a, w1) /\ k a w1 = (Ok b, w').
Proof.
  unfold bind. destruct (m w) as [[a | e] w1]; [eauto | discriminate].
Qed.

Lemma parse_body_completed (env : Env) (parse : Descriptor -> string -> bool -> M nat)
    (self : M2P) (descriptor : Descriptor) (class_name : string) (skip : bool)
    (w : World) (model : nat) :
  cache_at (_creat_cache self) w !! message_key_of descriptor class_name skip
    = Some (Some model) ->
  parse_body env parse self descriptor class_name skip w = (Ok model, w).
Proof.
  intros Hc. unfold parse_body, bind, cache_lookup.
  unfold message_key_of in Hc. rewrite Hc. reflexivity.
Qed.

Lemma parse_body_in_progress (env : Env) (parse : Descriptor -> string -> bool -> M nat)
    (self : M2P) (descriptor : Descriptor) (class_name : string) (skip : bool)
    (w : World) :
  cache_at (_creat_cache self) w !! message_key_of descriptor class_name skip
    = Some None ->
  parse_body env parse self descriptor class_name skip w
    = (Raise WaitingToCompleteException, w).
Proof.
  intros Hc. unfold parse_body, bind, cache_lookup.
  unfold message_key_of in Hc. rewrite Hc. reflexivity.
Qed.

(** A call that returns leaves its result in the cache under its key. *)
Lemma parse_body_records (env : Env) (parse : Descriptor -> string -> bool -> M nat)
    (self : M2P) (descriptor : Descriptor) (class_name : string) (skip : bool)
    (w w' : World) (model : nat) :
  parse_body env parse self descriptor class_name skip w = (Ok model, w') ->
  cache_at (_creat_cache self) w' !! message_key_of descriptor class_name skip
    = Some (Some model).
Proof.
  unfold parse_body. fold (message_key_of descriptor class_name skip).
  set (key := message_key_of descriptor class_name skip).
  intros H. apply bind_Ok in H as (cached & w1 & Hlook & H).
  unfold cache_lookup in Hlook. injection Hlook as <- <-.
  destruct (cache_at (_creat_cache self) w !! key) as [[r |] |] eqn:Hc.
  - injection H as <- <-. exact Hc.
  - discriminate H.
  - apply bind_Ok in H as (? & w2 & _ & H). unfold build_model in H.
    apply bind_Ok in H as (nested & w3 & _ & H).
    destruct (_one_of_handle self descriptor) as [one_of_dict optional_dict].
    apply bind_Ok in H as (vars & w4 & _ & H).
    apply bind_Ok in H as (pm & w5 & _ & H).
    apply bind_Ok in H as (used & w6 & _ & H).
    apply bind_Ok in H as (? & w7 & _ & H).
    apply bind_Ok in H as (? & w8 & _ & H).
    apply bind_Ok in H as (? & w9 & Hstore & H).
    injection H as <- <-. unfold cache_store in Hstore. injection Hstore as <-.
    subst w9. rewrite cache_at_insert. apply lookup_insert_eq.
Qed.

(** Compiling a key a second time with the same cache returns the class
    object of the first time and changes nothing. *)
Lemma compile_twice_same_reference (fuel0 fuel : nat) (env : Env) (self : M2P)
    (descriptor : Descriptor) (class_name : string) (skip : bool)
    (w w' : World) (model : nat) :
  _parse_msg_to_pydantic_model fuel0 env self descriptor class_name skip w
    = (Ok model, w') ->
  _parse_msg_to_pydantic_model (S fuel) env self descriptor class_name skip w'
    = (Ok model, w').
Proof.
  intros Hrun. simpl. apply parse_body_completed.
  destruct fuel0 as [| n]; [discriminate Hrun |].
  simpl in Hrun. apply parse_body_records in Hrun. exact Hrun.
Qed.

Lemma msg_to_pydantic_model_unfold (fuel : nat) (env : Env) (msg : Descriptor)
    (default_field : string) (method : ParseMethod)
    (message_field_dict : list (string * DescFromOption))
    (pydantic_base pydantic_module : option string)
    (type_dict : option (list (string * PyType)))
    (factory_dict : option (list (string * Factory)))
    (create_model_cache : option nat) (w : World) :
  exists self,
    _creat_cache self =
      match create_model_cache with
      | Some l => if decide (cache_at l w = ∅) then global_cache else l
      | None => global_cache
      end
    /\ msg_to_pydantic_model fuel env msg default_field method message_field_dict
         pydantic_base pydantic_module type_dict factory_dict create_model_cache w
       = _parse_msg_to_pydantic_model fuel env self msg "" false w.
Proof.
  exists (MkM2P method message_field_dict default_field
            (match create_model_cache with
             | Some l => if decide (cache_at l w = ∅) then global_cache else l
             | None => global_cache
             end)
            (match pydantic_base with Some b => b | None => "BaseModel" end)
            (match pydantic_module with
             | Some m => if String.eqb m "" then "protobuf_to_pydantic.gen_model" else m
             | None => "protobuf_to_pydantic.gen_model"
             end)
            (dict_or type_dict (message_name_type_dict env))
            (dict_or factory_dict (message_name_default_factory_dict env))).
  split; [reflexivity |].
  unfold msg_to_pydantic_model, M2P_init, bind, ret.
  destruct (_parse_msg_to_pydantic_model _ _ _ _ _ _ _) as [[r | e] w']; reflexivity.
Qed.

(** C3. When the cache entry of a key is a completed model, compiling the
    key again returns that very class object (the same reference, whatever
    the descriptor now holds) and changes nothing in the store: the cache
    entry, the other entries and the class objects stay as they were. The
    same holds for a whole invocation that is passed the dictionary holding
    the root message's completed entry. *)
Theorem completed_key_returns_cached_reference (fuel : nat) (env : Env) (self : M2P)
    (descriptor : Descriptor) (class_name : string) (skip : bool)
    (w : World) (model : nat) :
  cache_at (_creat_cache self) w !! message_key_of descriptor class_name skip
    = Some (Some model) ->
  _parse_msg_to_pydantic_model (S fuel) env self descriptor class_name skip w
    = (Ok model, w)
  /\ (class_name = "" -> skip = false ->
      forall env2 default_field method message_field_dict pydantic_base
             pydantic_module type_dict factory_dict,
        msg_to_pydantic_model (S fuel) env2 descriptor default_field method
          message_field_dict pydantic_base pydantic_module type_dict factory_dict
          (Some (_creat_cache self)) w
        = (Ok model, w)).
Proof.
  intros Hc. split.
  - simpl. apply parse_body_completed, Hc.
  - intros -> -> env2 default_field method message_field_dict pydantic_base
      pydantic_module type_dict factory_dict.
    destruct (msg_to_pydantic_model_unfold (S fuel) env2 descriptor default_field
                method message_field_dict pydantic_base pydantic_module type_dict
                factory_dict (Some (_creat_cache self)) w) as (self2 & Hloc & Heq).
    rewrite Heq. simpl. apply parse_body_completed.
    rewrite Hloc. destruct (decide (cache_at (_creat_cache self) w = ∅)) as [He | _].
    + rewrite He in Hc. rewrite lookup_empty in Hc. discriminate Hc.
    + exact Hc.
Qed.

(** *** Message fields of the same file *)

(** The [skip] directive of a field's metadata, as the message handler
    reads it. *)
Definition skip_rule_of (self : M2P) (field : FieldDescriptor) : result bool :=
  rbind (_get_field_info_dict_by_full_name self (f_full_name field))
    (fun field_doc_dict =>
       Ok match field_doc_dict with
          | Some d => match dict_get "skip" d with Some v => truthy v | None => false end
          | None => false
          end).

(** A message field that reaches the last case of the handler with a
    message type of the enclosing message's file: the type is no well-known
    type, no map entry, no type of google/protobuf/, and is not registered
    among the enclosing message's nested types. *)
Record ordinary_same_file_field (env : Env) (self : M2P) (fd : FieldDataClass)
    (mt : Descriptor) (skip : bool) : Prop :=
  { osf_type : message_type env (protobuf_field fd) = Some mt;
    osf_not_well_known :
      dict_get (d_name mt) (_message_type_dict_by_type_name self) = None;
    osf_not_entry : endswith (d_name mt) "Entry" = false;
    osf_not_google : startswith (d_file_name mt) "google/protobuf/" = false;
    osf_skip : skip_rule_of self (protobuf_field fd) = Ok skip;
    osf_not_nested : dict_get (d_full_name mt) (nested_message_dict fd) = None;
    osf_same_file : d_file_name (descriptor fd) = d_file_name mt }.

(** The postponed annotation of a class name. *)
Definition forward_reference (class_name : string) : PyType :=
  TForward (dquote ++ class_name ++ dquote).

Lemma handler_same_file (env : Env) (parse : Descriptor -> string -> bool -> M nat)
    (self : M2P) (fd : FieldDataClass) (mt : Descriptor) (skip : bool) (w : World) :
  ordinary_same_file_field env self fd mt skip ->
  _protobuf_field_type_is_type_message_handler env parse self fd w =
  let fd' := with_field_type (forward_reference (d_name mt)) fd in
  if skip || negb (String.eqb (d_full_name mt) (d_full_name (descriptor fd)))
  then
    except_waiting
      (do r <- parse mt (if negb skip then d_name mt
                         else d_name mt ++ "OnlyUseSkipRule") skip;
       ret (with_field_type (TClass r) fd'))
      fd' w
  else (Ok fd', w).
Proof.
  intros [Hty Hwk Hent Hgoo Hskip Hnest Hfile].
  unfold _protobuf_field_type_is_type_message_handler, message_type_or_raise.
  rewrite Hty. unfold bind at 1. unfold ret at 1. rewrite Hwk, Hent, Hgoo.
  unfold skip_rule_of in Hskip.
  destruct (_get_field_info_dict_by_full_name self (f_full_name (protobuf_field fd)))
    as [doc | e] eqn:Hdoc; [| discriminate Hskip].
  simpl in Hskip. injection Hskip as Hskip.
  unfold bind at 1. unfold lift at 1. rewrite Hskip, Hnest, Hfile, String.eqb_refl.
  simpl negb at 1. cbv iota. unfold forward_reference.
  destruct (skip || negb (String.eqb (d_full_name mt) (d_full_name (descriptor fd))));
    reflexivity.
Qed.

(** C4. A call whose key holds the in-progress mark raises
    [WaitingToCompleteException] at once: whatever function stands for the
    recursive calls, none is made, and the store is left as it was. The
    message handler catches that exception for a message type of the same
    file and keeps the postponed (string) reference to the class name as
    the field's type. *)
Theorem in_progress_key_raises_and_is_handled (fuel : nat) (env : Env) (self : M2P)
    (descriptor : Descriptor) (class_name : string) (skip : bool) (w : World) :
  cache_at (_creat_cache self) w !! message_key_of descriptor class_name skip
    = Some None ->
  (forall parse,
     parse_body env parse self descriptor class_name skip w
       = (Raise WaitingToCompleteException, w))
  /\ _parse_msg_to_pydantic_model (S fuel) env self descriptor class_name skip w
       = (Raise WaitingToCompleteException, w)
  /\ (forall fd : FieldDataClass,
        ordinary_same_file_field env self fd descriptor skip ->
        class_name = (if negb skip then d_name descriptor
                      else d_name descriptor ++ "OnlyUseSkipRule") ->
        skip || negb (String.eqb (d_full_name descriptor)
                        (d_full_name (GenModel.descriptor fd))) = true ->
        _protobuf_field_type_is_type_message_handler env
          (_parse_msg_to_pydantic_model (S fuel) env self) self fd w
        = (Ok (with_field_type (forward_reference (d_name descriptor)) fd), w)).
Proof.
  intros Hc. split; [| split].
  - intros parse. apply parse_body_in_progress, Hc.
  - simpl. apply parse_body_in_progress, Hc.
  - intros fd Hord Hname Hrec.
    rewrite (handler_same_file env _ self fd descriptor skip w Hord).
    cbv zeta. rewrite Hrec. unfold except_waiting, bind.
    rewrite <- Hname.
    change (_parse_msg_to_pydantic_model (S fuel) env self descriptor class_name skip w)
      with (parse_body env (_parse_msg_to_pydantic_model fuel env self) self
              descriptor class_name skip w).
    rewrite (parse_body_in_progress _ _ _ _ _ _ _ Hc). reflexivity.
Qed.

(** C5 (amended). For a message field of the enclosing message's file whose
    message type is the enclosing message itself, with no skip directive,
    and whose type is an ordinary message (no well-known type name, no name
    ending in [Entry], no file under google/protobuf/), the handler returns
    the postponed (string) reference to the class name without calling the
    model builder: the result is the same whatever function stands for the
    recursive call, and the store is untouched. *)
Theorem self_reference_is_a_forward_reference (env : Env) (self : M2P)
    (fd : FieldDataClass) (mt : Descriptor) :
  ordinary_same_file_field env self fd mt false ->
  d_full_name mt = d_full_name (descriptor fd) ->
  forall (parse : Descriptor -> string -> bool -> M nat) (w : World),
    _protobuf_field_type_is_type_message_handler env parse self fd w
    = (Ok (with_field_type (forward_reference (d_name mt)) fd), w).
Proof.
  intros Hord Hself parse w.
  rewrite (handler_same_file env parse self fd mt false w Hord).
  cbv zeta. rewrite Hself, String.eqb_refl. reflexivity.
Qed.

(** *** The in-progress mark of a failed call *)

(** A computation keeps the mark of key [K] in the cache at [loc]: when the
    mark is there before, it is there after, whether the computation
    returns or raises. *)
Definition keeps_mark (loc : nat) (K : Key) {A} (m : M A) : Prop :=
  forall w r w',
    cache_at loc w !! K = Some None -> m w = (r, w') ->
    cache_at loc w' !! K = Some None.

Section KeepsMark.

Variable loc : nat.
Variable K : Key.

Lemma keeps_ret {A} (a : A) : keeps_mark loc K (ret a).
Proof. intros w r w' Hm H. injection H as _ <-. exact Hm. Qed.

Lemma keeps_raise {A} (e : exn) : keeps_mark loc K (@raise A e).
Proof. intros w r w' Hm H. injection H as _ <-. exact Hm. Qed.

Lemma keeps_lift {A} (x : result A) : keeps_mark loc K (lift x).
Proof. intros w r w' Hm H. injection H as _ <-. exact Hm. Qed.

Lemma keeps_read {A} (f : World -> A) : keeps_mark loc K (fun w => (Ok (f w), w)).
Proof. intros w r w' Hm H. injection H as _ <-. exact Hm. Qed.

Lemma keeps_bind {A B} (m : M A) (k : A -> M B) :
  keeps_mark loc K m -> (forall a, keeps_mark loc K (k a)) ->
  keeps_mark loc K (bind m k).
Proof.
  intros Hm Hk w r w' Hmark H. unfold bind in H.
  destruct (m w) as [[a | e] w1] eqn:E.
  - eapply Hk; [eapply Hm; eassumption | exact H].
  - injection H as _ <-. eapply Hm; eassumption.
Qed.

Lemma keeps_for_each {A S} (l : list A) (body : S -> A -> M S) :
  (forall s x, keeps_mark loc K (body s x)) ->
  forall s, keeps_mark loc K (for_each l s body).
Proof.
  intros Hb. induction l as [| x l IH]; intros s; simpl.
  - apply keeps_ret.
  - apply keeps_bind; [apply Hb | intros s'; apply IH].
Qed.

Lemma keeps_except_waiting {A} (m : M A) (a : A) :
  keeps_mark loc K m -> keeps_mark loc K (except_waiting m a).
Proof.
  intros Hm w r w' Hmark H. unfold except_waiting in H.
  destruct (m w) as [[x | e] w1] eqn:E.
  - injection H as _ <-. eapply Hm; eassumption.
  - assert (Hw : w' = w1) by (destruct e; injection H as _ <-; reflexivity).
    subst w'. eapply Hm; eassumption.
Qed.

Lemma keeps_setattr_class (t : PyType) (f : ClassObj -> ClassObj) :
  keeps_mark loc K (setattr_class t f).
Proof.
  destruct t; try apply keeps_raise.
  intros w r w' Hm H. injection H as _ <-. exact Hm.
Qed.

Lemma keeps_new_class (c : ClassObj) : keeps_mark loc K (new_class c).
Proof. intros w r w' Hm H. injection H as _ <-. exact Hm. Qed.

Lemma keeps_cache_store (k : Key) (v : option nat) :
  k <> K -> keeps_mark loc K (cache_store loc k v).
Proof.
  intros Hne w r w' Hm H. injection H as _ <-.
  rewrite cache_at_insert. rewrite lookup_insert_ne by exact Hne. exact Hm.
Qed.

End KeepsMark.

(** Going through a computation built from the combinators above. *)
Ltac keeps_mark_step :=
  first
    [ assumption
    | apply keeps_ret
    | apply keeps_raise
    | apply keeps_lift
    | apply keeps_read
    | apply keeps_new_class
    | apply keeps_setattr_class
    | apply keeps_except_waiting
    | apply keeps_for_each; intros ? ?
    | apply keeps_bind; [| intros ?]
    | match goal with
      | |- keeps_mark _ _ (match ?x with _ => _ end) => destruct x
      | |- keeps_mark _ _ (let (_, _) := ?x in _) => destruct x
      end ].

Section KeepsMarkCompiler.

Variable env : Env.
Variable self : M2P.
Variable K : Key.
Variable parse : Descriptor -> string -> bool -> M nat.
Hypothesis parse_keeps : forall d c s, keeps_mark (_creat_cache self) K (parse d c s).

Lemma keeps_get_nested_message_dict_by_message (descriptor : Descriptor) :
  keeps_mark (_creat_cache self) K (get_nested_message_dict_by_message parse descriptor).
Proof.
  unfold get_nested_message_dict_by_message, new_int_enum.
  repeat keeps_mark_step; apply parse_keeps.
Qed.

Lemma keeps_message_handler (fd : FieldDataClass) :
  keeps_mark (_creat_cache self) K
    (_protobuf_field_type_is_type_message_handler env parse self fd).
Proof.
  unfold _protobuf_field_type_is_type_message_handler, message_type_or_raise,
    map_entry_field_type, message_type_or_raise.
  repeat keeps_mark_step; apply parse_keeps.
Qed.

Lemma keeps_enum_handler (fd : FieldDataClass) :
  keeps_mark (_creat_cache self) K (_protobuf_field_type_is_type_enum_handler env fd).
Proof.
  unfold _protobuf_field_type_is_type_enum_handler, new_int_enum.
  repeat keeps_mark_step.
Qed.

Lemma keeps_parse_field (descriptor : Descriptor) (skip : bool)
    (optional_dict : list (string * list (string * bool)))
    (vars : Locals) (protobuf_field : FieldDescriptor) :
  keeps_mark (_creat_cache self) K
    (parse_field env parse self descriptor skip optional_dict vars protobuf_field).
Proof.
  unfold parse_field.
  apply keeps_bind.
  - destruct (f_type protobuf_field);
      first [ apply keeps_message_handler | apply keeps_enum_handler | apply keeps_ret ].
  - intros fd. repeat keeps_mark_step.
Qed.

Lemma keeps_create_pydantic_model annotation_dict class_name validators module base :
  keeps_mark (_creat_cache self) K
    (create_pydantic_model env annotation_dict class_name validators module base).
Proof. unfold create_pydantic_model. repeat keeps_mark_step. Qed.

Lemma keeps_create_model_with_retry annotation_dict class_name validators config :
  keeps_mark (_creat_cache self) K
    (create_model_with_retry env self annotation_dict class_name validators config).
Proof.
  intros w r w' Hmark H. unfold create_model_with_retry in H.
  destruct (create_pydantic_model env _ _ _ _ _ w) as [[m | e] w1] eqn:E.
  - injection H as _ <-. eapply keeps_create_pydantic_model; eassumption.
  - assert (Hw1 : cache_at (_creat_cache self) w1 !! K = Some None)
      by (eapply keeps_create_pydantic_model; eassumption).
    destruct e; try (injection H as _ <-; exact Hw1).
    destruct (contains msg "arbitrary_types_allowed").
    + eapply keeps_create_pydantic_model; eassumption.
    + injection H as _ <-. exact Hw1.
Qed.

(** Building a model under another key keeps the mark of [K]: the result is
    stored under the call's own key. *)
Lemma keeps_build_model (descriptor : Descriptor) (class_name : string) (key : Key)
    (skip : bool) :
  key <> K ->
  keeps_mark (_creat_cache self) K
    (build_model env parse self descriptor class_name key skip).
Proof.
  intros Hne. unfold build_model.
  apply keeps_bind; [apply keeps_get_nested_message_dict_by_message | intros nested].
  destruct (_one_of_handle self descriptor) as [one_of_dict optional_dict].
  apply keeps_bind; [apply keeps_for_each; intros; apply keeps_parse_field | intros vars].
  cbv zeta.
  apply keeps_bind; [apply keeps_create_model_with_retry | intros model].
  apply keeps_bind; [apply keeps_read | intros used].
  apply keeps_bind; [apply keeps_setattr_class | intros _].
  apply keeps_bind; [apply keeps_setattr_class | intros _].
  apply keeps_bind; [apply keeps_cache_store, Hne | intros _].
  apply keeps_ret.
Qed.

(** Building the model of [K] itself keeps the mark of [K] whenever it
    raises: the mark is only replaced by the last step, which stores the
    finished class. *)
Lemma build_model_raise_keeps (descriptor : Descriptor) (class_name : string)
    (skip : bool) (w w' : World) (e : exn) :
  cache_at (_creat_cache self) w !! K = Some None ->
  build_model env parse self descriptor class_name K skip w = (Raise e, w') ->
  cache_at (_creat_cache self) w' !! K = Some None.
Proof.
  intros Hmark H. unfold build_model in H.
  unfold bind at 1 in H.
  destruct (get_nested_message_dict_by_message parse descriptor w)
    as [[nested | e1] w1] eqn:E1;
    [| injection H as _ <-;
       eapply keeps_get_nested_message_dict_by_message; eassumption].
  assert (H1 : cache_at (_creat_cache self) w1 !! K = Some None)
    by (eapply keeps_get_nested_message_dict_by_message; eassumption).
  destruct (_one_of_handle self descriptor) as [one_of_dict optional_dict].
  unfold bind at 1 in H.
  destruct (for_each (d_fields descriptor) _ _ w1) as [[vars | e2] w2] eqn:E2.
  2:{ injection H as _ <-.
      eapply (keeps_for_each (_creat_cache self) K); [| exact H1 | exact E2].
      intros; apply keeps_parse_field. }
  assert (H2 : cache_at (_creat_cache self) w2 !! K = Some None).
  { eapply (keeps_for_each (_creat_cache self) K); [| exact H1 | exact E2].
    intros; apply keeps_parse_field. }
  cbv zeta in H. unfold bind at 1 in H.
  destruct (create_model_with_retry env self (annotation_dict vars) class_name _
              (pydantic_model_config_dict vars) w2) as [[model | e3] w3] eqn:E3.
  2:{ injection H as _ <-. eapply keeps_create_model_with_retry; [exact H2 | exact E3]. }
  unfold bind in H. simpl in H. discriminate H.
Qed.

(** The whole body keeps the mark of [K]. *)
Lemma keeps_parse_body (descriptor : Descriptor) (class_name : string) (skip : bool) :
  keeps_mark (_creat_cache self) K
    (parse_body env parse self descriptor class_name skip).
Proof.
  unfold parse_body. fold (message_key_of descriptor class_name skip).
  set (key := message_key_of descriptor class_name skip).
  intros w r w' Hmark H. unfold bind at 1 in H. unfold cache_lookup at 1 in H.
  destruct (cache_at (_creat_cache self) w !! key) as [[model |] |] eqn:Hc.
  - injection H as _ <-. exact Hmark.
  - injection H as _ <-. exact Hmark.
  - assert (Hne : key <> K) by (intros Heq; rewrite Heq in Hc; congruence).
    eapply (keeps_bind (_creat_cache self) K); [| | exact Hmark | exact H].
    + apply keeps_cache_store, Hne.
    + intros u. apply keeps_build_model, Hne.
Qed.

End KeepsMarkCompiler.

Lemma keeps_parse (env : Env) (self : M2P) (K : Key) (fuel : nat) :
  forall d c s,
    keeps_mark (_creat_cache self) K (_parse_msg_to_pydantic_model fuel env self d c s).
Proof.
  induction fuel as [| n IH]; intros d c s; simpl.
  - apply keeps_raise.
  - apply keeps_parse_body. exact IH.
Qed.

(** C1 (amended). When a call that has put its in-progress mark fails, the
    mark is still in the cache under the call's key when the exception
    reaches the caller: nothing removes it. A later compilation of the same
    key with that cache raises [WaitingToCompleteException] and leaves the
    store as it is. *)
Theorem failed_call_leaves_its_mark (fuel : nat) (env : Env) (self : M2P)
    (descriptor : Descriptor) (class_name : string) (skip : bool)
    (w w' : World) (e : exn) :
  cache_at (_creat_cache self) w !! message_key_of descriptor class_name skip = None ->
  _parse_msg_to_pydantic_model (S fuel) env self descriptor class_name skip w
    = (Raise e, w') ->
  cache_at (_creat_cache self) w' !! message_key_of descriptor class_name skip
    = Some None
  /\ forall fuel' : nat,
       _parse_msg_to_pydantic_model (S fuel') env self descriptor class_name skip w'
       = (Raise WaitingToCompleteException, w').
Proof.
  intros Hc Hrun.
  assert (Hmark : cache_at (_creat_cache self) w'
                    !! message_key_of descriptor class_name skip = Some None).
  { simpl in Hrun. unfold parse_body in Hrun.
    fold (message_key_of descriptor class_name skip) in Hrun.
    unfold bind at 1 in Hrun. unfold cache_lookup at 1 in Hrun. rewrite Hc in Hrun.
    unfold bind at 1 in Hrun. unfold cache_store at 1 in Hrun.
    eapply build_model_raise_keeps; [| | exact Hrun].
    - apply keeps_parse.
    - rewrite cache_at_insert. apply lookup_insert_eq. }
  split; [exact Hmark |].
  intros fuel'. simpl. apply parse_body_in_progress, Hmark.
Qed.

(** *** The cache of an invocation *)

(** C2 (amended). An invocation that omits [create_model_cache] works on the
    module-level [_create_model_cache]: the model it returns is recorded
    there under the root message's key, and a later invocation that omits
    the argument too (whatever its other arguments) is handed that same
    class object from the cache and creates nothing. *)
Theorem omitted_cache_is_the_module_level_cache (fuel : nat) (env : Env)
    (msg : Descriptor) (default_field : string) (method : ParseMethod)
    (message_field_dict : list (string * DescFromOption))
    (pydantic_base pydantic_module : option string)
    (type_dict : option (list (string * PyType)))
    (factory_dict : option (list (string * Factory)))
    (w w' : World) (model : nat) :
  msg_to_pydantic_model fuel env msg default_field method message_field_dict
    pydantic_base pydantic_module type_dict factory_dict None w = (Ok model, w') ->
  cache_at global_cache w' !! (d_full_name msg, d_name msg, false) = Some (Some model)
  /\ forall fuel2 env2 default_field2 method2 message_field_dict2 pydantic_base2
            pydantic_module2 type_dict2 factory_dict2,
       msg_to_pydantic_model (S fuel2) env2 msg default_field2 method2
         message_field_dict2 pydantic_base2 pydantic_module2 type_dict2
         factory_dict2 None w'
       = (Ok model, w').
Proof.
  intros Hrun.
  destruct (msg_to_pydantic_model_unfold fuel env msg default_field method
              message_field_dict pydantic_base pydantic_module type_dict factory_dict
              None w) as (self & Hloc & Heq).
  rewrite Heq in Hrun.
  assert (Hc : cache_at global_cache w' !! message_key_of msg "" false
               = Some (Some model)).
  { rewrite <- Hloc. destruct fuel as [| n]; [discriminate Hrun |].
    simpl in Hrun. apply parse_body_records in Hrun. exact Hrun. }
  split; [exact Hc |].
  intros fuel2 env2 default_field2 method2 message_field_dict2 pydantic_base2
    pydantic_module2 type_dict2 factory_dict2.
  destruct (msg_to_pydantic_model_unfold (S fuel2) env2 msg default_field2 method2
              message_field_dict2 pydantic_base2 pydantic_module2 type_dict2
              factory_dict2 None w') as (self2 & Hloc2 & Heq2).
  rewrite Heq2. simpl. apply parse_body_completed.
  rewrite Hloc2. exact Hc.
Qed.

(** *** Oneof groups and proto3 optional fields *)

Lemma dict_get_set_eq {V} (k : string) (v : V) (d : list (string * V)) :
  dict_get k (dict_set k v d) = Some v.
Proof.
  induction d as [| [k' v'] d IH]; simpl.
  - rewrite String.eqb_refl. reflexivity.
  - destruct (String.eqb k k') eqn:E; simpl.
    + rewrite String.eqb_refl. reflexivity.
    + rewrite E. exact IH.
Qed.

Lemma dict_get_set_ne {V} (k k' : string) (v : V) (d : list (string * V)) :
  k <> k' -> dict_get k' (dict_set k v d) = dict_get k' d.
Proof.
  intros Hne. induction d as [| [k0 v0] d IH]; simpl.
  - destruct (String.eqb_spec k' k); [congruence | reflexivity].
  - destruct (String.eqb_spec k k0) as [-> | Hk]; simpl.
    + destruct (String.eqb_spec k' k0); [congruence | reflexivity].
    + destruct (String.eqb k' k0); [reflexivity | exact IH].
Qed.

(** Writing a value that is already there, under any key, keeps it. *)
Lemma dict_get_set_same {V} (k k' : string) (v : V) (d : list (string * V)) :
  dict_get k' d = Some v -> dict_get k' (dict_set k v d) = Some v.
Proof.
  intros H. destruct (String.eqb_spec k k') as [-> | Hne].
  - apply dict_get_set_eq.
  - rewrite dict_get_set_ne by exact Hne. exact H.
Qed.

Lemma str_in_set_add (x y : string) (l : list string) :
  str_in x l = true \/ x = y -> str_in x (set_add y l) = true.
Proof.
  intros H. unfold set_add. destruct (str_in y l) eqn:E.
  - destruct H as [H | ->]; assumption.
  - apply str_in_In. apply in_or_app. destruct H as [H | ->].
    + left. apply str_in_In, H.
    + right. left. reflexivity.
Qed.

Lemma fold_left_establish {A B} (step : A -> B -> A) (P : A -> Prop)
    (l : list B) (x : B) :
  In x l -> (forall acc, P (step acc x)) -> (forall acc y, P acc -> P (step acc y)) ->
  forall acc, P (fold_left step l acc).
Proof.
  intros Hin Hx Hkeep.
  assert (Hall : forall l' acc, P acc -> P (fold_left step l' acc)).
  { induction l' as [| y l' IH]; intros acc Hacc; simpl; [exact Hacc |].
    apply IH, Hkeep, Hacc. }
  induction l as [| y l IH]; intros acc; simpl; [destruct Hin |].
  destruct Hin as [-> | Hin].
  - apply Hall, Hx.
  - apply IH, Hin.
Qed.

Lemma fold_left_keep {A B} (step : A -> B -> A) (P : A -> Prop) (l : list B) :
  (forall acc y, P acc -> P (step acc y)) ->
  forall acc, P acc -> P (fold_left step l acc).
Proof.
  intros Hkeep. induction l as [| y l IH]; intros acc Hacc; simpl; [exact Hacc |].
  apply IH, Hkeep, Hacc.
Qed.

Section Proto3Optional.

Variable self : M2P.
Variable descriptor : Descriptor.
Variable field : FieldDescriptor.
Variable one_of : OneofDescriptor.
Hypothesis field_of_descriptor : In field (d_fields descriptor).
Hypothesis field_oneof : f_containing_oneof field = Some one_of.
Hypothesis marker_name : "_" ++ f_name field = o_name one_of.

(** After the first loop the field is flagged and its group is in
    [optional_id_set]. *)
Lemma optional_loop_flags :
  let acc := fold_left one_of_optional_step (d_fields descriptor) ([], []) in
  dict_get (f_full_name field) (fst acc) = Some is_proto3_optional_entry
  /\ str_in (o_full_name one_of) (snd acc) = true.
Proof.
  cbv zeta.
  apply (fold_left_establish one_of_optional_step
           (fun acc => dict_get (f_full_name field) (fst acc)
                         = Some is_proto3_optional_entry
                       /\ str_in (o_full_name one_of) (snd acc) = true)
           (d_fields descriptor) field field_of_descriptor).
  - intros [od ids]. unfold one_of_optional_step. rewrite field_oneof, marker_name.
    rewrite String.eqb_refl. simpl. split.
    + apply dict_get_set_eq.
    + apply str_in_set_add. right. reflexivity.
  - intros [od ids] y [Hd Hi]. simpl in Hd, Hi. unfold one_of_optional_step.
    destruct (f_containing_oneof y) as [oy |]; [| split; assumption].
    destruct (String.eqb _ _); [| split; assumption].
    simpl. split.
    + apply dict_get_set_same, Hd.
    + apply str_in_set_add. left. exact Hi.
Qed.

Lemma one_of_found_step_keeps (one_of_desc_dict : list (string * OneOfDoc))
    (column_name found : string)
    (acc : list (string * UseOneOf) * list (string * list (string * bool))) :
  column_name <> o_full_name one_of ->
  dict_get (o_full_name one_of) (fst acc) = None
  /\ dict_get (f_full_name field) (snd acc) = Some is_proto3_optional_entry ->
  let acc' := one_of_found_step one_of_desc_dict descriptor column_name acc found in
  dict_get (o_full_name one_of) (fst acc') = None
  /\ dict_get (f_full_name field) (snd acc') = Some is_proto3_optional_entry.
Proof.
  intros Hne [H1 H2]. destruct acc as [od opt]. simpl in H1, H2.
  cbv zeta. unfold one_of_found_step.
  destruct (dict_get found one_of_desc_dict) as [doc |]; [| split; assumption].
  simpl. split.
  - rewrite dict_get_set_ne by exact Hne. exact H1.
  - apply (fold_left_keep
             (fun od0 field_name =>
                dict_set (d_full_name descriptor ++ "." ++ field_name)
                  is_proto3_optional_entry od0)
             (fun od0 => dict_get (f_full_name field) od0
                         = Some is_proto3_optional_entry)).
    + intros od0 y Hy. apply dict_get_set_same, Hy.
    + exact H2.
Qed.

Lemma one_of_step_keeps (one_of_desc_dict : list (string * OneOfDoc))
    (optional_id_set : list string) (one_of' : OneofDescriptor)
    (acc : list (string * UseOneOf) * list (string * list (string * bool))) :
  str_in (o_full_name one_of) optional_id_set = true ->
  dict_get (o_full_name one_of) (fst acc) = None
  /\ dict_get (f_full_name field) (snd acc) = Some is_proto3_optional_entry ->
  let acc' := one_of_step one_of_desc_dict descriptor optional_id_set acc one_of' in
  dict_get (o_full_name one_of) (fst acc') = None
  /\ dict_get (f_full_name field) (snd acc') = Some is_proto3_optional_entry.
Proof.
  intros Hin Hacc. cbv zeta. unfold one_of_step.
  destruct (str_in (o_full_name one_of') optional_id_set) eqn:Hcol; [exact Hacc |].
  assert (Hne : o_full_name one_of' <> o_full_name one_of) by congruence.
  destruct acc as [od opt]. destruct Hacc as [H1 H2]. simpl in H1, H2.
  set (od1 := match dict_get (o_full_name one_of') od with
              | Some _ => od
              | None => dict_set (o_full_name one_of') (MkUseOneOf false []) od
              end).
  assert (Hod1 : dict_get (o_full_name one_of) od1 = None).
  { unfold od1. destruct (dict_get (o_full_name one_of') od); [exact H1 |].
    rewrite dict_get_set_ne by exact Hne. exact H1. }
  pose proof (fold_left_keep
                (one_of_found_step one_of_desc_dict descriptor (o_full_name one_of'))
                (fun acc0 => dict_get (o_full_name one_of) (fst acc0) = None
                             /\ dict_get (f_full_name field) (snd acc0)
                                = Some is_proto3_optional_entry)
                [o_full_name one_of'; join_dot (tl (split_dot (o_full_name one_of')))]
                (fun acc0 y Hy => one_of_found_step_keeps one_of_desc_dict
                                    (o_full_name one_of') y acc0 Hne Hy)
                (od1, opt) (conj Hod1 H2)) as Hfold.
  destruct (fold_left _ _ (od1, opt)) as [od2 opt2]. destruct Hfold as [H3 H4].
  simpl in H3, H4. simpl. split.
  - rewrite dict_get_set_ne by exact Hne. exact H3.
  - exact H4.
Qed.

(** The oneof [_name] of a proto3 optional field is left out of the oneof
    dictionary, and the field is flagged as optional. *)
Lemma proto3_optional_group_is_excluded :
  dict_get (o_full_name one_of) (fst (_one_of_handle self descriptor)) = None
  /\ is_proto3_optional (snd (_one_of_handle self descriptor)) (f_full_name field)
     = true.
Proof.
  unfold _one_of_handle.
  pose proof optional_loop_flags as Hloop. cbv zeta in Hloop.
  destruct (fold_left one_of_optional_step (d_fields descriptor) ([], []))
    as [optional_dict optional_id_set].
  destruct Hloop as [Hflag Hin]. simpl in Hflag, Hin.
  match goal with
  | |- context [fold_left (one_of_step ?ood descriptor optional_id_set) ?l ?a] =>
      pose proof (fold_left_keep (one_of_step ood descriptor optional_id_set)
                    (fun acc0 => dict_get (o_full_name one_of) (fst acc0) = None
                                 /\ dict_get (f_full_name field) (snd acc0)
                                    = Some is_proto3_optional_entry)
                    l
                    (fun acc0 y Hy => one_of_step_keeps ood optional_id_set y acc0 Hin Hy)
                    a (conj eq_refl Hflag)) as Hfold;
      destruct (fold_left (one_of_step ood descriptor optional_id_set) l a)
        as [one_of_dict optional_dict']
  end.
  destruct Hfold as [H1 H2]. simpl in H1, H2. simpl. split; [exact H1 |].
  unfold is_proto3_optional. rewrite H2. reflexivity.
Qed.

End Proto3Optional.

(** *** What the handlers and [_gen_field_info] leave alone *)

Lemma bind_eq {A B} (m : M A) (k : A -> M B) (w w1 : World) (a : A) :
  m w = (Ok a, w1) -> bind m k w = k a w1.
Proof. intros H. unfold bind. rewrite H. reflexivity. Qed.

Lemma gen_field_info_no_metadata (env : Env) (self : M2P) (fd : FieldDataClass)
    (skip : bool) :
  is_v1 env = true ->
  _get_field_info_dict_by_full_name self (f_full_name (protobuf_field fd)) = Ok None ->
  _gen_field_info env self fd skip
  = Ok (Some (MkFieldInfo (_default_field self)
                [ ("default", PVDefault (field_default fd));
                  ("default_factory", PVFactory (field_default_factory fd)) ]), fd).
Proof.
  intros Hv1 Hdoc. unfold _gen_field_info. rewrite Hdoc. simpl. rewrite Hv1.
  reflexivity.
Qed.

Lemma repeated_handler_frame (env : Env) (fd : FieldDataClass) :
  protobuf_field (_protobuf_field_lable_is_label_repeated_handler env fd)
    = protobuf_field fd
  /\ nested_message_dict (_protobuf_field_lable_is_label_repeated_handler env fd)
     = nested_message_dict fd.
Proof.
  unfold _protobuf_field_lable_is_label_repeated_handler.
  destruct (negb _); [| split; reflexivity].
  destruct (negb _); split; reflexivity.
Qed.

(** *** The record of a proto3 optional field *)

(** What a computation returns, when it returns. *)
Definition returns {A} (Q : A -> Prop) (m : M A) : Prop :=
  forall w a w', m w = (Ok a, w') -> Q a.

Lemma returns_ret {A} (Q : A -> Prop) (a : A) : Q a -> returns Q (ret a).
Proof. intros H w a' w' E. injection E as <- _. exact H. Qed.

Lemma returns_raise {A} (Q : A -> Prop) (e : exn) : returns Q (raise e).
Proof. intros w a w' E. discriminate E. Qed.

Lemma returns_bind {A B} (R : A -> Prop) (Q : B -> Prop) (m : M A) (k : A -> M B) :
  returns R m -> (forall a, R a -> returns Q (k a)) -> returns Q (bind m k).
Proof.
  intros Hm Hk w b w' E. apply bind_Ok in E as (a & w1 & Ea & Eb).
  exact (Hk a (Hm _ _ _ Ea) _ _ _ Eb).
Qed.

Lemma returns_then {A B} (Q : B -> Prop) (m : M A) (k : A -> M B) :
  (forall a, returns Q (k a)) -> returns Q (bind m k).
Proof.
  intros Hk. apply (returns_bind (fun _ => True)); [intros ? ? ? _; exact I |].
  intros a _. apply Hk.
Qed.

Lemma returns_except_waiting {A} (Q : A -> Prop) (m : M A) (otherwise : A) :
  returns Q m -> Q otherwise -> returns Q (except_waiting m otherwise).
Proof.
  intros Hm Ho w a w' E. unfold except_waiting in E.
  destruct (m w) as [[a0 | e] w1] eqn:Em.
  - injection E as <- <-. exact (Hm _ _ _ Em).
  - destruct e; try discriminate E. injection E as <- _. exact Ho.
Qed.

(** The name, the field and the default of a record are those of another. *)
Definition same_field (fd0 fd : FieldDataClass) : Prop :=
  field_name fd = field_name fd0
  /\ protobuf_field fd = protobuf_field fd0
  /\ field_default fd = field_default fd0.

Lemma same_field_refl fd : same_field fd fd.
Proof. repeat split. Qed.

Lemma message_handler_same_field (env : Env)
    (parse : Descriptor -> string -> bool -> M nat) (self : M2P)
    (field_dataclass : FieldDataClass) :
  returns (same_field field_dataclass)
    (_protobuf_field_type_is_type_message_handler env parse self field_dataclass).
Proof.
  unfold _protobuf_field_type_is_type_message_handler.
  apply returns_then. intros mt.
  destruct (dict_get (d_name mt) (_message_type_dict_by_type_name self)).
  { destruct (dict_get _ _); apply returns_ret; repeat split. }
  destruct (endswith (d_name mt) "Entry").
  { apply returns_then. intros l. apply returns_then. intros t.
    apply returns_ret. repeat split. }
  destruct (startswith (d_file_name mt) "google/protobuf/").
  { apply returns_ret. repeat split. }
  apply returns_then. intros field_doc_dict.
  destruct (dict_get (d_full_name mt) (nested_message_dict field_dataclass)).
  { apply (returns_bind (same_field field_dataclass)).
    - match goal with |- context [if ?b then _ else _] => destruct b end.
      + destruct (filter _ _); [apply returns_raise |].
        apply returns_then. intros r. apply returns_then. intros _.
        apply returns_ret. repeat split.
      + apply returns_ret. repeat split.
    - intros fd Hfd. apply returns_then. intros _. apply returns_ret. exact Hfd. }
  destruct (negb _).
  { apply returns_then. intros r. apply returns_then. intros _.
    apply returns_ret. repeat split. }
  match goal with |- context [if ?b then _ else _] => destruct b end.
  - apply returns_except_waiting.
    + apply returns_then. intros r. apply returns_ret. repeat split.
    + repeat split.
  - apply returns_ret. repeat split.
Qed.

Lemma enum_handler_same_field (env : Env) (field_dataclass : FieldDataClass) :
  returns (same_field (with_field_default (PyInt 0) field_dataclass))
    (_protobuf_field_type_is_type_enum_handler env field_dataclass).
Proof.
  unfold _protobuf_field_type_is_type_enum_handler.
  cbv zeta. destruct (f_enum_type _); [| apply returns_raise].
  destruct (dict_get _ _).
  - apply returns_then. intros _. apply returns_ret. repeat split.
  - apply returns_then. intros r. apply returns_ret. repeat split.
Qed.

(** The same for a result. *)
Definition rreturns {A} (Q : A -> Prop) (r : result A) : Prop :=
  forall a, r = Ok a -> Q a.

Lemma rreturns_Ok {A} (Q : A -> Prop) (a : A) : Q a -> rreturns Q (Ok a).
Proof. intros H a' E. injection E as <-. exact H. Qed.

Lemma rreturns_Raise {A} (Q : A -> Prop) (e : exn) : rreturns Q (Raise e).
Proof. intros a E. discriminate E. Qed.

Lemma rreturns_rbind {A B} (R : A -> Prop) (Q : B -> Prop) (r : result A)
    (k : A -> result B) :
  rreturns R r -> (forall a, R a -> rreturns Q (k a)) -> rreturns Q (rbind r k).
Proof.
  intros Hr Hk b E. destruct r as [a | e]; [| discriminate E].
  exact (Hk a (Hr a eq_refl) b E).
Qed.

Lemma rreturns_then {A B} (Q : B -> Prop) (r : result A) (k : A -> result B) :
  (forall a, rreturns Q (k a)) -> rreturns Q (rbind r k).
Proof.
  intros Hk. apply (rreturns_rbind (fun _ => True)); [intros ? _; exact I |].
  intros a _. apply Hk.
Qed.

Lemma gen_field_info_same_field (env : Env) (self : M2P) (field_dataclass : FieldDataClass)
    (skip : bool) :
  rreturns (fun x => same_field field_dataclass (snd x))
    (_gen_field_info env self field_dataclass skip).
Proof.
  unfold _gen_field_info. cbv zeta.
  apply rreturns_then. intros field_doc_dict.
  assert (Hfinish : forall field fd (d : ParamDict),
            same_field field_dataclass fd ->
            rreturns (fun x => same_field field_dataclass (snd x))
              (rbind (if negb (is_v1 env)
                      then field_param_dict_migration_v2_handler env d
                      else Ok d)
                 (fun d' => Ok (Some (MkFieldInfo field d'), fd)))).
  { intros field fd d Hfd. apply rreturns_then. intros d'. apply rreturns_Ok. exact Hfd. }
  destruct field_doc_dict as [field_doc_dict |]; [destruct skip |];
    try (apply Hfinish, same_field_refl).
  apply rreturns_then. intros d1. apply rreturns_then. intros d2.
  apply rreturns_then. intros d3. apply rreturns_then. intros [enable d4].
  destruct (negb (truthy enable)); [apply rreturns_Ok, same_field_refl |].
  apply rreturns_then. intros [_field d5].
  apply rreturns_then. intros field.
  apply rreturns_then. intros [validator_dict d6].
  apply rreturns_then. intros validators'.
  apply rreturns_then. intros d7.
  destruct (dict_pop_default "type_" _ d7) as [field_type' d8].
  destruct (dict_pop_default "map_type" _ d8) as [map_type_dict d9].
  apply (rreturns_rbind (same_field field_dataclass)).
  - destruct (truthy field_type').
    + destruct field_type' as [? | ? | ? | [t |] | ? | ? | ? | ?];
        first [apply rreturns_Raise | apply rreturns_Ok; repeat split].
    + destruct (truthy map_type_dict); [| apply rreturns_Ok; repeat split].
      destruct (field_type (with_validators validators' field_dataclass));
        try apply rreturns_Raise; try (apply rreturns_Ok; repeat split).
      destruct map_type_dict; try apply rreturns_Raise.
      apply rreturns_then. intros new_args. apply rreturns_then. intros t.
      apply rreturns_Ok. repeat split.
  - intros fd Hfd. apply Hfinish, Hfd.
Qed.

(** The field record as the loop has it when it calls [_gen_field_info]:
    built from the field, then passed to the handler of its type and, for a
    repeated field, to the repeated handler. *)
Definition handled_field (env : Env) (parse : Descriptor -> string -> bool -> M nat)
    (self : M2P) (descriptor : Descriptor) (vars : Locals)
    (protobuf_field : FieldDescriptor) : M FieldDataClass :=
  let field_dataclass :=
    MkFieldDataClass (f_name protobuf_field)
      (match protobuf_desc_python_type_dict env (f_type protobuf_field) with
       | Some t => t
       | None => TNoneValue
       end)
      (protobuf_common_type_dict env (f_type protobuf_field))
      PydanticUndefined None protobuf_field (l_nested_message_dict vars)
      descriptor (l_validators vars) in
  do field_dataclass <-
    match f_type protobuf_field with
    | TYPE_MESSAGE =>
        _protobuf_field_type_is_type_message_handler env parse self field_dataclass
    | TYPE_ENUM => _protobuf_field_type_is_type_enum_handler env field_dataclass
    | _ => ret (with_field_default (f_default_value protobuf_field) field_dataclass)
    end;
  ret (match f_label protobuf_field with
       | LABEL_REPEATED =>
           _protobuf_field_lable_is_label_repeated_handler env field_dataclass
       | _ => field_dataclass
       end).

(** The default the handlers leave in the record of a field. *)
Definition handled_default (env : Env) (protobuf_field : FieldDescriptor) : PyDefault :=
  let by_type :=
    match f_type protobuf_field with
    | TYPE_MESSAGE => PydanticUndefined
    | TYPE_ENUM => PyInt 0
    | _ => f_default_value protobuf_field
    end in
  match f_label protobuf_field with
  | LABEL_REPEATED =>
      match message_type env protobuf_field with
      | Some mt => if endswith (d_name mt) "Entry" then by_type else PydanticUndefined
      | None => PydanticUndefined
      end
  | _ => by_type
  end.

Lemma parse_field_handled (env : Env) (parse : Descriptor -> string -> bool -> M nat)
    (self : M2P) (descriptor : Descriptor) (skip : bool)
    (optional_dict : list (string * list (string * bool)))
    (vars vars' : Locals) (protobuf_field : FieldDescriptor) (w w' : World) :
  parse_field env parse self descriptor skip optional_dict vars protobuf_field w
    = (Ok vars', w') ->
  exists before field_info after,
    handled_field env parse self descriptor vars protobuf_field w = (Ok before, w')
    /\ _gen_field_info env self before skip = Ok (field_info, after)
    /\ match field_info with
       | None => annotation_dict vars' = annotation_dict vars
       | Some field_info =>
           annotation_dict vars'
           = dict_set
               (field_name
                  (if is_proto3_optional optional_dict (f_full_name protobuf_field)
                   then with_field_type (TOptional (field_type after)) after
                   else after))
               (field_type
                  (if is_proto3_optional optional_dict (f_full_name protobuf_field)
                   then with_field_type (TOptional (field_type after)) after
                   else after), field_info)
               (annotation_dict vars)
       end.
Proof.
  intros H. unfold parse_field in H.
  apply bind_Ok in H as (fd1 & w1 & Hh & H).
  apply bind_Ok in H as ([field_info fd3] & w2 & Hgen & H).
  unfold lift in Hgen. injection Hgen as Hgen <-.
  eexists. exists field_info, fd3.
  split; [| split; [exact Hgen |]].
  - unfold handled_field. cbv zeta. unfold bind at 1. rewrite Hh.
    destruct field_info; unfold ret in H; injection H as _ <-; reflexivity.
  - destruct field_info as [fi |]; unfold ret in H; injection H as <- _.
    + simpl. destruct (is_proto3_optional _ _); [| reflexivity].
      destruct (is_undefined _); reflexivity.
    + reflexivity.
Qed.

Lemma repeated_handler_default (env : Env) (fd : FieldDataClass) :
  field_name (_protobuf_field_lable_is_label_repeated_handler env fd) = field_name fd
  /\ field_default (_protobuf_field_lable_is_label_repeated_handler env fd)
     = match message_type env (protobuf_field fd) with
       | Some mt => if endswith (d_name mt) "Entry" then field_default fd
                    else PydanticUndefined
       | None => PydanticUndefined
       end.
Proof.
  unfold _protobuf_field_lable_is_label_repeated_handler. cbv zeta.
  destruct fd as [name type type_name default factory field nested desc vals].
  cbn [protobuf_field].
  destruct (message_type env field) as [mt |].
  - destruct (endswith (d_name mt) "Entry"); simpl; [split; reflexivity |].
    destruct default; split; reflexivity.
  - simpl. destruct default; split; reflexivity.
Qed.

Lemma handled_field_record (env : Env) (parse : Descriptor -> string -> bool -> M nat)
    (self : M2P) (descriptor : Descriptor) (vars : Locals)
    (protobuf_field : FieldDescriptor) :
  returns (fun fd => field_name fd = f_name protobuf_field
                     /\ GenModel.protobuf_field fd = protobuf_field
                     /\ field_default fd = handled_default env protobuf_field)
    (handled_field env parse self descriptor vars protobuf_field).
Proof.
  unfold handled_field. cbv zeta.
  set (fd0 := MkFieldDataClass (f_name protobuf_field) _ _ PydanticUndefined None
                protobuf_field (l_nested_message_dict vars) descriptor
                (l_validators vars)).
  apply (returns_bind
           (fun fd => field_name fd = f_name protobuf_field
                      /\ GenModel.protobuf_field fd = protobuf_field
                      /\ field_default fd
                         = match f_type protobuf_field with
                           | TYPE_MESSAGE => PydanticUndefined
                           | TYPE_ENUM => PyInt 0
                           | _ => f_default_value protobuf_field
                           end)).
  - destruct (f_type protobuf_field);
      try (apply returns_ret; repeat split).
    + intros w a w' E.
      destruct (message_handler_same_field env parse self fd0 w a w' E)
        as (-> & -> & ->). repeat split.
    + intros w a w' E.
      destruct (enum_handler_same_field env fd0 w a w' E) as (-> & -> & ->).
      repeat split.
  - intros fd (Hn & Hp & Hd). apply returns_ret. unfold handled_default. cbv zeta.
    destruct (f_label protobuf_field); try (repeat split; assumption).
    destruct (repeated_handler_frame env fd) as [Hp' _].
    destruct (repeated_handler_default env fd) as [Hn' Hd'].
    rewrite Hn', Hp', Hd', Hp, Hn, Hd. repeat split.
Qed.

(** A field flagged as proto3 optional. The record [before] that the
    handlers made of the field carries the field and its name, and the
    default the handlers leave (undefined for a message, 0 for an enum,
    the protobuf default otherwise); [_gen_field_info] is called on it and
    returns the record [after], with the same name and default. The field
    is skipped when [_gen_field_info] returns [None] (its metadata disables
    it); otherwise it is entered in [annotation_dict] under the field's
    name, with the type of [after] wrapped in [Optional] and with the
    [FieldInfo] that [_gen_field_info] built from [before], the record as
    it was before the wrapping. Without metadata, under pydantic v1, that
    [FieldInfo] holds the default the handlers left, not [None]. *)
Lemma optional_field_is_emitted_as_optional (env : Env)
    (parse : Descriptor -> string -> bool -> M nat) (self : M2P)
    (descriptor : Descriptor) (skip : bool)
    (optional_dict : list (string * list (string * bool)))
    (vars vars' : Locals) (protobuf_field : FieldDescriptor) (w w' : World) :
  is_proto3_optional optional_dict (f_full_name protobuf_field) = true ->
  parse_field env parse self descriptor skip optional_dict vars protobuf_field w
    = (Ok vars', w') ->
  exists before after,
    handled_field env parse self descriptor vars protobuf_field w = (Ok before, w')
    /\ field_name before = f_name protobuf_field
    /\ GenModel.protobuf_field before = protobuf_field
    /\ field_default before = handled_default env protobuf_field
    /\ same_field before after
    /\ ((_gen_field_info env self before skip = Ok (None, after)
         /\ annotation_dict vars' = annotation_dict vars)
        \/ (exists field_info,
              _gen_field_info env self before skip = Ok (Some field_info, after)
              /\ annotation_dict vars'
                 = dict_set (f_name protobuf_field)
                     (TOptional (field_type after), field_info)
                     (annotation_dict vars)))
    /\ (is_v1 env = true ->
        _get_field_info_dict_by_full_name self (f_full_name protobuf_field) = Ok None ->
        after = before
        /\ annotation_dict vars'
           = dict_set (f_name protobuf_field)
               (TOptional (field_type before),
                MkFieldInfo (_default_field self)
                  [ ("default", PVDefault (handled_default env protobuf_field));
                    ("default_factory", PVFactory (field_default_factory before)) ])
               (annotation_dict vars)).
Proof.
  intros Hopt H.
  destruct (parse_field_handled env parse self descriptor skip optional_dict
              vars vars' protobuf_field w w' H)
    as (before & field_info & after & Hbefore & Hgen & Hann).
  destruct (handled_field_record env parse self descriptor vars protobuf_field
              w before w' Hbefore) as (Hname & Hfield & Hdefault).
  pose proof (gen_field_info_same_field env self before skip _ Hgen) as Hsame.
  simpl in Hsame.
  rewrite Hopt in Hann.
  exists before, after. split; [exact Hbefore |]. split; [exact Hname |].
  split; [exact Hfield |]. split; [exact Hdefault |]. split; [exact Hsame |].
  destruct Hsame as (Hn & _ & _).
  split.
  - destruct field_info as [fi |].
    + right. exists fi. split; [exact Hgen |]. simpl in Hann.
      rewrite Hn, Hname in Hann. exact Hann.
    + left. split; [exact Hgen | exact Hann].
  - intros Hv1 Hdoc.
    assert (Hplain := gen_field_info_no_metadata env self before skip Hv1).
    rewrite Hfield in Hplain. specialize (Hplain Hdoc).
    rewrite Hplain in Hgen. injection Hgen as <- <-.
    split; [reflexivity |]. simpl in Hann. rewrite Hname, Hdefault in Hann.
    exact Hann.
Qed.

(** *** Self-referential messages compile *)

(** A message whose fields have no metadata and are scalars or references
    to the message itself, and whose name is that of an ordinary message. *)
Record plain_self_referential (env : Env) (self : M2P) (d : Descriptor) : Prop :=
  { psr_pool : pool env !! d_full_name d = Some d;
    psr_not_well_known :
      dict_get (d_name d) (_message_type_dict_by_type_name self) = None;
    psr_not_entry : endswith (d_name d) "Entry" = false;
    psr_not_google : startswith (d_file_name d) "google/protobuf/" = false;
    psr_no_nested : d_nested_types d = [];
    psr_no_enum : d_enum_types d = [];
    psr_fields :
      Forall (fun f =>
                _get_field_info_dict_by_full_name self (f_full_name f) = Ok None
                /\ f_type f <> TYPE_ENUM
                /\ (f_type f = TYPE_MESSAGE -> f_message_type f = Some (d_full_name d)))
        (d_fields d) }.

Lemma parse_field_plain (env : Env) (parse : Descriptor -> string -> bool -> M nat)
    (self : M2P) (d : Descriptor)
    (optional_dict : list (string * list (string * bool)))
    (vars : Locals) (f : FieldDescriptor) (w : World) :
  plain_self_referential env self d ->
  is_v1 env = true ->
  _get_field_info_dict_by_full_name self (f_full_name f) = Ok None ->
  f_type f <> TYPE_ENUM ->
  (f_type f = TYPE_MESSAGE -> f_message_type f = Some (d_full_name d)) ->
  l_nested_message_dict vars = [] ->
  exists vars',
    parse_field env parse self d false optional_dict vars f w = (Ok vars', w)
    /\ l_nested_message_dict vars' = [].
Proof.
  intros Hd Hv1 Hdoc Hne Hmsg Hnest. unfold parse_field.
  set (fd0 := MkFieldDataClass (f_name f) _ _ PydanticUndefined None f
                (l_nested_message_dict vars) d (l_validators vars)).
  assert (Hstep1 : exists fd1,
            (match f_type f with
             | TYPE_MESSAGE =>
                 _protobuf_field_type_is_type_message_handler env parse self fd0
             | TYPE_ENUM => _protobuf_field_type_is_type_enum_handler env fd0
             | _ => ret (with_field_default (f_default_value f) fd0)
             end) w = (Ok fd1, w)
            /\ protobuf_field fd1 = f /\ nested_message_dict fd1 = []).
  { destruct (f_type f) eqn:Ety;
      try (eexists; split; [reflexivity | split; [reflexivity | exact Hnest]]).
    - assert (Hord : ordinary_same_file_field env self fd0 d false).
      { destruct Hd. constructor; simpl.
        - unfold message_type. rewrite (Hmsg eq_refl). assumption.
        - assumption.
        - assumption.
        - assumption.
        - unfold skip_rule_of. rewrite Hdoc. reflexivity.
        - rewrite Hnest. reflexivity.
        - reflexivity. }
      rewrite (handler_same_file env parse self fd0 d false w Hord).
      cbv zeta. simpl descriptor. rewrite String.eqb_refl. simpl.
      eexists. split; [reflexivity | split; [reflexivity | exact Hnest]].
    - congruence. }
  destruct Hstep1 as (fd1 & Hrun1 & Hpf1 & Hn1).
  rewrite (bind_eq _ _ _ _ _ Hrun1).
  set (fd2 := match f_label f with
              | LABEL_REPEATED => _protobuf_field_lable_is_label_repeated_handler env fd1
              | _ => fd1
              end).
  assert (H2 : protobuf_field fd2 = f /\ nested_message_dict fd2 = []).
  { unfold fd2. destruct (f_label f); try (split; assumption).
    destruct (repeated_handler_frame env fd1) as [-> ->]. split; assumption. }
  destruct H2 as [Hpf2 Hn2].
  assert (Hgen := gen_field_info_no_metadata env self fd2 false Hv1).
  rewrite Hpf2 in Hgen. specialize (Hgen Hdoc).
  unfold bind at 1. unfold lift at 1. rewrite Hgen.
  cbv beta iota zeta.
  eexists. split; [reflexivity |]. simpl. exact Hn2.
Qed.

Lemma fields_plain (env : Env) (parse : Descriptor -> string -> bool -> M nat)
    (self : M2P) (d : Descriptor)
    (optional_dict : list (string * list (string * bool))) (w : World)
    (fields : list FieldDescriptor) :
  plain_self_referential env self d ->
  is_v1 env = true ->
  Forall (fun f =>
            _get_field_info_dict_by_full_name self (f_full_name f) = Ok None
            /\ f_type f <> TYPE_ENUM
            /\ (f_type f = TYPE_MESSAGE -> f_message_type f = Some (d_full_name d)))
    fields ->
  forall vars, l_nested_message_dict vars = [] ->
  exists vars',
    for_each fields vars (parse_field env parse self d false optional_dict) w
      = (Ok vars', w)
    /\ l_nested_message_dict vars' = [].
Proof.
  intros Hd Hv1 Hall. induction Hall as [| f rest (Hdoc & Hne & Hmsg) _ IH];
    intros vars Hnest; simpl.
  - exists vars. split; [reflexivity | exact Hnest].
  - destruct (parse_field_plain env parse self d optional_dict vars f w
                Hd Hv1 Hdoc Hne Hmsg Hnest) as (vars1 & Hrun & Hn1).
    rewrite (bind_eq _ _ _ _ _ Hrun). apply IH, Hn1.
Qed.

(** Under pydantic v1, when pydantic accepts the class, a message of
    scalars and references to itself that is not yet in the cache compiles
    with fuel for one call only: no nested call of the model builder is
    made, the class is created and recorded under the message's key. *)
Theorem self_referential_message_compiles_to_completion (env : Env) (self : M2P)
    (d : Descriptor) (w : World) :
  plain_self_referential env self d ->
  is_v1 env = true ->
  (forall class_name annotations validators module base,
     create_model_error env class_name annotations validators module base = None) ->
  cache_at (_creat_cache self) w !! message_key_of d "" false = None ->
  exists model w',
    _parse_msg_to_pydantic_model 1 env self d "" false w = (Ok model, w')
    /\ cache_at (_creat_cache self) w' !! message_key_of d "" false
       = Some (Some model).
Proof.
  intros Hd Hv1 Hcreate Hc.
  assert (Hrun : exists model w',
            _parse_msg_to_pydantic_model 1 env self d "" false w = (Ok model, w')).
  { simpl. unfold parse_body. fold (message_key_of d "" false).
    unfold bind at 1. unfold cache_lookup at 1. rewrite Hc.
    unfold bind at 1. unfold cache_store at 1.
    unfold build_model, get_nested_message_dict_by_message.
    rewrite (psr_no_nested _ _ _ Hd), (psr_no_enum _ _ _ Hd). simpl for_each.
    unfold bind at 1. unfold ret at 1. unfold bind at 1. unfold ret at 1.
    destruct (_one_of_handle self d) as [one_of_dict optional_dict].
    match goal with
    | |- context [bind (for_each (d_fields d) ?v ?body) ?k ?w0] =>
        destruct (fields_plain env (fun _ _ _ => raise RecursionError) self d
                    optional_dict w0 (d_fields d) Hd Hv1 (psr_fields _ _ _ Hd)
                    v eq_refl) as (vars & Hfields & _)
    end.
    rewrite (bind_eq _ _ _ _ _ Hfields). cbv zeta.
    unfold create_model_with_retry, create_pydantic_model.
    unfold bind at 1. rewrite Hcreate. unfold new_class.
    unfold bind, setattr_class, cache_store, ret. eexists. eexists. reflexivity. }
  destruct Hrun as (model & w' & Hrun). exists model, w'. split; [exact Hrun |].
  simpl in Hrun. apply parse_body_records in Hrun. exact Hrun.
Qed.

(** *** What a compilation leaves alone *)

(** A computation preserves a property of the store, whether it returns or
    raises. *)
Definition preserves (P : World -> Prop) {A} (m : M A) : Prop :=
  forall w r w', P w -> m w = (r, w') -> P w'.

(** A function on class objects that sets an attribute: the name and the
    body the class was created with stay. *)
Definition sets_attribute (f : ClassObj -> ClassObj) : Prop :=
  forall c, c_name (f c) = c_name c /\ c_body (f c) = c_body c.

Section Preserves.

Variable P : World -> Prop.

Lemma preserves_ret {A} (a : A) : preserves P (ret a).
Proof. intros w r w' Hp H. injection H as _ <-. exact Hp. Qed.

Lemma preserves_raise {A} (e : exn) : preserves P (@raise A e).
Proof. intros w r w' Hp H. injection H as _ <-. exact Hp. Qed.

Lemma preserves_lift {A} (x : result A) : preserves P (lift x).
Proof. intros w r w' Hp H. injection H as _ <-. exact Hp. Qed.

Lemma preserves_read {A} (f : World -> A) : preserves P (fun w => (Ok (f w), w)).
Proof. intros w r w' Hp H. injection H as _ <-. exact Hp. Qed.

Lemma preserves_bind {A B} (m : M A) (k : A -> M B) :
  preserves P m -> (forall a, preserves P (k a)) -> preserves P (bind m k).
Proof.
  intros Hm Hk w r w' Hp H. unfold bind in H.
  destruct (m w) as [[a | e] w1] eqn:E.
  - eapply Hk; [eapply Hm; eassumption | exact H].
  - injection H as _ <-. eapply Hm; eassumption.
Qed.

Lemma preserves_for_each {A S} (l : list A) (body : S -> A -> M S) :
  (forall s x, preserves P (body s x)) ->
  forall s, preserves P (for_each l s body).
Proof.
  intros Hb. induction l as [| x l IH]; intros s; simpl.
  - apply preserves_ret.
  - apply preserves_bind; [apply Hb | intros s'; apply IH].
Qed.

Lemma preserves_except_waiting {A} (m : M A) (a : A) :
  preserves P m -> preserves P (except_waiting m a).
Proof.
  intros Hm w r w' Hp H. unfold except_waiting in H.
  destruct (m w) as [[x | e] w1] eqn:E.
  - injection H as _ <-. eapply Hm; eassumption.
  - assert (Hw : w' = w1) by (destruct e; injection H as _ <-; reflexivity).
    subst w'. eapply Hm; eassumption.
Qed.

End Preserves.

Section PreservesCompiler.

Variable env : Env.
Variable self : M2P.
Variable P : World -> Prop.

(** [P] is kept by the three ways the compiler writes to the store:
    creating a class, setting an attribute of a class, and storing under a
    key of its cache that is absent or holds the in-progress mark. *)
Hypothesis P_new_class : forall c, preserves P (new_class c).
Hypothesis P_setattr :
  forall t f, sets_attribute f -> preserves P (setattr_class t f).
Hypothesis P_store :
  forall k v w,
    P w ->
    cache_at (_creat_cache self) w !! k = None
    \/ cache_at (_creat_cache self) w !! k = Some None ->
    P (snd (cache_store (_creat_cache self) k v w)).

Variable parse : Descriptor -> string -> bool -> M nat.
Hypothesis parse_preserves : forall d c s, preserves P (parse d c s).
Hypothesis parse_keeps_marks :
  forall K d c s, keeps_mark (_creat_cache self) K (parse d c s).

Ltac preserves_step :=
  first
    [ assumption
    | apply parse_preserves
    | apply preserves_ret
    | apply preserves_raise
    | apply preserves_lift
    | apply preserves_read
    | apply P_new_class
    | apply P_setattr; intros ?; split; reflexivity
    | apply preserves_except_waiting
    | apply preserves_for_each; intros ? ?
    | apply preserves_bind; [| intros ?]
    | match goal with
      | |- preserves _ (match ?x with _ => _ end) => destruct x
      | |- preserves _ (let (_, _) := ?x in _) => destruct x
      end ].

Lemma preserves_get_nested_message_dict_by_message (descriptor : Descriptor) :
  preserves P (get_nested_message_dict_by_message parse descriptor).
Proof.
  unfold get_nested_message_dict_by_message, new_int_enum.
  repeat preserves_step.
Qed.

Lemma preserves_message_handler (fd : FieldDataClass) :
  preserves P (_protobuf_field_type_is_type_message_handler env parse self fd).
Proof.
  unfold _protobuf_field_type_is_type_message_handler, message_type_or_raise,
    map_entry_field_type, message_type_or_raise.
  repeat preserves_step.
Qed.

Lemma preserves_enum_handler (fd : FieldDataClass) :
  preserves P (_protobuf_field_type_is_type_enum_handler env fd).
Proof.
  unfold _protobuf_field_type_is_type_enum_handler, new_int_enum.
  repeat preserves_step.
Qed.

Lemma preserves_parse_field (descriptor : Descriptor) (skip : bool)
    (optional_dict : list (string * list (string * bool)))
    (vars : Locals) (protobuf_field : FieldDescriptor) :
  preserves P
    (parse_field env parse self descriptor skip optional_dict vars protobuf_field).
Proof.
  unfold parse_field.
  apply preserves_bind.
  - destruct (f_type protobuf_field);
      first [ apply preserves_message_handler | apply preserves_enum_handler
            | apply preserves_ret ].
  - intros fd. repeat preserves_step.
Qed.

Lemma preserves_create_pydantic_model annotation_dict class_name validators module base :
  preserves P
    (create_pydantic_model env annotation_dict class_name validators module base).
Proof. unfold create_pydantic_model. repeat preserves_step. Qed.

Lemma preserves_create_model_with_retry annotation_dict class_name validators config :
  preserves P
    (create_model_with_retry env self annotation_dict class_name validators config).
Proof.
  intros w r w' Hp H. unfold create_model_with_retry in H.
  destruct (create_pydantic_model env _ _ _ _ _ w) as [[m | e] w1] eqn:E.
  - injection H as _ <-. eapply preserves_create_pydantic_model; eassumption.
  - assert (Hw1 : P w1) by (eapply preserves_create_pydantic_model; eassumption).
    destruct e; try (injection H as _ <-; exact Hw1).
    destruct (contains msg "arbitrary_types_allowed").
    + eapply preserves_create_pydantic_model; eassumption.
    + injection H as _ <-. exact Hw1.
Qed.

(** Building a model from a store in which the call's key holds the mark:
    the mark is still there when the finished class is stored. *)
Lemma preserves_build_model (descriptor : Descriptor) (class_name : string)
    (key : Key) (skip : bool) (w w' : World) (r : result nat) :
  P w ->
  cache_at (_creat_cache self) w !! key = Some None ->
  build_model env parse self descriptor class_name key skip w = (r, w') ->
  P w'.
Proof.
  intros Hp Hmark H. unfold build_model in H.
  unfold bind at 1 in H.
  destruct (get_nested_message_dict_by_message parse descriptor w)
    as [[nested | e1] w1] eqn:E1;
    [| injection H as _ <-;
       eapply preserves_get_nested_message_dict_by_message; eassumption].
  assert (P1 : P w1)
    by (eapply preserves_get_nested_message_dict_by_message; eassumption).
  assert (M1 : cache_at (_creat_cache self) w1 !! key = Some None).
  { eapply keeps_get_nested_message_dict_by_message;
      [intros; apply parse_keeps_marks | exact Hmark | exact E1]. }
  destruct (_one_of_handle self descriptor) as [one_of_dict optional_dict].
  unfold bind at 1 in H.
  destruct (for_each (d_fields descriptor) _ _ w1) as [[vars | e2] w2] eqn:E2.
  2:{ injection H as _ <-.
      eapply (preserves_for_each P); [| exact P1 | exact E2].
      intros; apply preserves_parse_field. }
  assert (P2 : P w2).
  { eapply (preserves_for_each P); [| exact P1 | exact E2].
    intros; apply preserves_parse_field. }
  assert (M2 : cache_at (_creat_cache self) w2 !! key = Some None).
  { eapply (keeps_for_each (_creat_cache self) key); [| exact M1 | exact E2].
    intros; apply keeps_parse_field. apply parse_keeps_marks. }
  cbv zeta in H. unfold bind at 1 in H.
  destruct (create_model_with_retry env self (annotation_dict vars) class_name _
              (pydantic_model_config_dict vars) w2) as [[model | e3] w3] eqn:E3.
  2:{ injection H as _ <-.
      eapply preserves_create_model_with_retry; [exact P2 | exact E3]. }
  assert (P3 : P w3) by (eapply preserves_create_model_with_retry; eassumption).
  assert (M3 : cache_at (_creat_cache self) w3 !! key = Some None).
  { eapply keeps_create_model_with_retry; [exact M2 | exact E3]. }
  unfold bind at 1 in H. cbv beta iota in H.
  unfold bind at 1 in H.
  destruct (setattr_class (TClass model) _ w3) as [[u4 | e4] w4] eqn:E4;
    [| discriminate E4].
  assert (P4 : P w4) by (eapply P_setattr; [| exact P3 | exact E4]; split; reflexivity).
  assert (M4 : cache_at (_creat_cache self) w4 !! key = Some None)
    by (eapply keeps_setattr_class; [exact M3 | exact E4]).
  unfold bind at 1 in H.
  destruct (setattr_class (TClass model) _ w4) as [[u5 | e5] w5] eqn:E5;
    [| discriminate E5].
  assert (P5 : P w5) by (eapply P_setattr; [| exact P4 | exact E5]; split; reflexivity).
  assert (M5 : cache_at (_creat_cache self) w5 !! key = Some None)
    by (eapply keeps_setattr_class; [exact M4 | exact E5]).
  unfold bind at 1 in H. unfold cache_store at 1 in H. unfold ret in H.
  injection H as _ <-.
  apply (P_store key (Some model) w5 P5). right. exact M5.
Qed.

Lemma preserves_parse_body (descriptor : Descriptor) (class_name : string) (skip : bool) :
  preserves P (parse_body env parse self descriptor class_name skip).
Proof.
  unfold parse_body. fold (message_key_of descriptor class_name skip).
  set (key := message_key_of descriptor class_name skip).
  intros w r w' Hp H. unfold bind at 1 in H. unfold cache_lookup at 1 in H.
  destruct (cache_at (_creat_cache self) w !! key) as [[model |] |] eqn:Hc.
  - injection H as _ <-. exact Hp.
  - injection H as _ <-. exact Hp.
  - unfold bind at 1 in H. unfold cache_store at 1 in H.
    eapply preserves_build_model; [| | exact H].
    + apply (P_store key None w Hp). left. exact Hc.
    + rewrite cache_at_insert. apply lookup_insert_eq.
Qed.

End PreservesCompiler.

Lemma preserves_parse (env : Env) (self : M2P) (P : World -> Prop) :
  (forall c, preserves P (new_class c)) ->
  (forall t f, sets_attribute f -> preserves P (setattr_class t f)) ->
  (forall k v w,
     P w ->
     cache_at (_creat_cache self) w !! k = None
     \/ cache_at (_creat_cache self) w !! k = Some None ->
     P (snd (cache_store (_creat_cache self) k v w))) ->
  forall fuel d c s, preserves P (_parse_msg_to_pydantic_model fuel env self d c s).
Proof.
  intros Hnew Hset Hstore. induction fuel as [| n IH]; intros d c s; simpl.
  - apply preserves_raise.
  - apply preserves_parse_body; try assumption.
    intros K d' c' s'. apply keeps_parse.
Qed.

(** The three properties a compilation preserves. *)

(** A finished model in the invocation's cache. *)
Lemma entry_preserved (env : Env) (self : M2P) (K : Key) (model : nat) (fuel : nat)
    (d : Descriptor) (c : string) (s : bool) :
  preserves (fun w => cache_at (_creat_cache self) w !! K = Some (Some model))
    (_parse_msg_to_pydantic_model fuel env self d c s).
Proof.
  apply preserves_parse.
  - intros cl w r w' Hp H. injection H as _ <-. exact Hp.
  - intros t f _ w r w' Hp H. destruct t; try (injection H as _ <-; exact Hp).
  - intros k v' w Hp Hk. simpl. rewrite cache_at_insert.
    rewrite lookup_insert_ne; [exact Hp |].
    intros ->. destruct Hk as [Hk | Hk]; congruence.
Qed.

(** The cache at another location. *)
Lemma other_cache_preserved (env : Env) (self : M2P) (l : nat) (c0 : Cache)
    (fuel : nat) (d : Descriptor) (c : string) (s : bool) :
  l <> _creat_cache self ->
  preserves (fun w => cache_at l w = c0)
    (_parse_msg_to_pydantic_model fuel env self d c s).
Proof.
  intros Hne. apply preserves_parse.
  - intros cl w r w' Hp H. injection H as _ <-. exact Hp.
  - intros t f _ w r w' Hp H. destruct t; try (injection H as _ <-; exact Hp).
  - intros k v' w Hp _. simpl. unfold cache_at in *. cbn [caches].
    rewrite lookup_insert_ne by congruence. exact Hp.
Qed.

(** The classes of a heap [h0] are in the store, with their names and
    bodies. *)
Definition heap_extends (h0 : list ClassObj) (w : World) : Prop :=
  length h0 <= length (heap w)
  /\ forall i c, h0 !! i = Some c ->
       exists c', heap w !! i = Some c' /\ c_name c' = c_name c /\ c_body c' = c_body c.

Lemma heap_extends_refl (w : World) : heap_extends (heap w) w.
Proof. split; [lia |]. intros i c Hc. exists c. auto. Qed.

Lemma heap_extends_new_class (h0 : list ClassObj) (c : ClassObj) :
  preserves (heap_extends h0) (new_class c).
Proof.
  intros w r w' [Hlen Hp] H. injection H as _ <-. split.
  - cbn [heap]. rewrite length_app. lia.
  - intros i c1 Hc. destruct (Hp i c1 Hc) as (c' & Hc' & Hn).
    exists c'. split; [| exact Hn]. cbn [heap]. apply lookup_app_l_Some, Hc'.
Qed.

Lemma heap_extends_setattr (h0 : list ClassObj) (t : PyType) (f : ClassObj -> ClassObj) :
  sets_attribute f -> preserves (heap_extends h0) (setattr_class t f).
Proof.
  intros Hf w r w' [Hlen Hp] H.
  destruct t; try (injection H as _ <-; split; assumption).
  injection H as _ <-. split.
  - cbn [heap]. rewrite length_alter. exact Hlen.
  - intros i c1 Hc. destruct (Hp i c1 Hc) as (c' & Hc' & Hn & Hb).
    cbn [heap]. destruct (decide (i = ref)) as [-> | Hne].
    + exists (f c'). rewrite list_lookup_alter_eq, Hc'. split; [reflexivity |].
      destruct (Hf c') as [-> ->]. split; assumption.
    + exists c'. rewrite list_lookup_alter_ne by congruence. auto.
Qed.

Lemma heap_preserved (env : Env) (self : M2P) (h0 : list ClassObj)
    (fuel : nat) (d : Descriptor) (c : string) (s : bool) :
  preserves (heap_extends h0) (_parse_msg_to_pydantic_model fuel env self d c s).
Proof.
  apply preserves_parse.
  - apply heap_extends_new_class.
  - apply heap_extends_setattr.
  - intros k v' w Hp _. exact Hp.
Qed.

(** A call never changes or removes an entry its cache already holds, be it
    a finished model or an in-progress mark, and writes to no other cache:
    whether it returns or raises, it only adds entries to its own cache. *)
Theorem compilation_only_adds_cache_entries (fuel : nat) (env : Env) (self : M2P)
    (descriptor : Descriptor) (class_name : string) (skip : bool)
    (w w' : World) (r : result nat) :
  _parse_msg_to_pydantic_model fuel env self descriptor class_name skip w = (r, w') ->
  (forall K v, cache_at (_creat_cache self) w !! K = Some v ->
               cache_at (_creat_cache self) w' !! K = Some v)
  /\ (forall l, l <> _creat_cache self -> cache_at l w' = cache_at l w).
Proof.
  intros Hrun. split.
  - intros K [model |] Hv.
    + exact (entry_preserved env self K model fuel descriptor class_name skip
               w r w' Hv Hrun).
    + exact (keeps_parse env self K fuel descriptor class_name skip w r w' Hv Hrun).
  - intros l Hne.
    exact (other_cache_preserved env self l (cache_at l w) fuel descriptor class_name
             skip Hne w r w' eq_refl Hrun).
Qed.

(** A call never removes or redefines a class: every class object of the
    store is still there afterwards under the same reference, with the name
    and the fields it was created with (only attributes are set on it). *)
Theorem compilation_keeps_existing_classes (fuel : nat) (env : Env) (self : M2P)
    (descriptor : Descriptor) (class_name : string) (skip : bool)
    (w w' : World) (r : result nat) :
  _parse_msg_to_pydantic_model fuel env self descriptor class_name skip w = (r, w') ->
  length (heap w) <= length (heap w')
  /\ forall ref c, heap w !! ref = Some c ->
       exists c', heap w' !! ref = Some c'
                  /\ c_name c' = c_name c /\ c_body c' = c_body c.
Proof.
  intros Hrun.
  exact (heap_preserved env self (heap w) fuel descriptor class_name skip w r w'
           (heap_extends_refl w) Hrun).
Qed.

(** *** The class a call creates *)

(** [create_pydantic_model] with its second attempt: when it returns, one
    class was appended to the heap, named [class_name], and the result is
    its reference. *)
Lemma create_model_with_retry_Ok (env : Env) (self : M2P)
    (annotations : list (string * (PyType * FieldInfo))) (class_name : string)
    (validators : list (string * string)) (config : list (string * bool))
    (w w' : World) (model : nat) :
  create_model_with_retry env self annotations class_name validators config w
    = (Ok model, w') ->
  model = length (heap w)
  /\ caches w' = caches w
  /\ exists config',
       heap w'
       = (heap w ++ [MkClassObj class_name
                       (ModelClass annotations (or_None validators)
                          (_pydantic_module self)
                          (MkPydanticBase (_pydantic_base self) config'))
                       None None None None None])%list.
Proof.
  unfold create_model_with_retry, create_pydantic_model, _get_pydantic_base.
  intros H.
  destruct (create_model_error env class_name annotations (or_None validators)
              (_pydantic_module self) (MkPydanticBase (_pydantic_base self) config))
    as [msg |] eqn:E1.
  - unfold raise in H.
    destruct (contains msg "arbitrary_types_allowed"); [| discriminate H].
    destruct (create_model_error env class_name annotations (or_None validators)
                (_pydantic_module self)
                (MkPydanticBase (_pydantic_base self)
                   (dict_set "arbitrary_types_allowed" true config)))
      as [msg2 |]; [discriminate H |].
    unfold new_class in H. injection H as <- <-.
    split; [reflexivity |]. split; [reflexivity |]. eexists. reflexivity.
  - unfold new_class in H. injection H as <- <-.
    split; [reflexivity |]. split; [reflexivity |]. eexists. reflexivity.
Qed.

(** The class object a call on a key that is not in its cache returns. *)
Definition created_by (self : M2P) (descriptor : Descriptor) (class_name : string)
    (c : ClassObj) : Prop :=
  c_name c = (if String.eqb class_name "" then d_name descriptor else class_name)
  /\ (exists annotations validators config,
        c_body c = ModelClass annotations validators (_pydantic_module self)
                     (MkPydanticBase (_pydantic_base self) config))
  /\ c_one_of_dict c = Some (fst (_one_of_handle self descriptor))
  /\ exists code_ref,
       c_code_ref c = Some code_ref
       /\ cr_one_of_dict code_ref = fst (_one_of_handle self descriptor)
       /\ cr_base_model code_ref = _pydantic_base self.

Lemma parse_fresh_key (fuel : nat) (env : Env) (self : M2P)
    (descriptor : Descriptor) (class_name : string) (skip : bool)
    (w w' : World) (model : nat) :
  cache_at (_creat_cache self) w !! message_key_of descriptor class_name skip = None ->
  _parse_msg_to_pydantic_model fuel env self descriptor class_name skip w
    = (Ok model, w') ->
  length (heap w) <= model < length (heap w')
  /\ exists c, heap w' !! model = Some c /\ created_by self descriptor class_name c.
Proof.
  intros Hc Hrun. unfold created_by. destruct fuel as [| n]; [discriminate Hrun |].
  simpl in Hrun. unfold parse_body in Hrun.
  fold (message_key_of descriptor class_name skip) in Hrun.
  unfold bind at 1 in Hrun. unfold cache_lookup at 1 in Hrun. rewrite Hc in Hrun.
  unfold bind at 1 in Hrun. unfold cache_store at 1 in Hrun.
  match type of Hrun with
  | build_model _ _ _ _ _ _ _ ?w0 = _ => set (w1 := w0) in Hrun
  end.
  pose proof (heap_extends_new_class (heap w)) as Hnew.
  pose proof (heap_extends_setattr (heap w)) as Hset.
  assert (Hparse : forall d c s,
            preserves (heap_extends (heap w)) (_parse_msg_to_pydantic_model n env self d c s))
    by (intros; apply heap_preserved).
  assert (H1 : heap_extends (heap w) w1).
  { split; [reflexivity |]. intros i c Hi. exists c. auto. }
  unfold build_model in Hrun.
  apply bind_Ok in Hrun as (nested & w3 & E3 & Hrun).
  assert (H3 : heap_extends (heap w) w3).
  { eapply (preserves_get_nested_message_dict_by_message (heap_extends (heap w)));
      [exact Hnew | exact Hset | exact Hparse | exact H1 | exact E3]. }
  destruct (_one_of_handle self descriptor) as [one_of_dict optional_dict].
  apply bind_Ok in Hrun as (vars & w4 & E4 & Hrun).
  assert (H4 : heap_extends (heap w) w4).
  { eapply (preserves_for_each (heap_extends (heap w))); [| exact H3 | exact E4].
    intros vs x. apply preserves_parse_field; assumption. }
  cbv zeta in Hrun.
  apply bind_Ok in Hrun as (pm & w5 & E5 & Hrun).
  apply create_model_with_retry_Ok in E5 as (Hpm & _ & config' & Hheap5).
  apply bind_Ok in Hrun as (used & w6 & E6 & Hrun).
  injection E6 as _ <-.
  apply bind_Ok in Hrun as (u7 & w7 & E7 & Hrun).
  apply bind_Ok in Hrun as (u8 & w8 & E8 & Hrun).
  apply bind_Ok in Hrun as (u9 & w9 & E9 & Hrun).
  injection Hrun as <- <-.
  unfold setattr_class in E7, E8. injection E7 as _ <-. injection E8 as _ <-.
  unfold cache_store in E9. injection E9 as _ <-.
  cbn [heap]. rewrite !length_alter, Hheap5, length_app. simpl length.
  destruct H4 as [Hlen4 _]. split; [lia |].
  rewrite !list_lookup_alter_eq. rewrite lookup_app_r by lia.
  rewrite Hpm, Nat.sub_diag. simpl.
  eexists. split; [reflexivity |]. simpl.
  split; [reflexivity |]. split; [eauto |]. split; [reflexivity |].
  eexists. split; [reflexivity |]. split; reflexivity.
Qed.

(** A call on a key that its cache does not hold, when it returns, returns
    the reference of a class created during the call: the reference is not
    below the number of classes at call time. The class is named
    [class_name], or after the message when [class_name] is empty; it is a
    model of the invocation's module and base class, and carries the oneof
    dictionary of the message as [_one_of_dict] and in its [_code_ref]. *)
Theorem fresh_key_returns_new_class (fuel : nat) (env : Env) (self : M2P)
    (descriptor : Descriptor) (class_name : string) (skip : bool)
    (w w' : World) (model : nat) :
  cache_at (_creat_cache self) w !! message_key_of descriptor class_name skip = None ->
  _parse_msg_to_pydantic_model fuel env self descriptor class_name skip w
    = (Ok model, w') ->
  length (heap w) <= model < length (heap w')
  /\ exists c, heap w' !! model = Some c /\ created_by self descriptor class_name c.
Proof. exact (parse_fresh_key fuel env self descriptor class_name skip w w' model). Qed.

(** After [clear_create_model_cache()] a message that was compiled with the
    module-level cache is compiled anew: the second compilation returns
    another class object than the first, and the first class is still in
    the store as it was created. *)
Theorem clear_cache_then_compile_builds_new_class (fuel fuel2 : nat) (env env2 : Env)
    (self self2 : M2P) (descriptor : Descriptor) (class_name : string) (skip : bool)
    (w w1 w2 w3 : World) (model model2 : nat) :
  _creat_cache self = global_cache ->
  _creat_cache self2 = global_cache ->
  cache_at global_cache w !! message_key_of descriptor class_name skip = None ->
  _parse_msg_to_pydantic_model fuel env self descriptor class_name skip w
    = (Ok model, w1) ->
  clear_create_model_cache w1 = (Ok tt, w2) ->
  _parse_msg_to_pydantic_model fuel2 env2 self2 descriptor class_name skip w2
    = (Ok model2, w3) ->
  model < model2
  /\ exists c c',
       heap w1 !! model = Some c /\ heap w3 !! model = Some c'
       /\ c_name c' = c_name c /\ c_body c' = c_body c.
Proof.
  intros Hloc Hloc2 Hc Hrun1 Hclear Hrun2.
  rewrite <- Hloc in Hc.
  destruct (parse_fresh_key fuel env self descriptor class_name skip w w1 model
              Hc Hrun1) as ([_ Hlt] & c & Hc1 & _).
  unfold clear_create_model_cache in Hclear. injection Hclear as <-.
  assert (Hc2 : cache_at (_creat_cache self2)
                  (MkWorld (<[global_cache := ∅]> (caches w1)) (heap w1))
                  !! message_key_of descriptor class_name skip = None).
  { rewrite Hloc2, cache_at_insert. apply lookup_empty. }
  destruct (parse_fresh_key fuel2 env2 self2 descriptor class_name skip _ w3 model2
              Hc2 Hrun2) as ([Hle _] & _).
  cbn [heap] in Hle. split; [lia |].
  destruct (heap_preserved env2 self2 (heap w1) fuel2 descriptor class_name skip
              _ _ _ (heap_extends_refl (MkWorld _ (heap w1))) Hrun2) as [_ Hkeep].
  destruct (Hkeep model c Hc1) as (c' & Hc' & Hn & Hb).
  exists c, c'. auto.
Qed.

(** *** The cache argument of an invocation *)

Lemma msg_to_pydantic_model_empty_cache (fuel : nat) (env : Env) (msg : Descriptor)
    (default_field : string) (method : ParseMethod)
    (message_field_dict : list (string * DescFromOption))
    (pydantic_base pydantic_module : option string)
    (type_dict : option (list (string * PyType)))
    (factory_dict : option (list (string * Factory)))
    (l : nat) (w : World) :
  cache_at l w = ∅ ->
  msg_to_pydantic_model fuel env msg default_field method message_field_dict
    pydantic_base pydantic_module type_dict factory_dict (Some l) w
  = msg_to_pydantic_model fuel env msg default_field method message_field_dict
      pydantic_base pydantic_module type_dict factory_dict None w.
Proof.
  intros He. unfold msg_to_pydantic_model, M2P_init, bind.
  destruct (decide (cache_at l w = ∅)) as [_ | Hne]; [reflexivity | contradiction].
Qed.

(** The dictionary passed as [create_model_cache] is used only when it is
    not empty. An empty dictionary is ignored: the invocation behaves as if
    the argument was omitted, the dictionary is still empty afterwards and
    the model is recorded in the module-level cache. A dictionary that is
    not empty is the only cache written: the model is recorded there and
    every other cache, the module-level one included, is as before. *)
Theorem cache_argument_is_used_only_when_not_empty (fuel : nat) (env : Env)
    (msg : Descriptor) (default_field : string) (method : ParseMethod)
    (message_field_dict : list (string * DescFromOption))
    (pydantic_base pydantic_module : option string)
    (type_dict : option (list (string * PyType)))
    (factory_dict : option (list (string * Factory)))
    (l : nat) (w w' : World) (r : result nat) :
  l <> global_cache ->
  msg_to_pydantic_model fuel env msg default_field method message_field_dict
    pydantic_base pydantic_module type_dict factory_dict (Some l) w = (r, w') ->
  (cache_at l w = ∅ ->
     msg_to_pydantic_model fuel env msg default_field method message_field_dict
       pydantic_base pydantic_module type_dict factory_dict None w = (r, w')
     /\ cache_at l w' = ∅
     /\ forall model, r = Ok model ->
          cache_at global_cache w' !! (d_full_name msg, d_name msg, false)
          = Some (Some model))
  /\ (cache_at l w <> ∅ ->
        (forall l', l' <> l -> cache_at l' w' = cache_at l' w)
        /\ forall model, r = Ok model ->
             cache_at l w' !! (d_full_name msg, d_name msg, false)
             = Some (Some model)).
Proof.
  intros Hl Hrun.
  destruct (msg_to_pydantic_model_unfold fuel env msg default_field method
              message_field_dict pydantic_base pydantic_module type_dict factory_dict
              (Some l) w) as (self & Hloc & Heq).
  rewrite Heq in Hrun.
  assert (Hrec : forall model, r = Ok model ->
            cache_at (_creat_cache self) w' !! (d_full_name msg, d_name msg, false)
            = Some (Some model)).
  { intros model ->. destruct fuel as [| n]; [discriminate Hrun |].
    simpl in Hrun. apply parse_body_records in Hrun. exact Hrun. }
  split.
  - intros He. rewrite decide_True in Hloc by exact He.
    split; [| split].
    + rewrite <- (msg_to_pydantic_model_empty_cache fuel env msg default_field method
                    message_field_dict pydantic_base pydantic_module type_dict
                    factory_dict l w He).
      rewrite Heq. exact Hrun.
    + rewrite <- He.
      refine (other_cache_preserved env self l (cache_at l w) fuel msg "" false
                _ w r w' eq_refl Hrun).
      congruence.
    + rewrite <- Hloc. exact Hrec.
  - intros Hne. rewrite decide_False in Hloc by exact Hne.
    split.
    + intros l' Hl'.
      refine (other_cache_preserved env self l' (cache_at l' w) fuel msg "" false
                _ w r w' eq_refl Hrun).
      congruence.
    + rewrite <- Hloc. exact Hrec.
Qed.

(** *** Looking up the metadata of a field *)

Fixpoint has_dot (s : string) : bool :=
  match s with
  | EmptyString => false
  | String c s' => Ascii.eqb c "."%char || has_dot s'
  end.

Lemma string_app_nil_r (s : string) : s ++ "" = s.
Proof.
  induction s as [| c s IH]; [reflexivity |].
  change (String c (s ++ "") = String c s). rewrite IH. reflexivity.
Qed.

Lemma split_dot_aux_app (p r acc : string) :
  has_dot p = false ->
  split_dot_aux acc (p ++ "." ++ r) = (acc ++ p) :: split_dot_aux "" r.
Proof.
  revert acc. induction p as [| c p IH]; intros acc Hp.
  - rewrite string_app_nil_r. reflexivity.
  - simpl in Hp. apply orb_false_iff in Hp as [Hc Hp].
    change (split_dot_aux acc (String c (p ++ "." ++ r))
            = (acc ++ String c p) :: split_dot_aux "" r).
    simpl. rewrite Hc. rewrite (IH _ Hp), string_app_assoc. reflexivity.
Qed.

Lemma split_dot_aux_no_dot (p acc : string) :
  has_dot p = false -> split_dot_aux acc p = [acc ++ p].
Proof.
  revert acc. induction p as [| c p IH]; intros acc Hp.
  - rewrite string_app_nil_r. reflexivity.
  - simpl in Hp. apply orb_false_iff in Hp as [Hc Hp].
    simpl. rewrite Hc. rewrite (IH _ Hp), string_app_assoc. reflexivity.
Qed.

Lemma split_dot_aux_length (s acc : string) : 1 <= length (split_dot_aux acc s).
Proof.
  revert acc. induction s as [| c s IH]; intros acc; simpl; [lia |].
  destruct (Ascii.eqb c "."); [simpl; lia | apply IH].
Qed.

(** The lookup that follows the split of the full name: the message's
    entry, unless its metadata sets [ignore], then the walk along the
    remaining components. *)
Definition field_info_of (self : M2P) (message_name : string) (key_list : list string)
    : result (option ParamDict) :=
  match dict_get message_name (_field_doc_dict self) with
  | None => Ok None
  | Some desc_dict =>
      if flag "ignore" (dfo_metadata desc_dict) then Ok None
      else Ok (field_info_walk desc_dict key_list)
  end.

(** In a full name of three components or more the first component is
    dropped, whatever it is, and the second is taken for the message name:
    the result does not depend on the package. A full name of two
    components is looked up whole, so [Msg.field] and [pkg.Msg.field] find
    the same metadata. *)
Theorem field_metadata_lookup_drops_the_first_component (self : M2P)
    (first message rest : string) :
  has_dot first = false ->
  has_dot message = false ->
  _get_field_info_dict_by_full_name self (first ++ "." ++ message ++ "." ++ rest)
    = field_info_of self message (split_dot rest)
  /\ (has_dot rest = false ->
      _get_field_info_dict_by_full_name self (message ++ "." ++ rest)
      = field_info_of self message (split_dot rest)).
Proof.
  intros Hf Hm. unfold _get_field_info_dict_by_full_name, field_info_of, split_dot.
  split.
  - rewrite (split_dot_aux_app first _ "" Hf). change ("" ++ first) with first.
    rewrite (split_dot_aux_app message rest "" Hm). change ("" ++ message) with message.
    pose proof (split_dot_aux_length rest "") as Hlen.
    replace (length (first :: message :: split_dot_aux "" rest) =? 2)%nat with false
      by (symmetry; apply Nat.eqb_neq; simpl; lia).
    reflexivity.
  - intros Hr.
    rewrite (split_dot_aux_app message rest "" Hm). change ("" ++ message) with message.
    rewrite (split_dot_aux_no_dot rest "" Hr). reflexivity.
Qed.

(** *** Oneof groups that are no proto3-optional markers *)

Lemma fold_left_keep_in {A B} (step : A -> B -> A) (P : A -> Prop) (l : list B) :
  (forall acc y, In y l -> P acc -> P (step acc y)) ->
  forall acc, P acc -> P (fold_left step l acc).
Proof.
  induction l as [| y l IH]; intros Hkeep acc Hacc; simpl; [exact Hacc |].
  apply IH; [intros acc' y' Hin; apply Hkeep; right; exact Hin |].
  apply Hkeep; [left; reflexivity | exact Hacc].
Qed.

Lemma str_in_set_add_inv (x y : string) (l : list string) :
  str_in x (set_add y l) = true -> str_in x l = true \/ x = y.
Proof.
  unfold set_add. destruct (str_in y l); [auto |].
  intros H. apply str_in_In in H. apply in_app_or in H as [H | [<- | []]].
  - left. apply str_in_In, H.
  - right. reflexivity.
Qed.

(** [set.add] in a loop: what was in the set stays, and every added name
    is in it. *)
Lemma set_add_fold_members (l s : list string) :
  (forall n, str_in n s = true ->
             str_in n (fold_left (fun s n => set_add n s) l s) = true)
  /\ (forall n, In n l -> str_in n (fold_left (fun s n => set_add n s) l s) = true).
Proof.
  revert s. induction l as [| a l IH]; intros s; simpl.
  - split; [auto | intros n []].
  - destruct (IH (set_add a s)) as [Hk Hi]. split.
    + intros n Hn. apply Hk, str_in_set_add. left. exact Hn.
    + intros n [<- | Hin].
      * apply Hk, str_in_set_add. right. reflexivity.
      * apply Hi, Hin.
Qed.

(** The groups of [optional_id_set] are the containing oneofs of the
    fields named like them. *)
Lemma optional_id_set_marker (descriptor : Descriptor) (x : string) :
  str_in x (snd (fold_left one_of_optional_step (d_fields descriptor) ([], []))) = true ->
  exists f o, In f (d_fields descriptor) /\ f_containing_oneof f = Some o
              /\ "_" ++ f_name f = o_name o /\ o_full_name o = x.
Proof.
  apply (fold_left_keep_in one_of_optional_step
           (fun acc => str_in x (snd acc) = true ->
                       exists f o, In f (d_fields descriptor)
                                   /\ f_containing_oneof f = Some o
                                   /\ "_" ++ f_name f = o_name o /\ o_full_name o = x)).
  - intros [od ids] y Hin IH. unfold one_of_optional_step.
    destruct (f_containing_oneof y) as [o |] eqn:Ho; [| exact IH].
    destruct (String.eqb_spec ("_" ++ f_name y) (o_name o)) as [Hm | Hm]; [| exact IH].
    simpl. intros Hx. apply str_in_set_add_inv in Hx as [Hx | ->].
    + apply IH, Hx.
    + exists y, o. auto.
  - simpl. discriminate.
Qed.

Section OrdinaryOneof.

Variable one_of_desc_dict : list (string * OneOfDoc).
Variable descriptor : Descriptor.
Variable optional_id_set : list string.
Variable one_of : OneofDescriptor.
Hypothesis not_optional : str_in (o_full_name one_of) optional_id_set = false.

(** The entry of [one_of] is there and lists its members. *)
Definition recorded (acc : list (string * UseOneOf) * list (string * list (string * bool)))
    : Prop :=
  exists e, dict_get (o_full_name one_of) (fst acc) = Some e
            /\ forall n, In n (o_fields one_of) -> str_in n (fields e) = true.

(** Without oneof metadata no entry is required. *)
Definition none_required
    (acc : list (string * UseOneOf) * list (string * list (string * bool))) : Prop :=
  one_of_desc_dict = [] ->
  forall k e, dict_get k (fst acc) = Some e -> required e = false.

Lemma one_of_found_step_recorded (column_name found : string) acc :
  recorded acc ->
  recorded (one_of_found_step one_of_desc_dict descriptor column_name acc found).
Proof.
  intros (e & He & Hm). destruct acc as [od opt]. simpl in He.
  unfold one_of_found_step.
  destruct (dict_get found one_of_desc_dict) as [doc |]; [| exists e; auto].
  unfold recorded. simpl.
  destruct (String.eqb_spec column_name (o_full_name one_of)) as [-> | Hne].
  - rewrite dict_get_set_eq, He. eexists. split; [reflexivity |]. exact Hm.
  - rewrite dict_get_set_ne by exact Hne. exists e. auto.
Qed.

Lemma one_of_found_step_none_required (column_name found : string) acc :
  none_required acc ->
  none_required (one_of_found_step one_of_desc_dict descriptor column_name acc found).
Proof.
  intros Hacc Hnil. destruct acc as [od opt]. unfold one_of_found_step.
  rewrite Hnil. simpl. exact (Hacc Hnil).
Qed.

Lemma one_of_step_establishes acc :
  recorded (one_of_step one_of_desc_dict descriptor optional_id_set acc one_of).
Proof.
  unfold one_of_step. rewrite not_optional. destruct acc as [od opt].
  destruct (fold_left _ _ _) as [od2 opt2]. unfold recorded. simpl.
  rewrite dict_get_set_eq. eexists. split; [reflexivity |]. simpl.
  intros n Hn. apply (proj2 (set_add_fold_members _ _)), Hn.
Qed.

Lemma one_of_step_recorded acc (one_of' : OneofDescriptor) :
  recorded acc ->
  recorded (one_of_step one_of_desc_dict descriptor optional_id_set acc one_of').
Proof.
  intros Hacc. unfold one_of_step.
  destruct (str_in (o_full_name one_of') optional_id_set); [exact Hacc |].
  destruct acc as [od opt].
  set (od1 := match dict_get (o_full_name one_of') od with
              | Some _ => od
              | None => dict_set (o_full_name one_of') (MkUseOneOf false []) od
              end).
  assert (H1 : recorded (od1, opt)).
  { destruct Hacc as (e & He & Hm). simpl in He. unfold recorded, od1. simpl.
    destruct (dict_get (o_full_name one_of') od) eqn:E; [exists e; auto |].
    destruct (String.eqb_spec (o_full_name one_of') (o_full_name one_of)) as [Heq | Hne].
    - rewrite Heq in E. congruence.
    - rewrite dict_get_set_ne by exact Hne. exists e. auto. }
  pose proof (fold_left_keep
                (one_of_found_step one_of_desc_dict descriptor (o_full_name one_of'))
                recorded
                [o_full_name one_of'; join_dot (tl (split_dot (o_full_name one_of')))]
                (fun acc0 y Hy => one_of_found_step_recorded (o_full_name one_of') y acc0 Hy)
                (od1, opt) H1) as H2.
  destruct (fold_left _ _ (od1, opt)) as [od2 opt2].
  destruct H2 as (e & He & Hm). simpl in He. unfold recorded. simpl.
  destruct (String.eqb_spec (o_full_name one_of') (o_full_name one_of)) as [Heq | Hne].
  - rewrite Heq, dict_get_set_eq, He. eexists. split; [reflexivity |]. simpl.
    intros n Hn. apply (proj1 (set_add_fold_members _ _)). apply Hm, Hn.
  - rewrite dict_get_set_ne by exact Hne. exists e. auto.
Qed.

Lemma one_of_step_none_required acc (one_of' : OneofDescriptor) :
  none_required acc ->
  none_required (one_of_step one_of_desc_dict descriptor optional_id_set acc one_of').
Proof.
  intros Hacc. unfold one_of_step.
  destruct (str_in (o_full_name one_of') optional_id_set); [exact Hacc |].
  destruct acc as [od opt].
  set (od1 := match dict_get (o_full_name one_of') od with
              | Some _ => od
              | None => dict_set (o_full_name one_of') (MkUseOneOf false []) od
              end).
  assert (H1 : none_required (od1, opt)).
  { intros Hnil k e. unfold od1. simpl.
    destruct (dict_get (o_full_name one_of') od) eqn:E; [apply (Hacc Hnil) |].
    destruct (String.eqb_spec (o_full_name one_of') k) as [<- | Hne].
    - rewrite dict_get_set_eq. intros H. injection H as <-. reflexivity.
    - rewrite dict_get_set_ne by exact Hne. apply (Hacc Hnil). }
  pose proof (fold_left_keep
                (one_of_found_step one_of_desc_dict descriptor (o_full_name one_of'))
                none_required
                [o_full_name one_of'; join_dot (tl (split_dot (o_full_name one_of')))]
                (fun acc0 y Hy =>
                   one_of_found_step_none_required (o_full_name one_of') y acc0 Hy)
                (od1, opt) H1) as H2.
  destruct (fold_left _ _ (od1, opt)) as [od2 opt2].
  intros Hnil k e. simpl.
  destruct (String.eqb_spec (o_full_name one_of') k) as [<- | Hne].
  - rewrite dict_get_set_eq. intros H. injection H as <-. simpl.
    destruct (dict_get (o_full_name one_of') od2) as [e2 |] eqn:E2; [| reflexivity].
    apply (H2 Hnil (o_full_name one_of') e2). exact E2.
  - rewrite dict_get_set_ne by exact Hne. apply (H2 Hnil).
Qed.

End OrdinaryOneof.

(** A oneof of the message that is not the synthetic group of a proto3
    optional field has an entry in the oneof dictionary under its full
    name, and the entry lists the names of all its member fields; when the
    message has no metadata the entry is not required. *)
Theorem ordinary_oneof_is_recorded (self : M2P) (descriptor : Descriptor)
    (one_of : OneofDescriptor) :
  In one_of (d_oneofs descriptor) ->
  (forall f o, In f (d_fields descriptor) -> f_containing_oneof f = Some o ->
     "_" ++ f_name f = o_name o -> o_full_name o <> o_full_name one_of) ->
  exists entry,
    dict_get (o_full_name one_of) (fst (_one_of_handle self descriptor)) = Some entry
    /\ (forall n, In n (o_fields one_of) -> str_in n (fields entry) = true)
    /\ (dict_get (d_name descriptor) (_field_doc_dict self) = None ->
        required entry = false).
Proof.
  intros Hin Hmarker. unfold _one_of_handle.
  pose proof (optional_id_set_marker descriptor (o_full_name one_of)) as Hids.
  destruct (fold_left one_of_optional_step (d_fields descriptor) ([], []))
    as [optional_dict ids].
  simpl in Hids.
  assert (Hnot : str_in (o_full_name one_of) ids = false).
  { destruct (str_in (o_full_name one_of) ids); [| reflexivity].
    destruct (Hids eq_refl) as (f & o & Hf & Ho & Hm & Heq).
    destruct (Hmarker f o Hf Ho Hm Heq). }
  match goal with
  | |- context [fold_left (one_of_step ?ood descriptor ids) ?l ?a] =>
      pose proof (fold_left_establish (one_of_step ood descriptor ids)
                    (recorded one_of) l one_of Hin
                    (one_of_step_establishes ood descriptor ids one_of Hnot)
                    (fun acc y Hy => one_of_step_recorded ood descriptor ids one_of
                                       acc y Hy) a) as Hrec;
      pose proof (fold_left_keep (one_of_step ood descriptor ids)
                    (none_required ood) l
                    (fun acc y Hy => one_of_step_none_required ood descriptor ids
                                       acc y Hy) a) as Hreq;
      destruct (fold_left (one_of_step ood descriptor ids) l a) as [one_of_dict od']
  end.
  destruct Hrec as (e & He & Hm). simpl in He. exists e. simpl.
  split; [exact He |]. split; [exact Hm |].
  intros Hnone. rewrite Hnone in Hreq. simpl in Hreq.
  apply (Hreq (fun _ _ _ H => ltac:(discriminate H)) eq_refl (o_full_name one_of) e He).
Qed.

(** *** Map entries and enums *)

(** The loop over the fields of an entry type when they are all scalars:
    the list of their Python types, in order. *)
Lemma map_entry_types_scalar (env : Env) (parse : Descriptor -> string -> bool -> M nat)
    (self : M2P) (fields : list FieldDescriptor) (types : list PyType) :
  Forall2 (fun f t => f_message_type f = None
                      /\ protobuf_desc_python_type_dict env (f_type f) = Some t)
    fields types ->
  forall (acc : list PyType) (w : World),
    for_each fields acc
      (fun l k_v_field =>
         do k_v_type <- map_entry_field_type env parse self k_v_field;
         ret (l ++ [k_v_type])%list) w
    = (Ok (acc ++ types)%list, w).
Proof.
  induction 1 as [| f t fields types [Hm Ht] _ IH]; intros acc w; simpl.
  - rewrite app_nil_r. reflexivity.
  - unfold bind at 1. unfold bind at 1. unfold map_entry_field_type.
    rewrite Hm, Ht. unfold ret at 1. unfold ret at 1.
    rewrite IH, <- app_assoc. reflexivity.
Qed.

(** A message field whose type is named [...Entry] (and is no well-known
    type) is read as a map entry, whatever the message is: when the fields
    of that type are scalars, the field becomes a [Dict] of their Python
    types with the factory [dict] if there are exactly two of them, and the
    handler raises [TypeError] otherwise. The handler for repeated fields
    leaves the resulting field as it is: a map is not wrapped in [List]. *)
Theorem entry_named_type_is_read_as_a_map (env : Env)
    (parse : Descriptor -> string -> bool -> M nat) (self : M2P)
    (fd : FieldDataClass) (mt : Descriptor) (types : list PyType) (w : World) :
  message_type env (protobuf_field fd) = Some mt ->
  dict_get (d_name mt) (_message_type_dict_by_type_name self) = None ->
  endswith (d_name mt) "Entry" = true ->
  Forall2 (fun f t => f_message_type f = None
                      /\ protobuf_desc_python_type_dict env (f_type f) = Some t)
    (d_fields mt) types ->
  let fd' :=
    with_field_default_factory (Some FactoryDict)
      (with_field_type (TDict types) (with_field_type_name (Some "map") fd)) in
  (length types = 2 ->
   _protobuf_field_type_is_type_message_handler env parse self fd w = (Ok fd', w)
   /\ _protobuf_field_lable_is_label_repeated_handler env fd' = fd')
  /\ (length types <> 2 ->
      _protobuf_field_type_is_type_message_handler env parse self fd w
      = (Raise TypeError, w)).
Proof.
  intros Hty Hwk Hent Hfields fd'.
  assert (Hrun : _protobuf_field_type_is_type_message_handler env parse self fd w
                 = (do t <- lift (typing_Dict types);
                    ret (with_field_default_factory (Some FactoryDict)
                           (with_field_type t (with_field_type_name (Some "map") fd)))) w).
  { unfold _protobuf_field_type_is_type_message_handler, message_type_or_raise.
    rewrite Hty. unfold bind at 1. unfold ret at 1. rewrite Hwk, Hent.
    unfold bind at 1.
    rewrite (map_entry_types_scalar env parse self (d_fields mt) types Hfields [] w).
    reflexivity. }
  rewrite Hrun. unfold bind, lift, typing_Dict, ret. split.
  - intros Hlen. rewrite Hlen. simpl. split; [reflexivity |].
    unfold _protobuf_field_lable_is_label_repeated_handler.
    unfold fd'. simpl protobuf_field. rewrite Hty, Hent. reflexivity.
  - intros Hlen. apply Nat.eqb_neq in Hlen. rewrite Hlen. reflexivity.
Qed.

(** An enum that is not registered among the nested types of the enclosing
    message gets a new [IntEnum] class at every field that uses it: two
    fields handled one after the other, be they of the same enum type, get
    two different class objects. A registered (nested) enum is not created
    again: the field gets the registered class, which is flagged as used.
    The default of an enum field is [0] in both cases. *)
Theorem enum_field_classes (env : Env) (fd1 fd2 : FieldDataClass)
    (e1 e2 : EnumDescriptor) (w : World) :
  f_enum_type (protobuf_field fd1) = Some e1 ->
  f_enum_type (protobuf_field fd2) = Some e2 ->
  dict_get (e_full_name e1) (nested_message_dict fd1) = None ->
  (dict_get (e_full_name e2) (nested_message_dict fd2) = None ->
   exists fd1' fd2' w1 w2,
     _protobuf_field_type_is_type_enum_handler env fd1 w = (Ok fd1', w1)
     /\ _protobuf_field_type_is_type_enum_handler env fd2 w1 = (Ok fd2', w2)
     /\ field_type fd1' = TClass (length (heap w))
     /\ field_type fd2' = TClass (S (length (heap w)))
     /\ field_type fd1' <> field_type fd2'
     /\ field_default fd1' = PyInt 0 /\ field_default fd2' = PyInt 0)
  /\ (forall ref c,
        dict_get (e_full_name e2) (nested_message_dict fd2) = Some (TClass ref) ->
        heap w !! ref = Some c ->
        exists fd2' w2,
          _protobuf_field_type_is_type_enum_handler env fd2 w = (Ok fd2', w2)
          /\ field_type fd2' = TClass ref
          /\ field_default fd2' = PyInt 0
          /\ length (heap w2) = length (heap w)
          /\ heap w2 !! ref = Some (set_is_use true c)).
Proof.
  intros H1 H2 N1. split.
  - intros N2. unfold _protobuf_field_type_is_type_enum_handler. simpl.
    rewrite H1, H2, N1, N2. unfold new_int_enum, new_class, bind, ret. simpl.
    do 4 eexists. split; [reflexivity |]. split; [reflexivity |]. simpl.
    rewrite length_app. simpl. rewrite Nat.add_1_r.
    repeat split; try reflexivity. intros Heq. injection Heq as Heq. lia.
  - intros ref c N2 Hc. unfold _protobuf_field_type_is_type_enum_handler. simpl.
    rewrite H2, N2. unfold bind, setattr_class, ret. simpl.
    do 2 eexists. split; [reflexivity |]. simpl.
    rewrite length_alter, list_lookup_alter_eq, Hc. repeat split; reflexivity.
Qed.

(** *** Scalar fields *)

(** A scalar field without metadata that is not proto3 optional: the loop
    enters it in [annotation_dict] under its name, with the Python type of
    its protobuf type and a [FieldInfo] whose default is the protobuf
    default of the field. When the field is repeated the type is wrapped in
    [List], the default is dropped and the factory is [list]. Nothing else
    changes: no class is created and no cache is touched. *)
Theorem scalar_field_is_emitted_with_its_default (env : Env)
    (parse : Descriptor -> string -> bool -> M nat) (self : M2P)
    (descriptor : Descriptor) (skip : bool)
    (optional_dict : list (string * list (string * bool)))
    (vars : Locals) (f : FieldDescriptor) (T : PyType) (w : World) :
  is_v1 env = true ->
  _get_field_info_dict_by_full_name self (f_full_name f) = Ok None ->
  f_type f <> TYPE_MESSAGE ->
  f_type f <> TYPE_ENUM ->
  f_message_type f = None ->
  protobuf_desc_python_type_dict env (f_type f) = Some T ->
  is_proto3_optional optional_dict (f_full_name f) = false ->
  let repeated := match f_label f with LABEL_REPEATED => true | _ => false end in
  exists vars',
    parse_field env parse self descriptor skip optional_dict vars f w = (Ok vars', w)
    /\ annotation_dict vars'
       = dict_set (f_name f)
           (if repeated then TList T else T,
            MkFieldInfo (_default_field self)
              [ ("default",
                 PVDefault (if repeated then PydanticUndefined else f_default_value f));
                ("default_factory",
                 PVFactory (if repeated then Some FactoryList else None)) ])
           (annotation_dict vars)
    /\ l_validators vars' = l_validators vars
    /\ l_nested_message_dict vars' = l_nested_message_dict vars.
Proof.
  intros Hv1 Hdoc Hnm Hne Hmt HT Hopt repeated. unfold parse_field. rewrite HT.
  set (fd0 := MkFieldDataClass (f_name f) T _ PydanticUndefined None f
                (l_nested_message_dict vars) descriptor (l_validators vars)).
  assert (Hstep1 :
            (match f_type f with
             | TYPE_MESSAGE =>
                 _protobuf_field_type_is_type_message_handler env parse self fd0
             | TYPE_ENUM => _protobuf_field_type_is_type_enum_handler env fd0
             | _ => ret (with_field_default (f_default_value f) fd0)
             end) w = (Ok (with_field_default (f_default_value f) fd0), w)).
  { destruct (f_type f); try reflexivity; congruence. }
  rewrite (bind_eq _ _ _ _ _ Hstep1).
  set (fd1 := with_field_default (f_default_value f) fd0).
  set (fd2 := match f_label f with
              | LABEL_REPEATED => _protobuf_field_lable_is_label_repeated_handler env fd1
              | _ => fd1
              end).
  assert (H2 : protobuf_field fd2 = f
               /\ field_name fd2 = f_name f
               /\ validators fd2 = l_validators vars
               /\ nested_message_dict fd2 = l_nested_message_dict vars
               /\ field_type fd2 = (if repeated then TList T else T)
               /\ field_default fd2
                  = (if repeated then PydanticUndefined else f_default_value f)
               /\ field_default_factory fd2
                  = (if repeated then Some FactoryList else None)).
  { unfold fd2, repeated. destruct (f_label f); try (repeat split; reflexivity).
    unfold _protobuf_field_lable_is_label_repeated_handler, message_type.
    simpl protobuf_field. rewrite Hmt. simpl.
    destruct (is_undefined (f_default_value f)) eqn:Hu; simpl; repeat split.
    destruct (f_default_value f); try discriminate Hu. reflexivity. }
  destruct H2 as (Hpf & Hname & Hval & Hnest & Hty & Hdef & Hfac).
  assert (Hgen := gen_field_info_no_metadata env self fd2 skip Hv1).
  rewrite Hpf in Hgen. specialize (Hgen Hdoc).
  unfold bind at 1. unfold lift at 1. rewrite Hgen.
  cbv beta iota zeta. rewrite Hopt.
  eexists. split; [reflexivity |]. simpl.
  rewrite Hname, Hty, Hdef, Hfac, Hval, Hnest. repeat split.
Qed.

(** *** The generation record of a model *)

(** [CodeRefModel.from_model(model)]: the [_code_ref] attribute of the
    class, or [ValueError] when it was never set (a string annotation or a
    builtin type has no such attribute). *)
Definition from_model (w : World) (model : PyType) : result CodeRefModel :=
  match model with
  | TClass ref =>
      match heap w !! ref with
      | Some c =>
          match c_code_ref c with
          | Some code_ref_model => Ok code_ref_model
          | None => Raise ValueError
          end
      | None => Raise ValueError
      end
  | _ => Raise ValueError
  end.

(** [CodeRefModel.from_model] finds the record that the compiler set with
    [CodeRefModel.set_to_model]: on the class a call on a fresh key
    returned, it returns a record that holds the oneof dictionary of the
    message and the invocation's base class. On an [IntEnum] class as the
    compiler creates it, it raises [ValueError]. *)
Theorem from_model_finds_the_record (fuel : nat) (env : Env) (self : M2P)
    (descriptor : Descriptor) (class_name : string) (skip : bool)
    (w w' : World) (model : nat) :
  cache_at (_creat_cache self) w !! message_key_of descriptor class_name skip = None ->
  _parse_msg_to_pydantic_model fuel env self descriptor class_name skip w
    = (Ok model, w') ->
  (exists code_ref,
     from_model w' (TClass model) = Ok code_ref
     /\ cr_one_of_dict code_ref = fst (_one_of_handle self descriptor)
     /\ cr_base_model code_ref = _pydantic_base self)
  /\ forall name members doc,
       from_model (snd (new_int_enum name members doc w'))
         (TClass (length (heap w'))) = Raise ValueError.
Proof.
  intros Hc Hrun. split.
  - destruct (parse_fresh_key fuel env self descriptor class_name skip w w' model
                Hc Hrun) as (_ & c & Hheap & _ & _ & _ & code_ref & Href & H1 & H2).
    exists code_ref. unfold from_model. rewrite Hheap, Href. auto.
  - intros name members doc. unfold from_model, new_int_enum, new_class. simpl.
    rewrite lookup_app_r by lia. rewrite Nat.sub_diag. reflexivity.
Qed.

(** *** A concrete schema *)

Definition scalar_field (name full_name : string) (t : FieldType) (default : PyDefault)
    : FieldDescriptor :=
  MkFieldDescriptor name full_name t LABEL_OPTIONAL None None None default.

Definition message_field (name full_name type_full_name : string)
    (containing_oneof : option OneofDescriptor) : FieldDescriptor :=
  MkFieldDescriptor name full_name TYPE_MESSAGE LABEL_OPTIONAL (Some type_full_name)
    None containing_oneof PydanticUndefined.

(** [message Node { int32 value = 1; Node next = 2; }] *)
Definition Node : Descriptor :=
  MkDescriptor "Node" "pkg.Node" "pkg/demo.proto"
    [ scalar_field "value" "pkg.Node.value" TYPE_INT32 (PyInt 0);
      message_field "next" "pkg.Node.next" "pkg.Node" None ]
    [] [] [].

(** [message LogEntry { string text = 1; LogEntry next = 2; }] *)
Definition LogEntry : Descriptor :=
  MkDescriptor "LogEntry" "pkg.LogEntry" "pkg/demo.proto"
    [ scalar_field "text" "pkg.LogEntry.text" TYPE_STRING (PyStr "");
      message_field "next" "pkg.LogEntry.next" "pkg.LogEntry" None ]
    [] [] [].

(** [message Inner { int32 x = 1; }] *)
Definition Inner : Descriptor :=
  MkDescriptor "Inner" "pkg.Inner" "pkg/demo.proto"
    [ scalar_field "x" "pkg.Inner.x" TYPE_INT32 (PyInt 0) ] [] [] [].

(** [message Holder { optional Inner inner = 1; }]: protobuf represents the
    proto3 [optional] by the synthetic oneof [_inner]. *)
Definition Holder_oneof : OneofDescriptor :=
  MkOneofDescriptor "_inner" "pkg.Holder._inner" ["inner"].
Definition Holder : Descriptor :=
  MkDescriptor "Holder" "pkg.Holder" "pkg/demo.proto"
    [ message_field "inner" "pkg.Holder.inner" "pkg.Inner" (Some Holder_oneof) ]
    [] [] [Holder_oneof].

(** [message Doc { string json = 1; }]: pydantic refuses a field called
    [json], which shadows an attribute of [BaseModel]. *)
Definition Doc : Descriptor :=
  MkDescriptor "Doc" "pkg.Doc" "pkg/demo.proto"
    [ scalar_field "json" "pkg.Doc.json" TYPE_STRING (PyStr "") ] [] [] [].

(** [message Ping { Pong pong = 1; }] and [message Pong { Ping ping = 1; }] *)
Definition Ping : Descriptor :=
  MkDescriptor "Ping" "pkg.Ping" "pkg/demo.proto"
    [ message_field "pong" "pkg.Ping.pong" "pkg.Pong" None ] [] [] [].
Definition Pong : Descriptor :=
  MkDescriptor "Pong" "pkg.Pong" "pkg/demo.proto"
    [ message_field "ping" "pkg.Pong.ping" "pkg.Ping" None ] [] [] [].

Definition demo_python_type (t : FieldType) : option PyType :=
  match t with
  | TYPE_DOUBLE | TYPE_FLOAT => Some (TBuiltin "float")
  | TYPE_BOOL => Some (TBuiltin "bool")
  | TYPE_STRING => Some (TBuiltin "str")
  | TYPE_BYTES => Some (TBuiltin "bytes")
  | TYPE_GROUP | TYPE_MESSAGE | TYPE_ENUM => None
  | _ => Some (TBuiltin "int")
  end.

Definition demo_common_type (t : FieldType) : option string :=
  match t with
  | TYPE_DOUBLE | TYPE_FLOAT => Some "float"
  | TYPE_BOOL => Some "bool"
  | TYPE_STRING => Some "string"
  | TYPE_BYTES => Some "bytes"
  | TYPE_GROUP | TYPE_MESSAGE | TYPE_ENUM => None
  | _ => Some "integer"
  end.

Definition shadows_BaseModel (name : string) : bool :=
  str_in name ["json"; "copy"; "dict"; "schema"].

Definition demo_create_model_error (class_name : string)
    (annotation_dict : list (string * (PyType * FieldInfo)))
    (pydantic_validators : option (list (string * string)))
    (pydantic_module : string) (pydantic_base : PydanticBase) : option string :=
  if existsb (fun kv => shadows_BaseModel (fst kv)) annotation_dict
  then Some "Field name shadows a BaseModel attribute"
  else None.

(** The schema above with a given behaviour of pydantic's [create_model]. *)
Definition demo_env_with
    (create_error :
       string -> list (string * (PyType * FieldInfo)) ->
       option (list (string * string)) -> string -> PydanticBase -> option string)
    : Env :=
  MkEnv
    {[ "pkg.Node" := Node; "pkg.LogEntry" := LogEntry; "pkg.Inner" := Inner;
       "pkg.Holder" := Holder; "pkg.Doc" := Doc; "pkg.Ping" := Ping;
       "pkg.Pong" := Pong ]}
    demo_python_type demo_common_type
    [ ("Timestamp", TBuiltin "datetime"); ("Duration", TBuiltin "Timedelta");
      ("Any", AnyMessage) ]
    [ ("Timestamp", FactoryOf (TBuiltin "datetime")) ]
    (fun file => file)
    true
    create_error
    (fun _ _ => false)
    (fun d => Ok d)
    (fun d _ _ _ => Ok d)
    (fun d => Ok d)
    (fun d _ _ _ => Ok d)
    (fun d => Ok d)
    (fun _ _ => Ok false).

Definition demo_env : Env := demo_env_with demo_create_model_error.

(** The same with a pydantic that accepts every class. *)
Definition accepting_env : Env := demo_env_with (fun _ _ _ _ _ => None).

(** A store with nothing in it: the module-level cache is empty. *)
Definition empty_world : World := MkWorld ∅ [].

(** Compiling with defaults: no metadata, the caller passes no dictionary. *)
Definition compile (fuel : nat) (msg : Descriptor) (create_model_cache : option nat)
    : M nat :=
  msg_to_pydantic_model fuel demo_env msg "FieldInfo" MethodOther []
    None None None None create_model_cache.

(** The [M2P] object of such an invocation. *)
Definition demo_self : M2P :=
  MkM2P MethodOther [] "FieldInfo" global_cache "BaseModel"
    "protobuf_to_pydantic.gen_model"
    (message_name_type_dict demo_env) (message_name_default_factory_dict demo_env).

(** The field record the loop builds for a message field of [descriptor]
    before it calls the message handler. *)
Definition message_field_dataclass (descriptor : Descriptor) (field : FieldDescriptor)
    : FieldDataClass :=
  MkFieldDataClass (f_name field) TNoneValue None PydanticUndefined None field []
    descriptor [].

(** The store while [descriptor] is being compiled: its mark is set. *)
Definition compiling (descriptor : Descriptor) : World :=
  snd (cache_store global_cache (message_key_of descriptor "" false) None empty_world).

Definition Node_next : FieldDescriptor :=
  message_field "next" "pkg.Node.next" "pkg.Node" None.
Definition LogEntry_next : FieldDescriptor :=
  message_field "next" "pkg.LogEntry.next" "pkg.LogEntry" None.
Definition Pong_ping : FieldDescriptor :=
  message_field "ping" "pkg.Pong.ping" "pkg.Ping" None.

(** *** The properties at concrete inputs *)

(** C1 as stated fails: compiling [Doc] fails in pydantic after the mark was
    set, the mark stays
    in the module-level cache, and compiling [Doc] again does not proceed. *)
Lemma failed_compile_keeps_sentinel :
  fst (compile 5 Doc None empty_world)
    = Raise (PydanticError "Field name shadows a BaseModel attribute")
  /\ cache_at global_cache (snd (compile 5 Doc None empty_world))
       !! ("pkg.Doc", "Doc", false) = Some None
  /\ compile 5 Doc None (snd (compile 5 Doc None empty_world))
     = (Raise WaitingToCompleteException, snd (compile 5 Doc None empty_world)).
Proof. vm_compute. repeat split; reflexivity. Qed.

Lemma failed_call_witness :
  cache_at global_cache
    (snd (_parse_msg_to_pydantic_model 5 demo_env demo_self Doc "" false empty_world))
    !! message_key_of Doc "" false = Some None
  /\ forall fuel' : nat,
       _parse_msg_to_pydantic_model (S fuel') demo_env demo_self Doc "" false
         (snd (_parse_msg_to_pydantic_model 5 demo_env demo_self Doc "" false
                 empty_world))
       = (Raise WaitingToCompleteException,
          snd (_parse_msg_to_pydantic_model 5 demo_env demo_self Doc "" false
                 empty_world)).
Proof.
  apply (failed_call_leaves_its_mark 4 demo_env demo_self Doc "" false empty_world
           _ (PydanticError "Field name shadows a BaseModel attribute")).
  - vm_compute. reflexivity.
  - vm_compute. reflexivity.
Defined.

(** C2 as stated fails: of two invocations that both omit the cache
    argument, the second finds the
    entry the first one made and returns the first one's class object. *)
Lemma omitted_cache_is_shared :
  fst (compile 5 Node None empty_world) = Ok 0
  /\ cache_at global_cache (snd (compile 5 Node None empty_world))
       !! ("pkg.Node", "Node", false) = Some (Some 0)
  /\ compile 5 Node None (snd (compile 5 Node None empty_world))
     = (Ok 0, snd (compile 5 Node None empty_world)).
Proof. vm_compute. repeat split; reflexivity. Qed.

Lemma omitted_cache_witness :
  cache_at global_cache (snd (compile 5 Node None empty_world))
    !! (d_full_name Node, d_name Node, false) = Some (Some 0)
  /\ compile 3 Node None (snd (compile 5 Node None empty_world))
     = (Ok 0, snd (compile 5 Node None empty_world)).
Proof.
  destruct (omitted_cache_is_the_module_level_cache 5 demo_env Node "FieldInfo"
              MethodOther [] None None None None empty_world
              (snd (compile 5 Node None empty_world)) 0) as [Hc Hagain].
  - vm_compute. reflexivity.
  - split; [exact Hc |].
    exact (Hagain 2 demo_env "FieldInfo" MethodOther [] None None None None).
Defined.

Lemma completed_key_witness :
  _parse_msg_to_pydantic_model 1 demo_env demo_self Node "" false
    (snd (compile 5 Node None empty_world))
  = (Ok 0, snd (compile 5 Node None empty_world)).
Proof.
  apply (completed_key_returns_cached_reference 0 demo_env demo_self Node "" false).
  vm_compute. reflexivity.
Defined.

Lemma Pong_ping_ordinary :
  ordinary_same_file_field demo_env demo_self (message_field_dataclass Pong Pong_ping)
    Ping false.
Proof. constructor; vm_compute; reflexivity. Qed.

(** While [Ping] is being compiled, the field [Pong.ping] meets the mark of
    [Ping]: the call raises, the handler keeps the string reference. *)
Lemma in_progress_key_witness :
  _parse_msg_to_pydantic_model 1 demo_env demo_self Ping "Ping" false (compiling Ping)
    = (Raise WaitingToCompleteException, compiling Ping)
  /\ _protobuf_field_type_is_type_message_handler demo_env
       (_parse_msg_to_pydantic_model 1 demo_env demo_self) demo_self
       (message_field_dataclass Pong Pong_ping) (compiling Ping)
     = (Ok (with_field_type (forward_reference "Ping")
              (message_field_dataclass Pong Pong_ping)), compiling Ping).
Proof.
  destruct (in_progress_key_raises_and_is_handled 0 demo_env demo_self Ping "Ping"
              false (compiling Ping)) as (_ & Hraise & Hhandled).
  - vm_compute. reflexivity.
  - split; [exact Hraise |].
    apply Hhandled.
    + exact Pong_ping_ordinary.
    + reflexivity.
    + reflexivity.
Defined.

Example mutual_reference_compiles :
  exists w, compile 5 Ping None empty_world = (Ok 1, w)
    /\ (c_body <$> heap w !! 0)
       = Some (ModelClass
                 [("ping", (forward_reference "Ping",
                            MkFieldInfo "FieldInfo"
                              [("default", PVDefault PydanticUndefined);
                               ("default_factory", PVFactory None)]))]
                 None "protobuf_to_pydantic.gen_model" (MkPydanticBase "BaseModel" [])).
Proof. eexists. split; vm_compute; reflexivity. Qed.

(** C5 as stated fails: [LogEntry.next] is a field of its enclosing
    message's file, its type is
    the enclosing message and it has no skip directive; the name ends in
    [Entry], so the handler reads it as a map entry, calls the model builder
    for the value type and meets the mark of [LogEntry]: no forward
    reference is returned and the message does not compile. *)
Lemma log_entry_self_reference_fails :
  d_file_name LogEntry = "pkg/demo.proto"
  /\ message_type demo_env LogEntry_next = Some LogEntry
  /\ skip_rule_of demo_self LogEntry_next = Ok false
  /\ _protobuf_field_type_is_type_message_handler demo_env
       (_parse_msg_to_pydantic_model 4 demo_env demo_self) demo_self
       (message_field_dataclass LogEntry LogEntry_next) (compiling LogEntry)
     = (Raise WaitingToCompleteException, compiling LogEntry)
  /\ fst (compile 5 LogEntry None empty_world) = Raise WaitingToCompleteException.
Proof. vm_compute. repeat split; reflexivity. Qed.

Lemma Node_next_ordinary :
  ordinary_same_file_field demo_env demo_self (message_field_dataclass Node Node_next)
    Node false.
Proof. constructor; vm_compute; reflexivity. Qed.

Lemma self_reference_witness :
  _protobuf_field_type_is_type_message_handler demo_env
    (fun _ _ _ => raise RecursionError) demo_self
    (message_field_dataclass Node Node_next) (compiling Node)
  = (Ok (with_field_type (forward_reference "Node")
           (message_field_dataclass Node Node_next)), compiling Node).
Proof.
  apply (self_reference_is_a_forward_reference demo_env demo_self
           (message_field_dataclass Node Node_next) Node).
  - exact Node_next_ordinary.
  - reflexivity.
Defined.

(** A self-referential message compiles with no nested call at all. *)
Example self_referential_message_compiles :
  fst (compile 1 Node None empty_world) = Ok 0.
Proof. vm_compute. reflexivity. Qed.

(** C6, at the input where the code departs from it. [Holder.inner] is a
    proto3 optional message field with no metadata. Its
    oneof [_inner] is in no oneof record and its type is wrapped in
    [Optional], but the [FieldInfo] entered for it was built before the loop
    set the field's default to [None]: its default is [PydanticUndefined]. *)
Lemma optional_message_field_default_stays_undefined :
  fst (compile 5 Holder None empty_world) = Ok 1
  /\ (c_one_of_dict <$> heap (snd (compile 5 Holder None empty_world)) !! 1)
     = Some (Some [])
  /\ (c_body <$> heap (snd (compile 5 Holder None empty_world)) !! 1)
     = Some (ModelClass
               [("inner", (TOptional (TClass 0),
                           MkFieldInfo "FieldInfo"
                             [("default", PVDefault PydanticUndefined);
                              ("default_factory", PVFactory None)]))]
               None "protobuf_to_pydantic.gen_model" (MkPydanticBase "BaseModel" [])).
Proof. vm_compute. repeat split; reflexivity. Qed.

Definition Holder_inner : FieldDescriptor :=
  message_field "inner" "pkg.Holder.inner" "pkg.Inner" (Some Holder_oneof).

Lemma proto3_optional_group_witness :
  dict_get "pkg.Holder._inner" (fst (_one_of_handle demo_self Holder)) = None
  /\ is_proto3_optional (snd (_one_of_handle demo_self Holder)) "pkg.Holder.inner"
     = true.
Proof.
  apply (proto3_optional_group_is_excluded demo_self Holder Holder_inner Holder_oneof).
  - left. reflexivity.
  - reflexivity.
  - reflexivity.
Defined.

Lemma optional_field_emission_witness :
  exists before,
    handled_field demo_env (_parse_msg_to_pydantic_model 3 demo_env demo_self)
      demo_self Holder (MkLocals [] [] [] []) Holder_inner (compiling Holder)
    = (Ok before,
       snd (parse_field demo_env
              (_parse_msg_to_pydantic_model 3 demo_env demo_self)
              demo_self Holder false (snd (_one_of_handle demo_self Holder))
              (MkLocals [] [] [] []) Holder_inner (compiling Holder)))
    /\ field_name before = "inner"
    /\ annotation_dict
         (match fst (parse_field demo_env
                       (_parse_msg_to_pydantic_model 3 demo_env demo_self)
                       demo_self Holder false (snd (_one_of_handle demo_self Holder))
                       (MkLocals [] [] [] []) Holder_inner (compiling Holder)) with
          | Ok vars' => vars'
          | Raise _ => MkLocals [] [] [] []
          end)
       = dict_set "inner"
           (TOptional (field_type before),
            MkFieldInfo (_default_field demo_self)
              [ ("default", PVDefault PydanticUndefined);
                ("default_factory", PVFactory (field_default_factory before)) ])
           [].
Proof.
  destruct (optional_field_is_emitted_as_optional demo_env
              (_parse_msg_to_pydantic_model 3 demo_env demo_self) demo_self Holder false
              (snd (_one_of_handle demo_self Holder)) (MkLocals [] [] [] [])
              (match fst (parse_field demo_env
                            (_parse_msg_to_pydantic_model 3 demo_env demo_self)
                            demo_self Holder false
                            (snd (_one_of_handle demo_self Holder))
                            (MkLocals [] [] [] []) Holder_inner (compiling Holder)) with
               | Ok vars' => vars'
               | Raise _ => MkLocals [] [] [] []
               end)
              Holder_inner (compiling Holder)
              (snd (parse_field demo_env
                      (_parse_msg_to_pydantic_model 3 demo_env demo_self)
                      demo_self Holder false (snd (_one_of_handle demo_self Holder))
                      (MkLocals [] [] [] []) Holder_inner (compiling Holder))))
    as (before & after & Hbefore & Hname & _ & _ & _ & _ & Hplain).
  - vm_compute. reflexivity.
  - vm_compute. reflexivity.
  - destruct Hplain as [_ Hann].
    + vm_compute. reflexivity.
    + vm_compute. reflexivity.
    + exists before. split; [exact Hbefore |]. split; [exact Hname |]. exact Hann.
Defined.

Lemma compile_twice_witness :
  _parse_msg_to_pydantic_model 1 demo_env demo_self Node "" false
    (snd (_parse_msg_to_pydantic_model 5 demo_env demo_self Node "" false empty_world))
  = (Ok 0,
     snd (_parse_msg_to_pydantic_model 5 demo_env demo_self Node "" false empty_world)).
Proof.
  apply (compile_twice_same_reference 5 0 demo_env demo_self Node "" false empty_world).
  vm_compute. reflexivity.
Defined.

Lemma Node_plain : plain_self_referential accepting_env demo_self Node.
Proof.
  constructor; try (vm_compute; reflexivity).
  repeat constructor; try (vm_compute; reflexivity); discriminate.
Qed.

Lemma self_referential_completion_witness :
  exists model w',
    _parse_msg_to_pydantic_model 1 accepting_env demo_self Node "" false empty_world
      = (Ok model, w')
    /\ cache_at global_cache w' !! message_key_of Node "" false = Some (Some model).
Proof.
  apply (self_referential_message_compiles_to_completion accepting_env demo_self Node
           empty_world).
  - exact Node_plain.
  - reflexivity.
  - reflexivity.
  - vm_compute. reflexivity.
Defined.

(** The store after [Ping] (and with it [Pong]) was compiled, and the
    compilation of [Node] from there. *)
Definition after_Ping : World :=
  snd (_parse_msg_to_pydantic_model 5 demo_env demo_self Ping "" false empty_world).

Definition Node_after_Ping : result nat * World :=
  _parse_msg_to_pydantic_model 5 demo_env demo_self Node "" false after_Ping.

Lemma only_adds_witness :
  (forall K v, cache_at global_cache after_Ping !! K = Some v ->
               cache_at global_cache (snd Node_after_Ping) !! K = Some v)
  /\ (forall l, l <> global_cache ->
                cache_at l (snd Node_after_Ping) = cache_at l after_Ping).
Proof.
  apply (compilation_only_adds_cache_entries 5 demo_env demo_self Node "" false
           after_Ping (snd Node_after_Ping) (fst Node_after_Ping)).
  apply surjective_pairing.
Defined.

Lemma keeps_classes_witness :
  length (heap after_Ping) <= length (heap (snd Node_after_Ping))
  /\ forall ref c, heap after_Ping !! ref = Some c ->
       exists c', heap (snd Node_after_Ping) !! ref = Some c'
                  /\ c_name c' = c_name c /\ c_body c' = c_body c.
Proof.
  apply (compilation_keeps_existing_classes 5 demo_env demo_self Node "" false
           after_Ping (snd Node_after_Ping) (fst Node_after_Ping)).
  apply surjective_pairing.
Defined.

Lemma fresh_key_witness :
  length (heap after_Ping) <= 2 < length (heap (snd Node_after_Ping))
  /\ exists c, heap (snd Node_after_Ping) !! 2 = Some c
               /\ created_by demo_self Node "" c.
Proof.
  apply (fresh_key_returns_new_class 5 demo_env demo_self Node "" false after_Ping).
  - vm_compute. reflexivity.
  - vm_compute. reflexivity.
Defined.

(** [Node] compiled, the module-level cache cleared, [Node] compiled again. *)
Definition after_Node : World :=
  snd (_parse_msg_to_pydantic_model 5 demo_env demo_self Node "" false empty_world).
Definition after_clear : World := snd (clear_create_model_cache after_Node).
Definition after_Node_again : World :=
  snd (_parse_msg_to_pydantic_model 5 demo_env demo_self Node "" false after_clear).

Lemma clear_cache_witness :
  0 < 1
  /\ exists c c',
       heap after_Node !! 0 = Some c /\ heap after_Node_again !! 0 = Some c'
       /\ c_name c' = c_name c /\ c_body c' = c_body c.
Proof.
  apply (clear_cache_then_compile_builds_new_class 5 5 demo_env demo_env
           demo_self demo_self Node "" false empty_world after_Node after_clear
           after_Node_again 0 1).
  - reflexivity.
  - reflexivity.
  - vm_compute. reflexivity.
  - vm_compute. reflexivity.
  - vm_compute. reflexivity.
  - vm_compute. reflexivity.
Defined.

(** An invocation that is handed the empty dictionary at location [1]. *)
Definition Node_with_empty_dict : result nat * World :=
  compile 5 Node (Some 1) empty_world.

Lemma cache_argument_witness :
  compile 5 Node None empty_world = Node_with_empty_dict
  /\ cache_at 1 (snd Node_with_empty_dict) = ∅
  /\ forall model, fst Node_with_empty_dict = Ok model ->
       cache_at global_cache (snd Node_with_empty_dict) !! ("pkg.Node", "Node", false)
       = Some (Some model).
Proof.
  destruct (cache_argument_is_used_only_when_not_empty 5 demo_env Node "FieldInfo"
              MethodOther [] None None None None 1 empty_world
              (snd Node_with_empty_dict) (fst Node_with_empty_dict)) as [Hempty _].
  - discriminate.
  - apply surjective_pairing.
  - destruct Hempty as (Hsame & Hstill & Hrec).
    + reflexivity.
    + split; [| split].
      * rewrite (surjective_pairing Node_with_empty_dict). exact Hsame.
      * exact Hstill.
      * exact Hrec.
Defined.

(** An invocation with metadata for the field [Node.next]. *)
Definition documented_self : M2P :=
  MkM2P MethodOther
    [("Node", MkDescFromOption [("next", [("skip", PVBool true)])] [] [] [])]
    "FieldInfo" global_cache "BaseModel" "protobuf_to_pydantic.gen_model"
    (message_name_type_dict demo_env) (message_name_default_factory_dict demo_env).

Lemma field_metadata_lookup_witness :
  _get_field_info_dict_by_full_name documented_self "pkg.Node.next"
    = Ok (Some [("skip", PVBool true)])
  /\ _get_field_info_dict_by_full_name documented_self "Node.next"
     = Ok (Some [("skip", PVBool true)]).
Proof.
  destruct (field_metadata_lookup_drops_the_first_component documented_self
              "pkg" "Node" "next") as [H3 H2].
  - reflexivity.
  - reflexivity.
  - split.
    + exact H3.
    + apply H2. reflexivity.
Defined.

(** [message Choice { oneof kind { int32 a = 1; string b = 2; } }] *)
Definition Choice_kind : OneofDescriptor :=
  MkOneofDescriptor "kind" "pkg.Choice.kind" ["a"; "b"].
Definition Choice : Descriptor :=
  MkDescriptor "Choice" "pkg.Choice" "pkg/demo.proto"
    [ MkFieldDescriptor "a" "pkg.Choice.a" TYPE_INT32 LABEL_OPTIONAL None None
        (Some Choice_kind) (PyInt 0);
      MkFieldDescriptor "b" "pkg.Choice.b" TYPE_STRING LABEL_OPTIONAL None None
        (Some Choice_kind) (PyStr "") ]
    [] [] [Choice_kind].

Lemma ordinary_oneof_witness :
  exists entry,
    dict_get "pkg.Choice.kind" (fst (_one_of_handle demo_self Choice)) = Some entry
    /\ (forall n, In n ["a"; "b"] -> str_in n (fields entry) = true)
    /\ (dict_get "Choice" (_field_doc_dict demo_self) = None -> required entry = false).
Proof.
  apply (ordinary_oneof_is_recorded demo_self Choice Choice_kind).
  - left. reflexivity.
  - intros f o Hin Ho Hm. simpl in Hin.
    destruct Hin as [<- | [<- | []]]; simpl in Ho; injection Ho as <-;
      discriminate Hm.
Defined.

(** [message Bag { map<string, int32> items = 1; }]: the field's type is
    the synthetic message [ItemsEntry]. *)
Definition ItemsEntry : Descriptor :=
  MkDescriptor "ItemsEntry" "pkg.Bag.ItemsEntry" "pkg/demo.proto"
    [ scalar_field "key" "pkg.Bag.ItemsEntry.key" TYPE_STRING (PyStr "");
      scalar_field "value" "pkg.Bag.ItemsEntry.value" TYPE_INT32 (PyInt 0) ]
    [] [] [].
Definition Bag_items : FieldDescriptor :=
  MkFieldDescriptor "items" "pkg.Bag.items" TYPE_MESSAGE LABEL_REPEATED
    (Some "pkg.Bag.ItemsEntry") None None PydanticUndefined.
Definition Bag : Descriptor :=
  MkDescriptor "Bag" "pkg.Bag" "pkg/demo.proto" [Bag_items] [ItemsEntry] [] [].

Definition map_env : Env :=
  MkEnv {[ "pkg.Bag" := Bag; "pkg.Bag.ItemsEntry" := ItemsEntry ]}
    demo_python_type demo_common_type
    (message_name_type_dict demo_env) (message_name_default_factory_dict demo_env)
    (fun file => file) true (fun _ _ _ _ _ => None) (fun _ _ => false)
    (fun d => Ok d) (fun d _ _ _ => Ok d) (fun d => Ok d) (fun d _ _ _ => Ok d)
    (fun d => Ok d) (fun _ _ => Ok false).

Lemma map_field_witness :
  _protobuf_field_type_is_type_message_handler map_env
    (fun _ _ _ => raise RecursionError) demo_self
    (message_field_dataclass Bag Bag_items) empty_world
  = (Ok (with_field_default_factory (Some FactoryDict)
           (with_field_type (TDict [TBuiltin "str"; TBuiltin "int"])
              (with_field_type_name (Some "map")
                 (message_field_dataclass Bag Bag_items)))), empty_world).
Proof.
  destruct (entry_named_type_is_read_as_a_map map_env
              (fun _ _ _ => raise RecursionError) demo_self
              (message_field_dataclass Bag Bag_items) ItemsEntry
              [TBuiltin "str"; TBuiltin "int"] empty_world) as [Hmap _].
  - vm_compute. reflexivity.
  - reflexivity.
  - vm_compute. reflexivity.
  - repeat constructor.
  - apply Hmap. reflexivity.
Defined.

(** Two fields of the enum [Color], which is declared beside the message. *)
Definition Color : EnumDescriptor :=
  MkEnumDescriptor "Color" "pkg.Color" "pkg/demo.proto" [("RED", 0%Z); ("BLUE", 1%Z)].
Definition enum_field (name full_name : string) : FieldDescriptor :=
  MkFieldDescriptor name full_name TYPE_ENUM LABEL_OPTIONAL None (Some Color) None
    (PyInt 0).
Definition Paint : Descriptor :=
  MkDescriptor "Paint" "pkg.Paint" "pkg/demo.proto"
    [enum_field "front" "pkg.Paint.front"; enum_field "back" "pkg.Paint.back"] [] [] [].

Lemma enum_field_witness :
  exists fd1' fd2' w1 w2,
    _protobuf_field_type_is_type_enum_handler demo_env
      (message_field_dataclass Paint (enum_field "front" "pkg.Paint.front")) empty_world
    = (Ok fd1', w1)
    /\ _protobuf_field_type_is_type_enum_handler demo_env
         (message_field_dataclass Paint (enum_field "back" "pkg.Paint.back")) w1
       = (Ok fd2', w2)
    /\ field_type fd1' = TClass 0
    /\ field_type fd2' = TClass 1
    /\ field_type fd1' <> field_type fd2'
    /\ field_default fd1' = PyInt 0 /\ field_default fd2' = PyInt 0.
Proof.
  apply (enum_field_classes demo_env
           (message_field_dataclass Paint (enum_field "front" "pkg.Paint.front"))
           (message_field_dataclass Paint (enum_field "back" "pkg.Paint.back"))
           Color Color empty_world); reflexivity.
Defined.

(** The field [Node.value] and a repeated field of 32-bit integers. *)
Definition Node_value : FieldDescriptor :=
  scalar_field "value" "pkg.Node.value" TYPE_INT32 (PyInt 0).
Definition Node_tags : FieldDescriptor :=
  MkFieldDescriptor "tags" "pkg.Node.tags" TYPE_INT32 LABEL_REPEATED None None None
    (PyInt 0).

Lemma scalar_field_witness :
  exists vars',
    parse_field demo_env (fun _ _ _ => raise RecursionError) demo_self Node false []
      (MkLocals [] [] [] []) Node_tags empty_world = (Ok vars', empty_world)
    /\ annotation_dict vars'
       = [("tags", (TList (TBuiltin "int"),
                    MkFieldInfo "FieldInfo"
                      [ ("default", PVDefault PydanticUndefined);
                        ("default_factory", PVFactory (Some FactoryList)) ]))]
    /\ l_validators vars' = []
    /\ l_nested_message_dict vars' = [].
Proof.
  apply (scalar_field_is_emitted_with_its_default demo_env
           (fun _ _ _ => raise RecursionError) demo_self Node false []
           (MkLocals [] [] [] []) Node_tags (TBuiltin "int") empty_world);
    first [reflexivity | discriminate].
Defined.

Lemma from_model_witness :
  exists code_ref,
    from_model (snd Node_after_Ping) (TClass 2) = Ok code_ref
    /\ cr_one_of_dict code_ref = fst (_one_of_handle demo_self Node)
    /\ cr_base_model code_ref = _pydantic_base demo_self.
Proof.
  apply (from_model_finds_the_record 5 demo_env demo_self Node "" false after_Ping
           (snd Node_after_Ping) 2).
  - vm_compute. reflexivity.
  - vm_compute. reflexivity.
Defined.

End GenModel.

(** ** util.py *)

Module Util.

(** *** check_dict_one_of *)

Section CheckDictOneOf.

Variable V : Type.
(** Python truthiness of a value, and whether its class is the class of
    [dataclasses.MISSING]. *)
Variable truthy : V -> bool.
Variable is_MISSING : V -> bool.

(** The condition of the list comprehension, for one key. *)
Definition has_value (desc_dict : gmap string V) (key : string) : bool :=
  match desc_dict !! key with
  | Some v => truthy v && negb (is_MISSING v)
  | None => false
  end.

(** [None] stands for the [RuntimeError] the function raises. *)
Definition check_dict_one_of (desc_dict : gmap string V) (key_list : list string)
    : option bool :=
  if (1 <? length (List.filter (has_value desc_dict) key_list))%nat then None
  else Some true.

Lemma two_in_filter (f : string -> bool) (l : list string) :
  List.NoDup l ->
  (1 < length (List.filter f l)
   <-> exists k1 k2, In k1 l /\ In k2 l /\ k1 <> k2 /\ f k1 = true /\ f k2 = true).
Proof using Type.
  intros Hnd. pose proof (List.NoDup_filter f Hnd) as Hndf. split.
  - intros Hlen. destruct (List.filter f l) as [| x [| y rest]] eqn:E;
      simpl in Hlen; try lia.
    assert (Hx : In x (List.filter f l)) by (rewrite E; left; reflexivity).
    assert (Hy : In y (List.filter f l)) by (rewrite E; right; left; reflexivity).
    apply List.filter_In in Hx as [Hx Hfx]. apply List.filter_In in Hy as [Hy Hfy].
    exists x, y. repeat split; try assumption.
    intros ->. apply Stdlib.Lists.List.NoDup_cons_iff in Hndf as [Hn _].
    apply Hn. left. reflexivity.
  - intros (k1 & k2 & H1 & H2 & Hne & F1 & F2).
    assert (Hk1 : In k1 (List.filter f l)) by (apply List.filter_In; auto).
    assert (Hk2 : In k2 (List.filter f l)) by (apply List.filter_In; auto).
    destruct (List.filter f l) as [| x [| y rest]]; simpl.
    + destruct Hk1.
    + destruct Hk1 as [<- | []]. destruct Hk2 as [<- | []]. congruence.
    + lia.
Qed.

(** With a list of distinct keys, [check_dict_one_of] raises exactly when
    two different keys of the list both have a value in the dictionary (a
    truthy one that is not [MISSING]) and returns [True] otherwise: with no
    such key or with one. A key that is listed twice counts twice. *)
Theorem check_dict_one_of_raises_on_two_values (desc_dict : gmap string V)
    (key_list : list string) :
  List.NoDup key_list ->
  (check_dict_one_of desc_dict key_list = None
   <-> exists k1 k2, In k1 key_list /\ In k2 key_list /\ k1 <> k2
                     /\ has_value desc_dict k1 = true /\ has_value desc_dict k2 = true)
  /\ (check_dict_one_of desc_dict key_list = Some true
      <-> forall k1 k2, In k1 key_list -> In k2 key_list ->
            has_value desc_dict k1 = true -> has_value desc_dict k2 = true -> k1 = k2)
  /\ (forall k, has_value desc_dict k = true ->
                check_dict_one_of desc_dict [k; k] = None).
Proof using Type.
  intros Hnd. pose proof (two_in_filter (has_value desc_dict) key_list Hnd) as Htwo.
  unfold check_dict_one_of. split; [| split].
  - destruct (Nat.ltb_spec 1 (length (List.filter (has_value desc_dict) key_list)))
      as [Hlt | Hge].
    + split; [intros _; apply Htwo, Hlt | reflexivity].
    + split; [discriminate |]. intros H. apply Htwo in H. lia.
  - destruct (Nat.ltb_spec 1 (length (List.filter (has_value desc_dict) key_list)))
      as [Hlt | Hge].
    + split; [discriminate |]. intros Hall.
      apply Htwo in Hlt as (k1 & k2 & H1 & H2 & Hne & F1 & F2).
      destruct (Hne (Hall k1 k2 H1 H2 F1 F2)).
    + split; [| reflexivity]. intros _ k1 k2 H1 H2 F1 F2.
      destruct (String.eqb_spec k1 k2) as [Heq | Hne]; [exact Heq |].
      assert (1 < length (List.filter (has_value desc_dict) key_list)); [| lia].
      apply Htwo. exists k1, k2. auto.
  - intros k Hk. simpl. rewrite Hk. reflexivity.
Qed.

End CheckDictOneOf.

(** *** use_worker_dir_in_ctx *)

(** [list.remove(x)]: the first occurrence goes; [None] is the
    [ValueError] of a list that does not hold [x]. *)
Fixpoint list_remove (x : string) (l : list string) : option (list string) :=
  match l with
  | [] => None
  | y :: l' =>
      if String.eqb y x then Some l'
      else match list_remove x l' with
           | Some r => Some (y :: r)
           | None => None
           end
  end.

(** The block under [with]: it works on [sys.path] and ends normally or
    with an exception. *)
Definition Block (A : Type) : Type := list string -> result A * list string.

Definition use_worker_dir_in_ctx {A} (worker_dir : option string) (block : Block A)
    : Block A :=
  fun sys_path =>
    match worker_dir with
    | Some dir =>
        if negb (String.eqb dir "") then
          let parent_path_exist := str_in dir sys_path in
          if negb parent_path_exist then
            let '(r, sys_path') := block (sys_path ++ [dir])%list in
            (* finally *)
            match list_remove dir sys_path' with
            | Some p => (r, p)
            | None => (Raise ValueError, sys_path')
            end
          else block sys_path
        else block sys_path
    | None => block sys_path
    end.

Lemma list_remove_appended (x : string) (l : list string) :
  str_in x l = false -> list_remove x (l ++ [x]) = Some l.
Proof.
  induction l as [| y l IH]; simpl; intros H.
  - rewrite String.eqb_refl. reflexivity.
  - apply orb_false_iff in H as [Hxy Hl]. rewrite String.eqb_sym, Hxy.
    rewrite (IH Hl). reflexivity.
Qed.

(** Around a block that leaves [sys.path] as it finds it, the context
    manager leaves [sys.path] as it was, whether the block ends normally or
    raises; the outcome is the block's own, and the block runs with the
    worker directory in [sys.path] whenever one is given. *)
Theorem use_worker_dir_restores_sys_path {A} (worker_dir : option string)
    (block : Block A) (sys_path : list string) :
  (forall p, snd (block p) = p) ->
  snd (use_worker_dir_in_ctx worker_dir block sys_path) = sys_path
  /\ exists p,
       fst (use_worker_dir_in_ctx worker_dir block sys_path) = fst (block p)
       /\ (forall x, In x sys_path -> In x p)
       /\ (forall dir, worker_dir = Some dir -> dir <> "" -> In dir p).
Proof.
  intros Hblock. unfold use_worker_dir_in_ctx.
  destruct worker_dir as [dir |].
  2:{ split; [apply Hblock |]. exists sys_path. split; [reflexivity |].
      split; [auto | discriminate]. }
  destruct (String.eqb_spec dir "") as [-> | Hne]; simpl.
  { split; [apply Hblock |]. exists sys_path. split; [reflexivity |].
    split; [auto |]. intros d Hd. injection Hd as <-. congruence. }
  destruct (str_in dir sys_path) eqn:Hin; simpl.
  - split; [apply Hblock |]. exists sys_path. split; [reflexivity |].
    split; [auto |]. intros d Hd _. injection Hd as <-. apply str_in_In, Hin.
  - pose proof (Hblock (sys_path ++ [dir])%list) as Hp.
    destruct (block (sys_path ++ [dir])%list) as [r p'] eqn:E. simpl in Hp. subst p'.
    rewrite (list_remove_appended dir sys_path Hin). simpl.
    split; [reflexivity |]. exists (sys_path ++ [dir])%list. rewrite E.
    split; [reflexivity |]. split.
    + intros x Hx. apply in_or_app. left. exact Hx.
    + intros d Hd _. injection Hd as <-. apply in_or_app. right. left. reflexivity.
Qed.

(** *** replace_protobuf_type_to_python_type *)

(** [timedelta(microseconds=n)]: CPython normalises to days, seconds and
    microseconds and refuses more than 999999999 days. *)
Definition timedelta_of_microseconds (n : Z) : result CustomerValidator.timedelta :=
  let seconds := (n / 1000000)%Z in
  let days := (seconds / 86400)%Z in
  if (Z.abs days >? 999999999)%Z then Raise OverflowError
  else Ok (CustomerValidator.Timedelta days (seconds mod 86400) (n mod 1000000)).

Section ReplaceType.

(** Values of the types the function leaves alone. *)
Variable Raw : Type.
(** [n / 1000000] on an [int] (true division). *)
Variable microseconds_to_seconds : Z -> float.

(** A protobuf [Duration] or [Timestamp] stands for what its
    [ToMicroseconds()] returns; a list is a Python list or a protobuf
    repeated container. *)
Inductive Value : Type :=
  | Duration (microseconds : Z)
  | Timestamp (microseconds : Z)
  | ListValue (items : list Value)
  | TimedeltaValue (d : CustomerValidator.timedelta)
  | FloatValue (f : float)
  | Other (r : Raw).

Fixpoint replace_protobuf_type_to_python_type (value : Value) : result Value :=
  match value with
  | Duration microseconds =>
      rbind (timedelta_of_microseconds microseconds) (fun d => Ok (TimedeltaValue d))
  | Timestamp microseconds => Ok (FloatValue (microseconds_to_seconds microseconds))
  | ListValue items =>
      rbind ((fix each (l : list Value) : result (list Value) :=
                match l with
                | [] => Ok []
                | i :: rest =>
                    rbind (replace_protobuf_type_to_python_type i) (fun i' =>
                    rbind (each rest) (fun rest' => Ok (i' :: rest')))
                end) items)
        (fun l => Ok (ListValue l))
  | other => Ok other
  end.

(** The list comprehension of the function. *)
Fixpoint replace_each (l : list Value) : result (list Value) :=
  match l with
  | [] => Ok []
  | i :: rest =>
      rbind (replace_protobuf_type_to_python_type i) (fun i' =>
      rbind (replace_each rest) (fun rest' => Ok (i' :: rest')))
  end.

Lemma replace_list (items : list Value) :
  replace_protobuf_type_to_python_type (ListValue items)
  = rbind (replace_each items) (fun l => Ok (ListValue l)).
Proof using Type.
  reflexivity.
Qed.

Lemma Value_nested_ind (P : Value -> Prop) :
  (forall n, P (Duration n)) ->
  (forall n, P (Timestamp n)) ->
  (forall l, Forall P l -> P (ListValue l)) ->
  (forall d, P (TimedeltaValue d)) ->
  (forall f, P (FloatValue f)) ->
  (forall r, P (Other r)) ->
  forall v, P v.
Proof using Type.
  intros Hd Ht Hl Htd Hf Ho. fix IH 1. intros [n | n | l | d | f | r].
  - apply Hd.
  - apply Ht.
  - apply Hl. induction l as [| x l IHl]; constructor; [apply IH | exact IHl].
  - apply Htd.
  - apply Hf.
  - apply Ho.
Qed.

Lemma timedelta_of_microseconds_Ok (n : Z) (d : CustomerValidator.timedelta) :
  timedelta_of_microseconds n = Ok d ->
  CustomerValidator.td_normalized d /\ CustomerValidator.td_total_microseconds d = n.
Proof using Type.
  unfold timedelta_of_microseconds.
  destruct (Z.abs (n / 1000000 / 86400) >? 999999999)%Z; [discriminate |].
  intros H. injection H as <-.
  unfold CustomerValidator.td_normalized, CustomerValidator.td_total_microseconds.
  simpl.
  pose proof (Z.mod_pos_bound (n / 1000000) 86400 ltac:(lia)).
  pose proof (Z.mod_pos_bound n 1000000 ltac:(lia)).
  pose proof (Z.div_mod (n / 1000000) 86400 ltac:(lia)).
  pose proof (Z.div_mod n 1000000 ltac:(lia)).
  split; [split; assumption | lia].
Qed.

(** A second pass over a converted value changes nothing. *)
Lemma replace_idempotent (v v' : Value) :
  replace_protobuf_type_to_python_type v = Ok v' ->
  replace_protobuf_type_to_python_type v' = Ok v'.
Proof using Type.
  revert v'. induction v as [n | n | l IHl | d | f | r] using Value_nested_ind;
    intros v' H.
  - simpl in H. destruct (timedelta_of_microseconds n); [| discriminate H].
    injection H as <-. reflexivity.
  - injection H as <-. reflexivity.
  - rewrite replace_list in H.
    destruct (replace_each l) as [l' |] eqn:E; [| discriminate H].
    injection H as <-. rewrite replace_list.
    assert (Hl' : replace_each l' = Ok l').
    { revert l' E. induction IHl as [| x l Hx _ IH]; intros l' E.
      - injection E as <-. reflexivity.
      - simpl in E.
        destruct (replace_protobuf_type_to_python_type x) as [x' |] eqn:Ex;
          [| discriminate E].
        simpl in E. destruct (replace_each l) as [r' |] eqn:Er; [| discriminate E].
        injection E as <-. simpl. rewrite (Hx x' eq_refl). simpl.
        rewrite (IH r' eq_refl). reflexivity. }
    rewrite Hl'. reflexivity.
  - injection H as <-. reflexivity.
  - injection H as <-. reflexivity.
  - injection H as <-. reflexivity.
Qed.

Lemma replace_each_length (l l' : list Value) :
  replace_each l = Ok l' -> length l' = length l.
Proof using Type.
  revert l'. induction l as [| x l IH]; intros l' E.
  - injection E as <-. reflexivity.
  - simpl in E. destruct (replace_protobuf_type_to_python_type x); [| discriminate E].
    simpl in E. destruct (replace_each l) as [r' |]; [| discriminate E].
    injection E as <-. simpl. rewrite (IH r' eq_refl). reflexivity.
Qed.

(** The list comprehension converts item by item, in order. *)
Lemma replace_each_items (l l' : list Value) :
  replace_each l = Ok l' ->
  Forall2 (fun i i' => replace_protobuf_type_to_python_type i = Ok i') l l'.
Proof using Type.
  revert l'. induction l as [| x l IH]; intros l' E.
  - injection E as <-. constructor.
  - simpl in E.
    destruct (replace_protobuf_type_to_python_type x) as [x' |] eqn:Ex;
      [| discriminate E].
    simpl in E. destruct (replace_each l) as [r' |]; [| discriminate E].
    injection E as <-. constructor; [exact Ex | apply IH; reflexivity].
Qed.

(** It returns as soon as every item is converted. *)
Lemma replace_each_complete (l l' : list Value) :
  Forall2 (fun i i' => replace_protobuf_type_to_python_type i = Ok i') l l' ->
  replace_each l = Ok l'.
Proof using Type.
  induction 1 as [| x x' l l' Hx _ IH]; [reflexivity |].
  simpl. rewrite Hx. simpl. rewrite IH. reflexivity.
Qed.

(** When the conversion returns: a [Duration] has become a [timedelta] in
    CPython's normal form that stands for the same number of microseconds,
    a [Timestamp] has become a float, a list has become the list, of the
    same length, of its converted items in their order, any other value
    is returned as it is, and converting the result again returns it
    unchanged. A list whose items are all converted is converted, and a
    duration of at most 999999999 days is always converted. *)
Theorem replace_protobuf_type_converts (value converted : Value) :
  replace_protobuf_type_to_python_type value = Ok converted ->
  replace_protobuf_type_to_python_type converted = Ok converted
  /\ (forall n, value = Duration n ->
        exists d, converted = TimedeltaValue d
                  /\ CustomerValidator.td_normalized d
                  /\ CustomerValidator.td_total_microseconds d = n)
  /\ (forall n, value = Timestamp n ->
        converted = FloatValue (microseconds_to_seconds n))
  /\ (forall l, value = ListValue l ->
        exists l', converted = ListValue l' /\ length l' = length l
                   /\ Forall2 (fun i i' => replace_protobuf_type_to_python_type i = Ok i')
                        l l')
  /\ ((forall n, value <> Duration n) -> (forall n, value <> Timestamp n) ->
      (forall l, value <> ListValue l) -> converted = value)
  /\ (forall l l',
        Forall2 (fun i i' => replace_protobuf_type_to_python_type i = Ok i') l l' ->
        replace_protobuf_type_to_python_type (ListValue l) = Ok (ListValue l'))
  /\ (forall n, (Z.abs n <= 999999999 * 86400000000)%Z ->
        exists d, replace_protobuf_type_to_python_type (Duration n)
                  = Ok (TimedeltaValue d)).
Proof using Type.
  intros H. split; [exact (replace_idempotent value converted H) |].
  split; [| split; [| split; [| split; [| split]]]].
  - intros n ->. simpl in H.
    destruct (timedelta_of_microseconds n) as [d |] eqn:E; [| discriminate H].
    injection H as <-. exists d. split; [reflexivity |].
    apply timedelta_of_microseconds_Ok, E.
  - intros n ->. injection H as <-. reflexivity.
  - intros l ->. rewrite replace_list in H.
    destruct (replace_each l) as [l' |] eqn:E; [| discriminate H].
    injection H as <-. exists l'. split; [reflexivity |].
    split; [apply replace_each_length, E | apply replace_each_items, E].
  - intros Hd Ht Hl. destruct value as [n | n | l | d | f | r].
    + destruct (Hd n eq_refl).
    + destruct (Ht n eq_refl).
    + destruct (Hl l eq_refl).
    + injection H as <-. reflexivity.
    + injection H as <-. reflexivity.
    + injection H as <-. reflexivity.
  - intros l l' Hall. rewrite replace_list, (replace_each_complete l l' Hall).
    reflexivity.
  - intros n Hn. simpl. unfold timedelta_of_microseconds.
    assert (Hdays : (Z.abs (n / 1000000 / 86400) <= 999999999)%Z).
    { rewrite Z.div_div by lia. apply Z.abs_le. apply Z.abs_le in Hn. split.
      - apply Z.div_le_lower_bound; lia.
      - apply Z.div_le_upper_bound; lia. }
    destruct (Z.gtb_spec (Z.abs (n / 1000000 / 86400)) 999999999) as [Hgt | _];
      [lia |].
    eexists. reflexivity.
Qed.

End ReplaceType.

(** *** The utilities at concrete inputs *)

(** A rule dictionary that sets both [gt] and [ge]. *)
Definition demo_desc_dict : gmap string Z := {[ "gt" := 1%Z; "ge" := 2%Z ]}.

Lemma check_dict_one_of_witness :
  check_dict_one_of Z (fun z => negb (Z.eqb z 0)) (fun _ => false) demo_desc_dict
    ["gt"; "ge"] = None.
Proof.
  apply (check_dict_one_of_raises_on_two_values Z (fun z => negb (Z.eqb z 0))
           (fun _ => false) demo_desc_dict ["gt"; "ge"]).
  - repeat constructor; simpl; intuition discriminate.
  - exists "gt", "ge". repeat split; try (simpl; tauto); try discriminate.
Defined.

(** A block that raises and leaves [sys.path] alone. *)
Definition failing_block : Block unit := fun p => (Raise KeyError, p).

Lemma use_worker_dir_witness :
  snd (use_worker_dir_in_ctx (Some "/work") failing_block ["/usr/lib"]) = ["/usr/lib"]
  /\ exists p,
       fst (use_worker_dir_in_ctx (Some "/work") failing_block ["/usr/lib"])
       = fst (failing_block p)
       /\ (forall x, In x ["/usr/lib"] -> In x p)
       /\ (forall dir, Some "/work" = Some dir -> dir <> "" -> In dir p).
Proof.
  apply (use_worker_dir_restores_sys_path (Some "/work") failing_block ["/usr/lib"]).
  intros p. reflexivity.
Defined.

Lemma replace_protobuf_type_witness :
  replace_protobuf_type_to_python_type unit (fun _ => 0%float)
    (ListValue unit [Duration unit (-1500000); Other unit tt])
  = Ok (ListValue unit
          [TimedeltaValue unit (CustomerValidator.Timedelta (-1) 86398 500000);
           Other unit tt])
  /\ replace_protobuf_type_to_python_type unit (fun _ => 0%float)
       (ListValue unit
          [TimedeltaValue unit (CustomerValidator.Timedelta (-1) 86398 500000);
           Other unit tt])
     = Ok (ListValue unit
             [TimedeltaValue unit (CustomerValidator.Timedelta (-1) 86398 500000);
              Other unit tt])
  /\ exists l',
       ListValue unit
         [TimedeltaValue unit (CustomerValidator.Timedelta (-1) 86398 500000);
          Other unit tt] = ListValue unit l'
       /\ length l' = 2
       /\ Forall2 (fun i i' =>
                     replace_protobuf_type_to_python_type unit (fun _ => 0%float) i
                     = Ok i')
            [Duration unit (-1500000); Other unit tt] l'.
Proof.
  assert (Hrun : replace_protobuf_type_to_python_type unit (fun _ => 0%float)
                   (ListValue unit [Duration unit (-1500000); Other unit tt])
                 = Ok (ListValue unit
                         [TimedeltaValue unit
                            (CustomerValidator.Timedelta (-1) 86398 500000);
                          Other unit tt]))
    by (vm_compute; reflexivity).
  split; [exact Hrun |].
  destruct (replace_protobuf_type_converts unit (fun _ => 0%float) _ _ Hrun)
    as (Hagain & _ & _ & Hlist & _).
  split; [exact Hagain |].
  apply (Hlist [Duration unit (-1500000); Other unit tt]). reflexivity.
Defined.

End Util.
